(** * Yahoo fantasy extractor: response normaliser and season assembly

    A shallow embedding of [scripts/extract_yahoo.py]: the parsers
    [_parse_league_settings], [_parse_standings], [_parse_team_entry],
    [_parse_scoreboard], the season assembler [extract_season_data], the
    two bracket reconstructions [_build_bracket_from_rankings] and
    [_determine_placements], the league discovery [discover_leagues], the
    name filter [filter_leagues], the three league endpoints and the
    table of managers built by [main].

    Python values coming out of [resp.json()] are modelled by the type
    [json]; a Python [dict] with string keys is an association list in
    insertion order; a raised exception is [None] in the [option] monad.
    Floats are modelled by the rational number they denote (NaN and the
    infinities are outside the model) and strings by sequences of 8-bit
    characters. Printing and [time.sleep] are left out. *)

From Stdlib Require Import ZArith QArith Qround String Ascii List Lia.
From Stdlib Require Import Permutation Sorted.
From Stdlib Require Import DecimalString.
From Stdlib Require Import DecimalNat DecimalZ DecimalPos DecimalFacts.
From stdpp Require Import base option list gmap strings.

Local Open Scope string_scope.
Local Open Scope Z_scope.
Local Open Scope list_scope.

Set Warnings "-clear-no-such-hyp".

(** ** Python values *)

Module Py.

Unset Elimination Schemes.
Inductive json : Type :=
  | JNull
  | JBool (b : bool)
  | JInt (z : Z)
  | JFloat (q : Q)
  | JStr (s : string)
  | JList (l : list json)
  | JDict (d : list (string * json)).
Set Elimination Schemes.

(** A [dict] whose keys are strings, in insertion order. *)
Definition pydict : Type := list (string * json).

(** [bool(v)]. *)
Definition truthy (v : json) : bool :=
  match v with
  | JNull => false
  | JBool b => b
  | JInt z => negb (z =? 0)
  | JFloat q => negb (Qeq_bool q 0)
  | JStr s => negb (String.eqb s "")
  | JList l => match l with [] => false | _ :: _ => true end
  | JDict d => match d with [] => false | _ :: _ => true end
  end.

(** [a or b]. *)
Definition py_or (a b : json) : json := if truthy a then a else b.

(** [d.get(k)] on the association list; [None] when the key is absent. *)
Fixpoint dict_get (k : string) (d : pydict) : option json :=
  match d with
  | [] => None
  | (k', v) :: d' => if String.eqb k k' then Some v else dict_get k d'
  end.

(** [d[k] = v]: overwrite in place, or append a new key at the end. *)
Fixpoint dict_set (k : string) (v : json) (d : pydict) : pydict :=
  match d with
  | [] => [(k, v)]
  | (k', v') :: d' =>
      if String.eqb k k' then (k, v) :: d' else (k', v') :: dict_set k v d'
  end.

(** [d.update(s)]. *)
Definition dict_update (d s : pydict) : pydict :=
  fold_left (fun acc kv => dict_set (fst kv) (snd kv) acc) s d.

(** [d.get(k, dflt)] on a dict known to be one. *)
Definition dict_get_or (k : string) (dflt : json) (d : pydict) : json :=
  default dflt (dict_get k d).

(** [v.get(k, dflt)] on an arbitrary value: [AttributeError] unless [v] is a
    dict. *)
Definition py_get (v : json) (k : string) (dflt : json) : option json :=
  match v with
  | JDict d => Some (dict_get_or k dflt d)
  | _ => None
  end.

Definition chars (s : string) : list json :=
  map (fun c => JStr (String c EmptyString)) (list_ascii_of_string s).

(** [for x in v]: the elements of a list, the keys of a dict, the characters
    of a string; [TypeError] otherwise. *)
Definition py_iter (v : json) : option (list json) :=
  match v with
  | JList l => Some l
  | JDict d => Some (map (fun kv => JStr (fst kv)) d)
  | JStr s => Some (chars s)
  | _ => None
  end.

(** [len(v)]. *)
Definition py_len (v : json) : option nat :=
  match v with
  | JList l => Some (length l)
  | JDict d => Some (length d)
  | JStr s => Some (String.length s)
  | _ => None
  end.

(** [v[i]] with a non-negative integer index: [IndexError] out of range,
    [KeyError] on a dict (whose keys are strings), [TypeError] otherwise. *)
Definition py_index (v : json) (i : nat) : option json :=
  match v with
  | JList l => l !! i
  | JStr s => chars s !! i
  | _ => None
  end.

(** [range(v)]: [v] must be an [int] ([bool] is a subclass of [int]). *)
Definition py_range (v : json) : option (list nat) :=
  match v with
  | JInt z => Some (seq 0 (Z.to_nat z))
  | JBool b => Some (seq 0 (if b then 1%nat else 0%nat))
  | _ => None
  end.

(** [range(lo, hi)] on integers. *)
Definition range_Z (lo hi : Z) : list Z :=
  map (fun i => lo + Z.of_nat i) (seq 0 (Z.to_nat (hi - lo))).

(** [str(i)] for a non-negative integer. *)
Definition str_of_nat (n : nat) : string :=
  NilZero.string_of_uint (Nat.to_uint n).

(** [str(z)] for an integer. *)
Definition str_of_Z (z : Z) : string :=
  NilZero.string_of_int (Z.to_int z).

(** The rational denoted by a float, rounded toward zero: [int(x)]. *)
Definition Qtrunc (q : Q) : Z := Z.quot (Qnum q) (Z.pos (Qden q)).

(** What the interpreter's built-ins do on text and in binary floating
    point is taken as given: parsing a string as an integer or a float
    ([None] is [ValueError]), converting an integer to the nearest float
    ([None] is [OverflowError]), [round((x % 1) * 100)] on floats, and the
    text an f-string produces for a value that is not a string. *)
Record builtins : Type := {
  int_of_str : string -> option Z;
  float_of_str : string -> option Q;
  float_of_int : Z -> option Q;
  round_frac100 : Q -> Z;
  repr : json -> string
}.

Section Conversions.
Context (bi : builtins).

(** [int(v)]. *)
Definition py_int (v : json) : option Z :=
  match v with
  | JInt z => Some z
  | JBool b => Some (Z.b2z b)
  | JFloat q => Some (Qtrunc q)
  | JStr s => int_of_str bi s
  | _ => None
  end.

(** [float(v)]. The floats of the model are the finite ones: a string
    that [float] reads as an infinity or a NaN has no counterpart here. *)
Definition py_float (v : json) : option Q :=
  match v with
  | JFloat q => Some q
  | JInt z => float_of_int bi z
  | JBool b => Some (if b then 1%Q else 0%Q)
  | JStr s => float_of_str bi s
  | _ => None
  end.

(** [f"{v}"]. *)
Definition py_format (v : json) : string :=
  match v with
  | JStr s => s
  | _ => repr bi v
  end.
End Conversions.

(** A loop [for x in l: body] whose body may raise: the state after the
    last iteration, or [None] as soon as one iteration raises. *)
Fixpoint for_each {A S : Type} (body : S -> A -> option S) (l : list A) (s : S)
  : option S :=
  match l with
  | [] => Some s
  | x :: l' =>
      match body s x with
      | Some s' => for_each body l' s'
      | None => None
      end
  end.

(** A loop inside [try: ... except: pass] whose body commits its changes to
    the state only at the end of an iteration: the state reached when the
    loop ends or when an iteration raises. *)
Fixpoint run_until_raise {A S : Type} (body : S -> A -> option S) (l : list A)
  (s : S) : S :=
  match l with
  | [] => s
  | x :: l' =>
      match body s x with
      | Some s' => run_until_raise body l' s'
      | None => s
      end
  end.

(** Keys of a dict indexed by arbitrary hashable values: Python compares
    numbers across [bool], [int] and [float]. *)
Definition hashable (v : json) : bool :=
  match v with JList _ | JDict _ => false | _ => true end.

Definition num_of (v : json) : option Q :=
  match v with
  | JBool b => Some (if b then 1%Q else 0%Q)
  | JInt z => Some (inject_Z z)
  | JFloat q => Some q
  | _ => None
  end.

Definition key_eqb (a b : json) : bool :=
  match a, b with
  | JStr s, JStr t => String.eqb s t
  | JNull, JNull => true
  | _, _ =>
      match num_of a, num_of b with
      | Some x, Some y => Qeq_bool x y
      | _, _ => false
      end
  end.

(** A dict from hashable values to integers ([team_key_to_roster_id]). *)
Definition keydict : Type := list (json * Z).

Fixpoint keydict_find (k : json) (d : keydict) : option Z :=
  match d with
  | [] => None
  | (k', v) :: d' => if key_eqb k' k then Some v else keydict_find k d'
  end.

(** [d.get(k, dflt)]: [TypeError] on an unhashable key. *)
Definition keydict_get (k : json) (dflt : Z) (d : keydict) : option Z :=
  if hashable k then Some (default dflt (keydict_find k d)) else None.

Fixpoint keydict_put (k : json) (v : Z) (d : keydict) : keydict :=
  match d with
  | [] => [(k, v)]
  | (k', v') :: d' =>
      if key_eqb k' k then (k', v) :: d' else (k', v') :: keydict_put k v d'
  end.

(** [d[k] = v]: [TypeError] on an unhashable key. *)
Definition keydict_set (k : json) (v : Z) (d : keydict) : option keydict :=
  if hashable k then Some (keydict_put k v d) else None.

End Py.

Import Py.

(** ** Records of the normalised season *)

Module Matchup.
(** One side of a weekly matchup; [points] is the integer 0 or a float. *)
Record t : Type := {
  roster_id : Z;
  matchup_id : Z;
  points : Q
}.
End Matchup.

Module Placement.
(** One resolved play-off game of the winners bracket. *)
Record t : Type := {
  r : Z; m : Z;
  t1 : Z; t2 : Z;
  w : Z; l : Z;
  p : Z
}.
End Placement.

Module User.
Record t : Type := {
  user_id : json;
  display_name : json;
  avatar : json;
  team_name : json
}.
End User.

Module Roster.
Record settings_t : Type := {
  wins : json;
  losses : json;
  ties : json;
  fpts : Z;
  fpts_decimal : Z;
  fpts_against : Z;
  fpts_against_decimal : Z
}.
Record t : Type := {
  roster_id : Z;
  owner_id : json;
  league_id : string;
  settings : settings_t
}.
End Roster.

(** The entry of [discover_leagues] a season is extracted for. *)
Record league_ref : Type := {
  lg_name : string;
  lg_league_key : string;
  lg_season : string
}.

(** The ["league"] object of the record, without its constant fields
    ([previous_league_id], [leg], [avatar]). *)
Record league_out : Type := {
  lo_league_id : string;
  lo_name : string;
  lo_season : string;
  total_rosters : nat;
  playoff_week_start : Z
}.

Record season_data : Type := {
  league : league_out;
  users : list User.t;
  rosters : list Roster.t;
  matchups : list (list Matchup.t);
  winnersBracket : list Placement.t;
  rosterToOwner : gmap string json
}.

(** The three endpoints of the remote service; [None] is a request that
    raised. *)
Record api : Type := {
  get_league_settings : string -> option json;
  get_league_standings : string -> option json;
  get_league_scoreboard : string -> Z -> option json
}.

(** What [_parse_standings] returns. *)
Record standings : Type := {
  league_info : pydict;
  teams : list pydict
}.

(** ** Bracket from the standings rank *)

Definition championship_placement : Placement.t :=
  {| Placement.r := 2; Placement.m := 1;
     Placement.t1 := 1; Placement.t2 := 2;
     Placement.w := 1; Placement.l := 2;
     Placement.p := 1 |}.

Definition third_place_placement : Placement.t :=
  {| Placement.r := 2; Placement.m := 2;
     Placement.t1 := 3; Placement.t2 := 4;
     Placement.w := 3; Placement.l := 4;
     Placement.p := 3 |}.

Definition _build_bracket_from_rankings (roster_to_owner : gmap Z json)
  : list Placement.t :=
  let bracket := [] in
  let bracket :=
    if bool_decide (is_Some (roster_to_owner !! 1)) &&
       bool_decide (is_Some (roster_to_owner !! 2))
    then bracket ++ [championship_placement] else bracket in
  let bracket :=
    if bool_decide (is_Some (roster_to_owner !! 3)) &&
       bool_decide (is_Some (roster_to_owner !! 4))
    then bracket ++ [third_place_placement] else bracket in
  bracket.

(** ** The parsers and the season assembler *)

Section Extractor.
Context (bi : builtins).

(** [data.get("fantasy_content", {}).get("league", [])]. *)
Definition league_of (data : json) : option json :=
  fc ← py_get data "fantasy_content" (JDict []);
  py_get fc "league" (JList []).

(** [league_data and isinstance(league_data[0], dict)], with
    [league_data[0]] when the test holds. *)
Definition first_dict (league_data : json) : option (option pydict) :=
  if truthy league_data then
    x ← py_index league_data 0;
    Some (match x with JDict d => Some d | _ => None end)
  else Some None.

(** *** League settings *)

Definition default_settings : pydict :=
  [("playoff_start_week", JInt 14); ("end_week", JInt 16);
   ("num_teams", JInt 10)].

(** [if key in src: settings[key] = int(src[key])]. *)
Definition set_int_field (src : pydict) (settings : pydict) (key : string)
  : option pydict :=
  match dict_get key src with
  | Some v => z ← py_int bi v; Some (dict_set key (JInt z) settings)
  | None => Some settings
  end.

(** [if isinstance(s, dict): settings.update(s)]. *)
Definition merge_setting (settings : pydict) (s : json) : pydict :=
  match s with
  | JDict sd => dict_update settings sd
  | _ => settings
  end.

Definition settings_item (settings : pydict) (item : json) : option pydict :=
  match item with
  | JDict it =>
      let settings :=
        match dict_get "settings" it with
        | Some (JList setting_list) =>
            fold_left merge_setting setting_list settings
        | _ => settings
        end in
      settings ← set_int_field it settings "num_teams";
      settings ← set_int_field it settings "end_week";
      settings ← set_int_field it settings "start_week";
      set_int_field it settings "playoff_start_week"
  | _ => Some settings
  end.

Definition meta_keys : list string :=
  ["num_teams"; "end_week"; "start_week"; "playoff_start_week"].

(** The body of the [try] of [_parse_league_settings]. *)
Definition parse_league_settings_try (data : json) : option pydict :=
  league_data ← league_of data;
  items ← py_iter league_data;
  settings ← for_each settings_item items [];
  meta ← first_dict league_data;
  match meta with
  | Some meta => for_each (set_int_field meta) meta_keys settings
  | None => Some settings
  end.

Definition _parse_league_settings (data : json) : pydict :=
  match parse_league_settings_try data with
  | Some settings => settings
  | None => default_settings
  end.

(** *** Standings *)

Definition team_meta_keys : list string :=
  ["team_key"; "team_id"; "name"; "url"; "team_logos";
   "is_owned_by_current_login"].

Definition team_meta_field (sub : pydict) (team : pydict) (key : string)
  : option pydict :=
  match dict_get key sub with
  | None => Some team
  | Some v =>
      if String.eqb key "name" then Some (dict_set "team_name" v team)
      else if String.eqb key "team_logos" then
        match v with
        | JList (JDict logo :: _) =>
            match dict_get "team_logo" logo with
            | Some tl =>
                u ← py_get tl "url" JNull;
                Some (dict_set "team_logo" u team)
            | None => Some team
            end
        | _ => Some team
        end
      else Some (dict_set key v team)
  end.

Definition team_manager (sub : pydict) (team : pydict) : option pydict :=
  match dict_get "managers" sub with
  | Some (JList (JDict mgr :: _)) =>
      match dict_get "manager" mgr with
      | Some mgr_data =>
          nickname ← py_get mgr_data "nickname" (JStr "Unknown");
          let team := dict_set "manager_name" nickname team in
          guid ← py_get mgr_data "guid" (JStr "");
          Some (dict_set "manager_guid" guid team)
      | None => Some team
      end
  | _ => Some team
  end.

Definition team_sub (team : pydict) (sub : json) : option pydict :=
  match sub with
  | JDict sd =>
      team ← for_each (team_meta_field sd) team_meta_keys team;
      team_manager sd team
  | _ => Some team
  end.

Definition team_standings (item : pydict) (team : pydict) : option pydict :=
  match dict_get "team_standings" item with
  | Some st =>
      rank ← py_get st "rank" JNull;
      let team := dict_set "rank" rank team in
      outcome ← py_get st "outcome_totals" (JDict []);
      wins ← py_get outcome "wins" (JInt 0) ≫= py_int bi;
      let team := dict_set "wins" (JInt wins) team in
      losses ← py_get outcome "losses" (JInt 0) ≫= py_int bi;
      let team := dict_set "losses" (JInt losses) team in
      ties ← py_get outcome "ties" (JInt 0) ≫= py_int bi;
      let team := dict_set "ties" (JInt ties) team in
      pf ← py_get st "points_for" (JInt 0) ≫= py_float bi;
      let team := dict_set "points_for" (JFloat pf) team in
      pa ← py_get st "points_against" (JInt 0) ≫= py_float bi;
      Some (dict_set "points_against" (JFloat pa) team)
  | None => Some team
  end.

Definition team_points (item : pydict) (team : pydict) : option pydict :=
  match dict_get "team_points" item with
  | Some tp =>
      total ← py_get tp "total" (JInt 0) ≫= py_float bi;
      Some (dict_set "points_total" (JFloat total) team)
  | None => Some team
  end.

Definition team_item (team : pydict) (item : json) : option pydict :=
  match item with
  | JList subs => for_each team_sub subs team
  | JDict it => team ← team_standings it team; team_points it team
  | _ => Some team
  end.

(** The body of the [try] of [_parse_team_entry], up to the [return]. *)
Definition parse_team_entry_try (team_entry : json) : option pydict :=
  items ← py_iter team_entry;
  for_each team_item items [].

(** [None] is Python's [None], returned for a team without a truthy
    [team_key] and when the body raised. *)
Definition _parse_team_entry (team_entry : json) : option pydict :=
  match parse_team_entry_try team_entry with
  | Some team =>
      if truthy (dict_get_or "team_key" JNull team) then Some team else None
  | None => None
  end.

(** One [team_entry] of a standings team collection. *)
Definition standings_team (teams_data : json) (teams : list pydict) (i : nat)
  : option (list pydict) :=
  e ← py_get teams_data (str_of_nat i) (JDict []);
  team_entry ← py_get e "team" (JList []);
  Some (match _parse_team_entry team_entry with
        | Some team_info =>
            if truthy (JDict team_info) then teams ++ [team_info] else teams
        | None => teams
        end).

Definition standings_item (teams : list pydict) (item : json)
  : option (list pydict) :=
  match item with
  | JDict it =>
      match dict_get "teams" it with
      | Some teams_data =>
          team_count ← py_get teams_data "count" (JInt 0);
          idxs ← py_range team_count;
          for_each (standings_team teams_data) idxs teams
      | None => Some teams
      end
  | _ => Some teams
  end.

(** [None] is Python's [None], returned when the body raised. *)
Definition _parse_standings (data : json) : option standings :=
  league_data ← league_of data;
  meta ← first_dict league_data;
  let league_info := default [] meta in
  n ← py_len league_data;
  teams ←
    (if (1 <? n)%nat then
       second ← py_index league_data 1;
       match second with
       | JDict sd =>
           match dict_get_or "standings" (JList []) sd with
           | JList st => for_each standings_item st []
           | _ => Some []
           end
       | _ => Some []
       end
     else Some []);
  Some {| league_info := league_info; teams := teams |}.

(** *** Weekly scoreboard *)

(** [x.get("0", {}).get(name, x.get(name, {}))]. *)
Definition positional_or_named (x : json) (name : string) : option json :=
  zero ← py_get x "0" (JDict []);
  named ← py_get x name (JDict []);
  py_get zero name named.

(** The scan of [scoreboard.items()] for the first dict value exposing
    ["matchups"]. *)
Fixpoint scan_matchups (items : pydict) (matchup_data : json) : json :=
  match items with
  | [] => matchup_data
  | (_, JDict val) :: rest =>
      match dict_get "matchups" val with
      | Some found => found
      | None => scan_matchups rest matchup_data
      end
  | _ :: rest => scan_matchups rest matchup_data
  end.

(** The part of [_parse_scoreboard] before its loop: [None] when it
    raised, [Some None] when it returned early, the matchup collection
    otherwise. *)
Definition locate_matchups (data : json) : option (option json) :=
  league_data ← league_of data;
  n ← py_len league_data;
  if (n <? 2)%nat then Some None else
  second ← py_index league_data 1;
  scoreboard ← py_get second "scoreboard" (JDict []);
  if negb (truthy scoreboard) then Some None else
  matchup_data ← positional_or_named scoreboard "matchups";
  let matchup_data :=
    if negb (truthy matchup_data) then
      match scoreboard with
      | JDict sb => scan_matchups sb matchup_data
      | _ => matchup_data
      end
    else matchup_data in
  if negb (truthy matchup_data) then Some None else Some (Some matchup_data).

(** The inner [for sub in item] of a matchup team: the last [team_key]. *)
Definition scan_team_key (team_key : json) (sub : json) : json :=
  match sub with
  | JDict sd =>
      match dict_get "team_key" sd with
      | Some k => k
      | None => team_key
      end
  | _ => team_key
  end.

Definition scan_team_item (st : json * Q) (item : json) : option (json * Q) :=
  let '(team_key, team_points) := st in
  match item with
  | JList subs => Some (fold_left scan_team_key subs team_key, team_points)
  | JDict it =>
      match dict_get "team_points" it with
      | Some tp =>
          total ← py_get tp "total" (JInt 0) ≫= py_float bi;
          Some (team_key, total)
      | None => Some st
      end
  | _ => Some st
  end.

(** One iteration of [for t in range(team_count)]. *)
Definition matchup_team (team_key_to_roster_id : keydict)
  (teams_in_matchup : json) (matchup_id : Z)
  (match_teams : list Matchup.t) (t : nat) : option (list Matchup.t) :=
  e ← py_get teams_in_matchup (str_of_nat t) (JDict []);
  team_entry ← py_get e "team" (JList []);
  items ← py_iter team_entry;
  st ← for_each scan_team_item items (JNull, 0%Q);
  let '(team_key, team_points) := st in
  if truthy team_key then
    roster_id ← keydict_get team_key (Z.of_nat t + 1) team_key_to_roster_id;
    Some (match_teams ++
            [{| Matchup.roster_id := roster_id;
                Matchup.matchup_id := matchup_id;
                Matchup.points := team_points |}])
  else Some match_teams.

(** The participants of one matchup: [None] when collecting them raised,
    [Some None] on [continue], the list [match_teams] otherwise. *)
Definition matchup_participants (team_key_to_roster_id : keydict)
  (matchup_data : json) (matchup_id : Z) (i : nat)
  : option (option (list Matchup.t)) :=
  e ← py_get matchup_data (str_of_nat i) (JDict []);
  match_entry ← py_get e "matchup" (JDict []);
  if negb (truthy match_entry) then Some None else
  teams_in_matchup ← positional_or_named match_entry "teams";
  if negb (truthy teams_in_matchup) then Some None else
  team_count ← py_get teams_in_matchup "count" (JInt 0);
  ts ← py_range team_count;
  match_teams ←
    for_each (matchup_team team_key_to_roster_id teams_in_matchup matchup_id)
      ts [];
  Some (Some match_teams).

(** One iteration of [for i in range(count)], on the pair
    [(matchups, matchup_id)]. *)
Definition scoreboard_matchup (team_key_to_roster_id : keydict)
  (matchup_data : json) (st : list Matchup.t * Z) (i : nat)
  : option (list Matchup.t * Z) :=
  let '(matchups, matchup_id) := st in
  found ← matchup_participants team_key_to_roster_id matchup_data matchup_id i;
  match found with
  | None => Some st
  | Some match_teams =>
      if (length match_teams =? 2)%nat
      then Some (matchups ++ match_teams, matchup_id + 1)
      else Some st
  end.

Definition _parse_scoreboard (data : json) (team_key_to_roster_id : keydict)
  : list Matchup.t :=
  match locate_matchups data with
  | Some (Some matchup_data) =>
      match py_get matchup_data "count" (JInt 0) ≫= py_range with
      | Some idxs =>
          fst (run_until_raise
                 (scoreboard_matchup team_key_to_roster_id matchup_data)
                 idxs ([], 1))
      | None => []
      end
  | _ => []
  end.

(** *** Season assembly *)

(** The sort key [int(t.get("rank") or 99)]. *)
Definition rank_key (t : pydict) : option Z :=
  py_int bi (py_or (dict_get_or "rank" JNull t) (JInt 99)).

(** Insertion into a list sorted by key, before the first element whose
    key is not smaller. *)
Fixpoint insert_by_key {A : Type} (x : Z * A) (l : list (Z * A))
  : list (Z * A) :=
  match l with
  | [] => [x]
  | y :: l' =>
      if fst x <=? fst y then x :: y :: l' else y :: insert_by_key x l'
  end.

(** The stable sort of a list of keyed elements. *)
Definition stable_sort {A : Type} (l : list (Z * A)) : list (Z * A) :=
  foldr insert_by_key [] l.

(** [sorted(l, key=key)]: the keys are computed first, any of them may
    raise; the sort is stable. *)
Definition py_sorted {A : Type} (key : A -> option Z) (l : list A)
  : option (list A) :=
  keys ← mapM key l;
  Some (map snd (stable_sort (zip keys l))).

(** [enumerate(l)]. *)
Definition enumerate {A : Type} (l : list A) : list (nat * A) :=
  zip (seq 0 (length l)) l.

(** [team.get("manager_guid", f"yahoo_{team.get('team_key', idx)}")]. *)
Definition manager_id_of (idx : nat) (team : pydict) : json :=
  dict_get_or "manager_guid"
    (JStr (String.append "yahoo_"
             (py_format bi
                (dict_get_or "team_key" (JInt (Z.of_nat idx)) team))))
    team.

Definition user_of (idx : nat) (team : pydict) : User.t :=
  let team_id := Z.of_nat idx + 1 in
  {| User.user_id := manager_id_of idx team;
     User.display_name :=
       dict_get_or "manager_name"
         (JStr (String.append "Manager " (str_of_Z team_id))) team;
     User.avatar := dict_get_or "team_logo" JNull team;
     User.team_name := dict_get_or "team_name" (JStr "") team |}.

(** The roster of a team. On the finite floats of the model
    [int(float(x))] and [round((x % 1) * 100)] do not raise; what the source
    does on an infinity or a NaN is outside the model. *)
Definition roster_of (league_key : string) (idx : nat) (team : pydict)
  : option Roster.t :=
  let team_id := Z.of_nat idx + 1 in
  pf ← py_float bi (dict_get_or "points_for" (JInt 0) team);
  pa ← py_float bi (dict_get_or "points_against" (JInt 0) team);
  Some
    {| Roster.roster_id := team_id;
       Roster.owner_id := manager_id_of idx team;
       Roster.league_id := league_key;
       Roster.settings :=
         {| Roster.wins := dict_get_or "wins" (JInt 0) team;
            Roster.losses := dict_get_or "losses" (JInt 0) team;
            Roster.ties := dict_get_or "ties" (JInt 0) team;
            Roster.fpts := Qtrunc pf;
            Roster.fpts_decimal := round_frac100 bi pf;
            Roster.fpts_against := Qtrunc pa;
            Roster.fpts_against_decimal := round_frac100 bi pa |} |}.

(** The state of the first loop over [teams_sorted]:
    [(users, rosters, roster_to_owner)]. *)
Definition relations : Type :=
  (list User.t * list Roster.t * gmap Z json)%type.

Definition add_team (league_key : string) (st : relations)
  (it : nat * pydict) : option relations :=
  let '(users, rosters, roster_to_owner) := st in
  let '(idx, team) := it in
  let team_id := Z.of_nat idx + 1 in
  roster ← roster_of league_key idx team;
  Some (users ++ [user_of idx team],
        rosters ++ [roster],
        <[team_id := manager_id_of idx team]> roster_to_owner).

(** The second loop: [team_key_to_roster_id[team.get("team_key", "")] =
    idx + 1]. *)
Definition add_team_key (d : keydict) (it : nat * pydict) : option keydict :=
  let '(idx, team) := it in
  keydict_set (dict_get_or "team_key" (JStr "") team) (Z.of_nat idx + 1) d.

(** One iteration of the weekly loop: what is appended to
    [all_matchups]. *)
Definition week_matchups (a : api) (league_key : string)
  (team_key_to_roster_id : keydict) (week : Z) : list Matchup.t :=
  match get_league_scoreboard a league_key week with
  | Some scoreboard => _parse_scoreboard scoreboard team_key_to_roster_id
  | None => []
  end.

(** [{str(k): v for k, v in roster_to_owner.items()}]. *)
Definition stringify_keys (roster_to_owner : gmap Z json) : gmap string json :=
  list_to_map
    (map (fun kv => (str_of_Z (fst kv), snd kv)) (map_to_list roster_to_owner)).

(** [extract_season_data] from the standings on, given the three settings
    read before. *)
Definition assemble_season (a : api) (lg : league_ref)
  (num_teams playoff_start end_week : Z) : option season_data :=
  let league_key := lg_league_key lg in
  let regular_season_weeks := playoff_start - 1 in
  standings_data ← get_league_standings a league_key;
  parsed ← _parse_standings standings_data;
  let teams := teams parsed in
  teams_sorted ← py_sorted rank_key teams;
  rel ← for_each (add_team league_key) (enumerate teams_sorted) ([], [], ∅);
  let '(users, rosters, roster_to_owner) := rel in
  team_key_to_roster_id ← for_each add_team_key (enumerate teams_sorted) [];
  let all_matchups :=
    map (week_matchups a league_key team_key_to_roster_id)
      (range_Z 1 (regular_season_weeks + 1)) in
  let winners_bracket := _build_bracket_from_rankings roster_to_owner in
  Some
    {| league :=
         {| lo_league_id := league_key;
            lo_name := lg_name lg;
            lo_season := lg_season lg;
            total_rosters := length teams;
            playoff_week_start := playoff_start |};
       users := users;
       rosters := rosters;
       matchups := all_matchups;
       winnersBracket := winners_bracket;
       rosterToOwner := stringify_keys roster_to_owner |}.

(** The three settings [extract_season_data] reads, with its defaults:
    [(num_teams, playoff_start, end_week)]. *)
Definition effective_settings (settings_raw : pydict) : option (Z * Z * Z) :=
  num_teams ← py_int bi (dict_get_or "num_teams" (JInt 10) settings_raw);
  playoff_start ←
    py_int bi (dict_get_or "playoff_start_week" (JInt 14) settings_raw);
  end_week ← py_int bi (dict_get_or "end_week" (JInt 16) settings_raw);
  Some (num_teams, playoff_start, end_week).

(** [None] is Python's [None]: no record for this season. *)
Definition extract_season_data (a : api) (lg : league_ref)
  : option season_data :=
  let league_key := lg_league_key lg in
  settings_data ← get_league_settings a league_key;
  let settings_raw := _parse_league_settings settings_data in
  s ← effective_settings settings_raw;
  let '(num_teams, playoff_start, end_week) := s in
  assemble_season a lg num_teams playoff_start end_week.

End Extractor.

(** ** Bracket from the play-off matchups *)

(** [max(l, key=lambda x: x["points"])]: the first entry with the largest
    points; [None] is the [ValueError] on an empty list. *)
Definition max_by_points (l : list Matchup.t) : option Matchup.t :=
  match l with
  | [] => None
  | x :: l' =>
      Some (fold_left
              (fun best y =>
                 if negb (Qle_bool (Matchup.points y) (Matchup.points best))
                 then y else best)
              l' x)
  end.

(** [min(l, key=lambda x: x["points"])]: the first entry with the smallest
    points. *)
Definition min_by_points (l : list Matchup.t) : option Matchup.t :=
  match l with
  | [] => None
  | x :: l' =>
      Some (fold_left
              (fun best y =>
                 if negb (Qle_bool (Matchup.points best) (Matchup.points y))
                 then y else best)
              l' x)
  end.

(** A dict from [matchup_id] to the entries carrying it, in insertion
    order. *)
Definition groups : Type := list (Z * list Matchup.t).

(** [if mid not in g: g[mid] = []] followed by [g[mid].append(e)]. *)
Fixpoint group_put (mid : Z) (e : Matchup.t) (g : groups) : groups :=
  match g with
  | [] => [(mid, [e])]
  | (k, es) :: g' =>
      if k =? mid then (k, es ++ [e]) :: g' else (k, es) :: group_put mid e g'
  end.

Definition group_by_matchup (week : list Matchup.t) : groups :=
  fold_left (fun g e => group_put (Matchup.matchup_id e) e g) week [].

(** [g[mid]]. *)
Fixpoint group_find (mid : Z) (g : groups) : option (list Matchup.t) :=
  match g with
  | [] => None
  | (k, es) :: g' => if k =? mid then Some es else group_find mid g'
  end.

(** [sorted(keys)] on integers. *)
Definition sorted_ids (ids : list Z) : list Z :=
  map fst (stable_sort (map (fun k => (k, tt)) ids)).

(** The loop over [playoff_matchups]: the last week equal to [end_week] and
    the last equal to [end_week - 1]. *)
Definition pick_weeks (end_week : Z)
  (st : option (list Matchup.t) * option (list Matchup.t))
  (wm : Z * list Matchup.t)
  : option (list Matchup.t) * option (list Matchup.t) :=
  let '(final_week_matchups, semifinal_week_matchups) := st in
  let '(week, matchups) := wm in
  if week =? end_week then (Some matchups, semifinal_week_matchups)
  else if week =? end_week - 1 then (final_week_matchups, Some matchups)
  else st.

(** One iteration of the loop over [semi_by_matchup.items()], on the pair
    [(semi_winners, semi_losers)]. *)
Definition semi_result (st : gset Z * gset Z) (kv : Z * list Matchup.t)
  : gset Z * gset Z :=
  let '(semi_winners, semi_losers) := st in
  let pr := snd kv in
  if (length pr =? 2)%nat then
    match max_by_points pr, min_by_points pr with
    | Some winner, Some loser =>
        ({[Matchup.roster_id winner]} ∪ semi_winners,
         {[Matchup.roster_id loser]} ∪ semi_losers)
    | _, _ => st
    end
  else st.

Definition semi_results (semifinal_week_matchups : option (list Matchup.t))
  : gset Z * gset Z :=
  match semifinal_week_matchups with
  | Some (e :: es) =>
      fold_left semi_result (group_by_matchup (e :: es)) (∅, ∅)
  | _ => (∅, ∅)
  end.

Definition roster_ids (pr : list Matchup.t) : gset Z :=
  list_to_set (map Matchup.roster_id pr).

(** One iteration of the loop over [by_matchup.items()] when semifinal
    winners are known, on the pair [(champ_matchup, third_matchup)]. *)
Definition classify_final (semi_winners semi_losers : gset Z)
  (st : option (list Matchup.t) * option (list Matchup.t))
  (kv : Z * list Matchup.t)
  : option (list Matchup.t) * option (list Matchup.t) :=
  let '(champ_matchup, third_matchup) := st in
  let pr := snd kv in
  if negb (length pr =? 2)%nat then st
  else if bool_decide (roster_ids pr ⊆ semi_winners)
  then (Some pr, third_matchup)
  else if bool_decide (roster_ids pr ⊆ semi_losers)
  then (champ_matchup, Some pr)
  else st.

(** The fallback on the order of the matchup ids. *)
Definition by_matchup_id_order (by_matchup : groups)
  : option (list Matchup.t) * option (list Matchup.t) :=
  let matchup_ids := sorted_ids (map fst by_matchup) in
  let champ_matchup :=
    match matchup_ids with
    | first :: _ => group_find first by_matchup
    | [] => None
    end in
  let third_matchup :=
    match matchup_ids with
    | _ :: second :: _ => group_find second by_matchup
    | _ => None
    end in
  (champ_matchup, third_matchup).

(** [if x and len(x) == 2: bracket.append({...})]. *)
Definition placement_of (m p : Z) (x : option (list Matchup.t))
  : list Placement.t :=
  match x with
  | Some pr =>
      if (length pr =? 2)%nat then
        match max_by_points pr, min_by_points pr with
        | Some winner, Some loser =>
            [{| Placement.r := 2; Placement.m := m;
                Placement.t1 := Matchup.roster_id winner;
                Placement.t2 := Matchup.roster_id loser;
                Placement.w := Matchup.roster_id winner;
                Placement.l := Matchup.roster_id loser;
                Placement.p := p |}]
        | _, _ => []
        end
      else []
  | None => []
  end.

(** The choice of the two pairings from the final week, once semifinal
    results are known. *)
Definition resolve_pairings (semi_winners semi_losers : gset Z)
  (by_matchup : groups)
  : option (list Matchup.t) * option (list Matchup.t) :=
  if bool_decide (semi_winners ≠ ∅)
  then fold_left (classify_final semi_winners semi_losers) by_matchup
         (None, None)
  else by_matchup_id_order by_matchup.

Definition _determine_placements
  (playoff_matchups : list (Z * list Matchup.t))
  (playoff_start end_week : Z) (team_key_to_roster_id : keydict)
  : list Placement.t :=
  match playoff_matchups with
  | [] => []
  | _ :: _ =>
      let '(final_week_matchups, semifinal_week_matchups) :=
        fold_left (pick_weeks end_week) playoff_matchups (None, None) in
      match final_week_matchups with
      | Some (e :: es) =>
          let '(semi_winners, semi_losers) :=
            semi_results semifinal_week_matchups in
          let by_matchup := group_by_matchup (e :: es) in
          let '(champ_matchup, third_matchup) :=
            resolve_pairings semi_winners semi_losers by_matchup in
          placement_of 1 1 champ_matchup ++ placement_of 2 3 third_matchup
      | _ => []
      end
  end.

(** ** League discovery *)

Module League.
(** One entry of the list [discover_leagues] returns. *)
Record t : Type := {
  name : json;
  league_key : json;
  league_id : json;
  season : json;
  game_id : Z;
  game_key : string
}.
End League.

Definition NFL_GAME_IDS : list (Z * Z) :=
  [(2001, 57); (2002, 49); (2003, 79); (2004, 101); (2005, 124);
   (2006, 153); (2007, 175); (2008, 199); (2009, 222); (2010, 242);
   (2011, 257); (2012, 273); (2013, 314); (2014, 331); (2015, 348);
   (2016, 359); (2017, 371); (2018, 380); (2019, 390); (2020, 399);
   (2021, 406); (2022, 414); (2023, 423); (2024, 449); (2025, 461)].

(** [d.get(k)] on a dict with integer keys. *)
Fixpoint int_dict_get (k : Z) (d : list (Z * Z)) : option Z :=
  match d with
  | [] => None
  | (k', v) :: d' => if k =? k' then Some v else int_dict_get k d'
  end.

(** The path [discover_leagues] requests for a game. *)
Definition leagues_path (game_id : Z) : string :=
  String.append "/users;use_login=1/games;game_keys="
    (String.append (str_of_Z game_id) "/leagues").

(** A loop whose body changes the state before it may raise: the state
    reached, and whether the loop ran to its end ([false]: an iteration
    raised). *)
Fixpoint for_each_commit {A S : Type} (body : S -> A -> S * bool)
  (l : list A) (s : S) : S * bool :=
  match l with
  | [] => (s, true)
  | x :: l' =>
      let '(s', ok) := body s x in
      if ok then for_each_commit body l' s' else (s', false)
  end.

(** The dict appended for position [j] of a league collection; [None]
    when reading it raises. *)
Definition league_at (leagues_data : json) (year game_id : Z) (j : nat)
  : option League.t :=
  e ← py_get leagues_data (str_of_nat j) (JDict []);
  l ← py_get e "league" (JList [JDict []]);
  league_info ← py_index l 0;
  league_name ← py_get league_info "name" (JStr "");
  league_key ← py_get league_info "league_key" (JStr "");
  league_id ← py_get league_info "league_id" (JStr "");
  season ← py_get league_info "season" (JStr (str_of_Z year));
  Some {| League.name := league_name;
          League.league_key := league_key;
          League.league_id := league_id;
          League.season := season;
          League.game_id := game_id;
          League.game_key := str_of_Z game_id |}.

(** One iteration of [for j in range(league_count)]. *)
Definition add_league (leagues_data : json) (year game_id : Z)
  (all_leagues : list League.t) (j : nat) : list League.t * bool :=
  match league_at leagues_data year game_id j with
  | Some league => (all_leagues ++ [league], true)
  | None => (all_leagues, false)
  end.

(** One iteration of [for i in range(game_count)]. *)
Definition add_game (games_data : json) (year game_id : Z)
  (all_leagues : list League.t) (i : nat) : list League.t * bool :=
  match (e ← py_get games_data (str_of_nat i) (JDict []);
         game_entry ← py_get e "game" (JList []);
         n ← py_len game_entry;
         Some (game_entry, n)) with
  | None => (all_leagues, false)
  | Some (game_entry, n) =>
      if (n <? 2)%nat then (all_leagues, true) else
      match (game_info ← py_index game_entry 0;
             second ← py_index game_entry 1;
             leagues_data ← py_get second "leagues" (JDict []);
             league_count ← py_get leagues_data "count" (JInt 0);
             js ← py_range league_count;
             Some (leagues_data, js)) with
      | None => (all_leagues, false)
      | Some (leagues_data, js) =>
          for_each_commit (add_league leagues_data year game_id) js
            all_leagues
      end
  end.

(** The body of the [try] of one year, after the request. *)
Definition add_year (data : json) (year game_id : Z)
  (all_leagues : list League.t) : list League.t * bool :=
  match (fantasy_content ← py_get data "fantasy_content" (JDict []);
         users ← py_get fantasy_content "users" (JDict []);
         user ← py_get users "0" (JDict []);
         games ← py_get user "user" (JList []);
         n ← py_len games;
         Some (games, n)) with
  | None => (all_leagues, false)
  | Some (games, n) =>
      if (n <? 2)%nat then (all_leagues, true) else
      match (second ← py_index games 1;
             games_data ← py_get second "games" (JDict []);
             game_count ← py_get games_data "count" (JInt 0);
             idxs ← py_range game_count;
             Some (games_data, idxs)) with
      | None => (all_leagues, false)
      | Some (games_data, idxs) =>
          for_each_commit (add_game games_data year game_id) idxs all_leagues
      end
  end.

(** One iteration of [for year in range(2001, 2020)]; [api_get] answers
    [None] when the request raises. Every exception is caught, the leagues
    appended before it stay in the list. *)
Definition discover_year (api_get : string -> option json)
  (all_leagues : list League.t) (year : Z) : list League.t :=
  match int_dict_get year NFL_GAME_IDS with
  | None => all_leagues
  | Some game_id =>
      if game_id =? 0 then all_leagues else
      match api_get (leagues_path game_id) with
      | None => all_leagues
      | Some data => fst (add_year data year game_id all_leagues)
      end
  end.

Definition discover_leagues (api_get : string -> option json)
  : list League.t :=
  fold_left (discover_year api_get) (range_Z 2001 2020) [].

(** ** The name filter *)

Definition LEAGUE_NAME_FILTERS : list string := ["football101"; "football 1"].

(** What the interpreter does on text is taken as given: [s.lower()],
    [s.strip()], and whether [sorted] runs through on a list of keys
    ([false]: a comparison raises [TypeError]). *)
Record text_builtins : Type := {
  lower : string -> string;
  strip : string -> string;
  sorts : list json -> bool
}.

(** [pattern in s] on strings. *)
Fixpoint contains (pattern s : string) : bool :=
  String.prefix pattern s
  || match s with
     | EmptyString => false
     | String _ s' => contains pattern s'
     end.

(** [for pattern in LEAGUE_NAME_FILTERS], with its [break]. *)
Fixpoint match_patterns (patterns : list string) (name_lower : string)
  (league : League.t) (filtered : list League.t) : list League.t :=
  match patterns with
  | [] => filtered
  | pattern :: patterns' =>
      if contains pattern name_lower then filtered ++ [league]
      else match_patterns patterns' name_lower league filtered
  end.

Section Filter.
Context (tb : text_builtins).

(** One iteration of [for league in leagues]: [AttributeError] when the
    name is not a string. *)
Definition filter_league (filtered : list League.t) (league : League.t)
  : option (list League.t) :=
  match League.name league with
  | JStr s =>
      let name_lower := strip tb (lower tb s) in
      Some (match_patterns LEAGUE_NAME_FILTERS name_lower league filtered)
  | _ => None
  end.

Definition filter_leagues (leagues : list League.t)
  : option (list League.t) :=
  filtered ← for_each filter_league leagues [];
  if sorts tb (map League.season filtered) then Some filtered else None.

End Filter.

(** ** The table of managers printed by [main] *)

(** A dict keyed by user ids, in insertion order. *)
Definition managers : Type := list (json * json).

Fixpoint managers_find (uid : json) (all_managers : managers)
  : option json :=
  match all_managers with
  | [] => None
  | (uid', name) :: rest =>
      if key_eqb uid' uid then Some name else managers_find uid rest
  end.

(** One iteration of [for user in sd["users"]]: [TypeError] on an
    unhashable user id. *)
Definition add_manager (all_managers : managers) (user : User.t)
  : option managers :=
  let uid := User.user_id user in
  if hashable uid then
    match managers_find uid all_managers with
    | Some _ => Some all_managers
    | None => Some (all_managers ++ [(uid, User.display_name user)])
    end
  else None.

Definition collect_managers (all_season_data : list season_data)
  : option managers :=
  for_each (λ all_managers sd, for_each add_manager (users sd) all_managers)
    all_season_data [].

(** ** The three league endpoints *)

Definition standings_path (league_key : string) : string :=
  String.append "/league/" (String.append league_key "/standings").

Definition settings_path (league_key : string) : string :=
  String.append "/league/" (String.append league_key "/settings").

Definition scoreboard_path (league_key : string) (week : Z) : string :=
  String.append "/league/"
    (String.append league_key
       (String.append "/scoreboard;week=" (str_of_Z week))).

(** The endpoints as [get_league_standings], [get_league_settings] and
    [get_league_scoreboard] build them on [api_get]. *)
Definition api_of (api_get : string -> option json) : api :=
  {| get_league_settings := fun league_key =>
       api_get (settings_path league_key);
     get_league_standings := fun league_key =>
       api_get (standings_path league_key);
     get_league_scoreboard := fun league_key week =>
       api_get (scoreboard_path league_key week) |}.

(** ** Notions used to state the properties *)

(** The bracket written as a function of the key set. *)
Definition bracket_of_keys (keys : gset Z) : list Placement.t :=
  (if bool_decide (1 ∈ keys ∧ 2 ∈ keys) then [championship_placement] else [])
  ++ (if bool_decide (3 ∈ keys ∧ 4 ∈ keys) then [third_place_placement] else []).

(** The entry [max] picks in a two-element list, and the one [min]
    picks. *)
Definition winner_of (a b : Matchup.t) : Matchup.t :=
  if negb (Qle_bool (Matchup.points b) (Matchup.points a)) then b else a.

Definition loser_of (a b : Matchup.t) : Matchup.t :=
  if negb (Qle_bool (Matchup.points a) (Matchup.points b)) then b else a.

(** The placement appended for a pairing of two entries. *)
Definition placement_for (m p : Z) (a b : Matchup.t) : Placement.t :=
  {| Placement.r := 2; Placement.m := m;
     Placement.t1 := Matchup.roster_id (winner_of a b);
     Placement.t2 := Matchup.roster_id (loser_of a b);
     Placement.w := Matchup.roster_id (winner_of a b);
     Placement.l := Matchup.roster_id (loser_of a b);
     Placement.p := p |}.

(** The entries of a week that carry a given matchup id. *)
Definition with_id (k : Z) (e : Matchup.t) : bool := Matchup.matchup_id e =? k.

(** The key of an element, 0 standing for a key that raises, and the
    element paired with it. *)
Definition key_or_zero {A : Type} (key : A → option Z) (t : A) : Z :=
  default 0 (key t).

Definition tagged {A : Type} (key : A → option Z) (t : A) : Z * A :=
  (key_or_zero key t, t).

(** The order of the sort, on keyed elements. *)
Definition key_le {A : Type} (x y : Z * A) : Prop := fst x <= fst y.

Definition has_key {A : Type} (k : Z) (x : Z * A) : bool := fst x =? k.

(** What a group contributes to the semifinal winners and losers. *)
Definition pair_winner (kv : Z * list Matchup.t) : option Z :=
  match snd kv with
  | [a; b] => Some (Matchup.roster_id (winner_of a b))
  | _ => None
  end.

Definition pair_loser (kv : Z * list Matchup.t) : option Z :=
  match snd kv with
  | [a; b] => Some (Matchup.roster_id (loser_of a b))
  | _ => None
  end.






Definition entries_with_id (week : list Matchup.t) (k : Z)
  : list Matchup.t :=
  List.filter (with_id k) week.

Definition entry (roster_id matchup_id : Z) (points : Q) : Matchup.t :=
  {| Matchup.roster_id := roster_id; Matchup.matchup_id := matchup_id;
     Matchup.points := points |}.


(** ** Responses used in the examples *)

(** A collection in the service's encoding: a dict with the keys ["0"],
    ["1"], ... and ["count"]. *)
Definition indexed (l : list json) : json :=
  JDict (imap (fun i x => (str_of_nat i, x)) l
         ++ [("count", JInt (Z.of_nat (length l)))]).

Definition scoreboard_team (team_key : json) (total : json) : json :=
  JDict [("team",
          JList [JList [JDict [("team_key", team_key)]];
                 JDict [("team_points", JDict [("total", total)])]])].

Definition scoreboard_matchup_of (teams : list json) : json :=
  JDict [("matchup", JDict [("0", JDict [("teams", indexed teams)])])].

Definition scoreboard_of (matchups : list json) : json :=
  JDict [("fantasy_content",
          JDict [("league",
                  JList [JDict [("league_key", JStr "L")];
                         JDict [("scoreboard",
                                 JDict [("0",
                                         JDict [("matchups",
                                                 indexed matchups)])])]])])].

(** A week with a single matchup of three team entries. *)
Definition three_team_scoreboard : json :=
  scoreboard_of
    [scoreboard_matchup_of
       [scoreboard_team (JStr "A") (JFloat 10);
        scoreboard_team (JStr "B") (JFloat 20);
        scoreboard_team (JStr "C") (JFloat 30)]].

(** Built-ins for the examples: decimal digits only, exact conversions. *)
Definition example_builtins : builtins :=
  {| int_of_str := fun s => Z.of_uint <$> NilZero.uint_of_string s;
     float_of_str :=
       fun s => (fun u => inject_Z (Z.of_uint u)) <$> NilZero.uint_of_string s;
     float_of_int := fun z => Some (inject_Z z);
     round_frac100 :=
       fun q => Qfloor ((q - inject_Z (Qfloor q)) * 100 + (1 # 2))%Q;
     repr := fun v => match v with JInt z => str_of_Z z | _ => "" end |}.

(** ** The team entries of a standings response *)

(** The team entry at position [i] of a team collection. *)
Definition team_entry_at (teams_data : json) (i : nat) : option json :=
  e ← py_get teams_data (str_of_nat i) (JDict []);
  py_get e "team" (JList []).

(** The team entries under one element of the standings list. *)
Definition item_team_entries (item : json) : option (list json) :=
  match item with
  | JDict it =>
      match dict_get "teams" it with
      | Some teams_data =>
          team_count ← py_get teams_data "count" (JInt 0);
          idxs ← py_range team_count;
          mapM (team_entry_at teams_data) idxs
      | None => Some []
      end
  | _ => Some []
  end.

(** The team entries [_parse_standings] visits, in the order it visits
    them; [None] when the traversal raises. *)
Definition standings_team_entries (data : json) : option (list json) :=
  league_data ← league_of data;
  meta ← first_dict league_data;
  n ← py_len league_data;
  if (1 <? n)%nat then
    second ← py_index league_data 1;
    match second with
    | JDict sd =>
        match dict_get_or "standings" (JList []) sd with
        | JList st => ess ← mapM item_team_entries st; Some (concat ess)
        | _ => Some []
        end
    | _ => Some []
    end
  else Some [].

(** A team of a standings response: its key, the dict under ["manager"]
    and its rank. *)
Definition standings_team_of (team_key : string) (manager : pydict)
  (rank : json) : json :=
  JDict [("team",
          JList [JList [JDict [("team_key", JStr team_key)];
                        JDict [("name", JStr (String.append "Team " team_key))];
                        JDict [("managers",
                                JList [JDict [("manager", JDict manager)]])]];
                 JDict [("team_standings", JDict [("rank", rank)])]])].

Definition standings_of (teams : list json) : json :=
  JDict [("fantasy_content",
          JDict [("league",
                  JList [JDict [("league_key", JStr "L")];
                         JDict [("standings",
                                 JList [JDict [("teams", indexed teams)]])]])])].

Definition example_league : league_ref :=
  {| lg_name := "Football 101"; lg_league_key := "L"; lg_season := "2015" |}.

(** A service with the given settings and standings responses, whose
    scoreboard is the given one in week 1 and fails in every other week. *)
Definition example_api (settings_data standings_data scoreboard : json)
  : api :=
  {| get_league_settings := fun _ => Some settings_data;
     get_league_standings := fun _ => Some standings_data;
     get_league_scoreboard :=
       fun _ week => if week =? 1 then Some scoreboard else None |}.

(** Two teams, found in the order B, A, ranked 2 and 1. *)
Definition two_team_standings : json :=
  standings_of
    [standings_team_of "B" [("nickname", JStr "Bob"); ("guid", JStr "GB")]
       (JStr "2");
     standings_team_of "A" [("nickname", JStr "Ann"); ("guid", JStr "GA")]
       (JStr "1")].

(** Two teams of one manager. *)
Definition shared_manager_standings : json :=
  standings_of
    [standings_team_of "A" [("nickname", JStr "Ann"); ("guid", JStr "G")]
       (JStr "1");
     standings_team_of "B" [("nickname", JStr "Bob"); ("guid", JStr "G")]
       (JStr "2")].

(** Two teams whose manager info has no guid. *)
Definition no_guid_standings : json :=
  standings_of
    [standings_team_of "A" [("nickname", JStr "Ann")] (JStr "1");
     standings_team_of "B" [("nickname", JStr "Bob")] (JStr "2")].

(** A week of two matchups: A against B, then a matchup whose first team
    has a null ["team_points"]. *)
Definition failing_scoreboard : json :=
  scoreboard_of
    [scoreboard_matchup_of
       [scoreboard_team (JStr "A") (JFloat 80);
        scoreboard_team (JStr "B") (JFloat 60)];
     scoreboard_matchup_of
       [JDict [("team",
                JList [JList [JDict [("team_key", JStr "C")]];
                       JDict [("team_points", JNull)]])];
        scoreboard_team (JStr "D") (JFloat 40)]].

(** A settings response whose settings sub-collection gives a play-off
    start that is not a number. *)
Definition unconvertible_settings : json :=
  JDict [("fantasy_content",
          JDict [("league",
                  JList [JDict [("settings",
                                 JList [JDict [("playoff_start_week",
                                                JStr "abc")]])]])])].

(** A service whose settings request raises. *)
Definition raising_settings_api : api :=
  {| get_league_settings := fun _ => None;
     get_league_standings := fun _ => Some two_team_standings;
     get_league_scoreboard := fun _ _ => None |}.

(** [k] occurs as a key of some dict inside [v]. *)
Fixpoint mentions (k : string) (v : json) : bool :=
  match v with
  | JList l => existsb (mentions k) l
  | JDict d =>
      existsb (fun kv => String.eqb k (fst kv) || mentions k (snd kv)) d
  | _ => false
  end.

(** ** Further notions *)

(** The bracket of a season of [n] rosters. *)
Definition bracket_of_count (n : nat) : list Placement.t :=
  (if (2 <=? n)%nat then [championship_placement] else [])
  ++ (if (4 <=? n)%nat then [third_place_placement] else []).

(** Two services that answer the settings and standings requests alike. *)
Definition same_standings (a1 a2 : api) : Prop :=
  (∀ league_key, get_league_settings a1 league_key
                 = get_league_settings a2 league_key)
  ∧ (∀ league_key, get_league_standings a1 league_key
                   = get_league_standings a2 league_key).


(** The keys a team record may hold, those whose value is an integer and
    those whose value is a float. *)
Definition team_fields : list string :=
  ["team_key"; "team_id"; "team_name"; "url"; "team_logo";
   "is_owned_by_current_login"; "manager_name"; "manager_guid"; "rank";
   "wins"; "losses"; "ties"; "points_for"; "points_against"; "points_total"].

Definition int_fields : list string := ["wins"; "losses"; "ties"].

Definition float_fields : list string :=
  ["points_for"; "points_against"; "points_total"].

Definition is_int (v : json) : bool :=
  match v with JInt _ => true | _ => false end.

Definition is_float (v : json) : bool :=
  match v with JFloat _ => true | _ => false end.

Definition field_ok (kv : string * json) : bool :=
  existsb (String.eqb (fst kv)) team_fields
  && (if existsb (String.eqb (fst kv)) int_fields then is_int (snd kv)
      else true)
  && (if existsb (String.eqb (fst kv)) float_fields then is_float (snd kv)
      else true).

(** A team record with known keys only, each once, the counts integers and
    the points floats. *)
Definition team_record_ok (team : pydict) : Prop :=
  Forall (λ kv, field_ok kv = true) team ∧ NoDup (map fst team).

(** ** A scoreboard response listing two-team matchups *)

(** A team of a scoreboard response, as its key and its points total. *)
Definition listed_team : Type := json * json.

Definition scoreboard_pair_of (ab : listed_team * listed_team) : json :=
  scoreboard_matchup_of
    [scoreboard_team ab.1.1 ab.1.2; scoreboard_team ab.2.1 ab.2.2].

(** A team whose key is truthy and hashable and whose total converts to a
    float. *)
Definition readable_team (bi : builtins) (team : listed_team) : Prop :=
  truthy team.1 = true ∧ hashable team.1 = true
  ∧ is_Some (py_float bi team.2).

(** The entry expected for the team at position [t] of matchup number
    [matchup_id]. *)
Definition entry_of (bi : builtins) (team_key_to_roster_id : keydict)
  (t : nat) (matchup_id : Z) (team : listed_team) : Matchup.t :=
  {| Matchup.roster_id :=
       default (Z.of_nat t + 1) (keydict_find team.1 team_key_to_roster_id);
     Matchup.matchup_id := matchup_id;
     Matchup.points := default 0%Q (py_float bi team.2) |}.

Definition entries_of (bi : builtins) (team_key_to_roster_id : keydict)
  (pairs : list (listed_team * listed_team)) : list Matchup.t :=
  concat
    (imap
       (λ i ab,
          [entry_of bi team_key_to_roster_id 0 (Z.of_nat i + 1) ab.1;
           entry_of bi team_key_to_roster_id 1 (Z.of_nat i + 1) ab.2])
       pairs).

(** ** Notions for discovery, the filter and the manager table *)

(** The elements of a list of results up to the first failure. *)
Fixpoint successes {A : Type} (l : list (option A)) : list A :=
  match l with
  | Some x :: l' => x :: successes l'
  | _ => []
  end.

(** The league's name, lowered and stripped, contains a pattern. *)
Definition name_matches (tb : text_builtins) (league : League.t) : bool :=
  match League.name league with
  | JStr s =>
      existsb (λ pattern, contains pattern (strip tb (lower tb s)))
        LEAGUE_NAME_FILTERS
  | _ => false
  end.

(** The leagues of a list carry the game id [game_id] and its text. *)
Definition of_game (game_id : Z) (all_leagues : list League.t) : Prop :=
  Forall (λ league : League.t,
            League.game_id league = game_id
            ∧ League.game_key league = str_of_Z game_id)
    all_leagues.

Definition is_str (v : json) : bool :=
  match v with JStr _ => true | _ => false end.

(** A response listing the given league dicts under a single game. *)
Definition league_entry (info : pydict) : json :=
  JDict [("league", JList [JDict info])].

Definition game_entry_of (leagues : list pydict) : json :=
  JDict [("game",
          JList [JDict [("game_key", JStr "G")];
                 JDict [("leagues", indexed (map league_entry leagues))]])].

Definition leagues_response (leagues : list pydict) : json :=
  JDict
    [("fantasy_content",
      JDict
        [("users",
          JDict
            [("0",
              JDict
                [("user",
                  JList [JDict [("guid", JStr "U")];
                         JDict [("games",
                                 indexed [game_entry_of leagues])]])])])])].

(** The league recorded for a league dict of a response. *)
Definition league_of_info (year game_id : Z) (info : pydict) : League.t :=
  {| League.name := dict_get_or "name" (JStr "") info;
     League.league_key := dict_get_or "league_key" (JStr "") info;
     League.league_id := dict_get_or "league_id" (JStr "") info;
     League.season := dict_get_or "season" (JStr (str_of_Z year)) info;
     League.game_id := game_id;
     League.game_key := str_of_Z game_id |}.

(** The first user of a list whose id equals [uid] as a dict key. *)
Definition first_user (uid : json) (us : list User.t) : option User.t :=
  List.find (λ u, key_eqb (User.user_id u) uid) us.

(** A service that knows the leagues of 2015 only. *)
Definition example_api_get (path : string) : option json :=
  if String.eqb path (leagues_path 348)
  then Some (leagues_response
               [[("name", JStr "Football 101"); ("league_key", JStr "348.l.1");
                 ("league_id", JStr "1"); ("season", JStr "2015")];
                [("name", JStr "Other"); ("league_key", JStr "348.l.2")]])
  else None.

(** A service that answers the settings and standings requests of the
    league ["L"] and the scoreboard request of its first week, and one
    that answers the scoreboard request of week 14 as well. *)
Definition example_season_api_get (path : string) : option json :=
  if String.eqb path (settings_path "L") then Some (JDict [])
  else if String.eqb path (standings_path "L") then Some two_team_standings
  else if String.eqb path (scoreboard_path "L" 1)
  then Some failing_scoreboard
  else None.

Definition playoff_week_api_get (path : string) : option json :=
  if String.eqb path (scoreboard_path "L" 14)
  then Some three_team_scoreboard
  else example_season_api_get path.

(** Text built-ins for the examples, exact on the letters A to Z and on
    blanks. *)
Definition lower_ascii (c : ascii) : ascii :=
  let n := nat_of_ascii c in
  if ((65 <=? n) && (n <=? 90))%nat then ascii_of_nat (n + 32) else c.

Fixpoint lower_string (s : string) : string :=
  match s with
  | EmptyString => EmptyString
  | String c s' => String (lower_ascii c) (lower_string s')
  end.

Fixpoint strip_left (s : string) : string :=
  match s with
  | String c s' => if Ascii.eqb c " "%char then strip_left s' else s
  | EmptyString => EmptyString
  end.

Definition rev_string (s : string) : string :=
  string_of_list_ascii (rev (list_ascii_of_string s)).

Definition example_text_builtins : text_builtins :=
  {| lower := lower_string;
     strip := λ s, rev_string (strip_left (rev_string (strip_left s)));
     sorts := forallb is_str |}.

(** * Properties *)

(** ** The rank-derived bracket *)

Section RankBracket.
Implicit Types roster_to_owner : gmap Z json.

Lemma has_roster roster_to_owner (k : Z) :
  bool_decide (is_Some (roster_to_owner !! k))
  = bool_decide (k ∈ dom roster_to_owner).
Proof. apply bool_decide_ext. symmetry. apply elem_of_dom. Qed.

Lemma bracket_from_rankings_keys roster_to_owner :
  _build_bracket_from_rankings roster_to_owner
  = bracket_of_keys (dom roster_to_owner).
Proof.
  unfold _build_bracket_from_rankings, bracket_of_keys.
  rewrite !has_roster.
  repeat case_bool_decide; simpl; first [reflexivity | exfalso; tauto].
Qed.

Lemma championship_emitted_iff roster_to_owner :
  championship_placement ∈ _build_bracket_from_rankings roster_to_owner
  ↔ 1 ∈ dom roster_to_owner ∧ 2 ∈ dom roster_to_owner.
Proof.
  rewrite bracket_from_rankings_keys. unfold bracket_of_keys.
  rewrite elem_of_app. repeat case_bool_decide;
    rewrite ?list_elem_of_singleton, ?elem_of_nil;
    split; intros; try tauto; try (left; reflexivity);
    destruct_or?; try tauto; discriminate.
Qed.

Lemma third_place_emitted_iff roster_to_owner :
  third_place_placement ∈ _build_bracket_from_rankings roster_to_owner
  ↔ 3 ∈ dom roster_to_owner ∧ 4 ∈ dom roster_to_owner.
Proof.
  rewrite bracket_from_rankings_keys. unfold bracket_of_keys.
  rewrite elem_of_app. repeat case_bool_decide;
    rewrite ?list_elem_of_singleton, ?elem_of_nil;
    split; intros; try tauto; try (right; reflexivity);
    destruct_or?; try tauto; discriminate.
Qed.

Lemma bracket_members roster_to_owner (x : Placement.t) :
  x ∈ _build_bracket_from_rankings roster_to_owner →
  x = championship_placement ∨ x = third_place_placement.
Proof.
  rewrite bracket_from_rankings_keys. unfold bracket_of_keys.
  rewrite elem_of_app. repeat case_bool_decide;
    rewrite ?list_elem_of_singleton, ?elem_of_nil; tauto.
Qed.

Lemma bracket_four_rosters roster_to_owner :
  {[1; 2; 3; 4]} ⊆ dom roster_to_owner →
  _build_bracket_from_rankings roster_to_owner
  = [championship_placement; third_place_placement].
Proof.
  intros Hsub. rewrite bracket_from_rankings_keys. unfold bracket_of_keys.
  rewrite !bool_decide_eq_true_2 by set_solver. reflexivity.
Qed.

Lemma bracket_two_rosters roster_to_owner :
  dom roster_to_owner = {[1; 2]} →
  _build_bracket_from_rankings roster_to_owner = [championship_placement].
Proof.
  intros Hdom. rewrite bracket_from_rankings_keys, Hdom.
  unfold bracket_of_keys.
  rewrite bool_decide_eq_true_2 by set_solver.
  rewrite bool_decide_eq_false_2 by set_solver. reflexivity.
Qed.

(** C2. [_build_bracket_from_rankings] depends on the key set of
    [roster_to_owner] only; the championship placement is emitted exactly
    when rosters 1 and 2 are both keys and the third-place placement
    exactly when rosters 3 and 4 are; with 1, 2, 3, 4 present the result is
    these two placements, of placement values 1 and 3, with rosters 1 and 3
    as winners; with exactly {1, 2} present it is the championship
    placement alone. *)
Theorem build_bracket_from_rankings_by_key_set :
  (∀ m1 m2 : gmap Z json,
     dom m1 = dom m2 →
     _build_bracket_from_rankings m1 = _build_bracket_from_rankings m2)
  ∧ (∀ m : gmap Z json,
       championship_placement ∈ _build_bracket_from_rankings m
       ↔ 1 ∈ dom m ∧ 2 ∈ dom m)
  ∧ (∀ m : gmap Z json,
       third_place_placement ∈ _build_bracket_from_rankings m
       ↔ 3 ∈ dom m ∧ 4 ∈ dom m)
  ∧ (∀ (m : gmap Z json) (x : Placement.t),
       x ∈ _build_bracket_from_rankings m →
       x = championship_placement ∨ x = third_place_placement)
  ∧ (∀ m : gmap Z json,
       {[1; 2; 3; 4]} ⊆ dom m →
       _build_bracket_from_rankings m
       = [championship_placement; third_place_placement]
       ∧ map Placement.p (_build_bracket_from_rankings m) = [1; 3]
       ∧ map Placement.w (_build_bracket_from_rankings m) = [1; 3]
       ∧ map Placement.l (_build_bracket_from_rankings m) = [2; 4])
  ∧ (∀ m : gmap Z json,
       dom m = {[1; 2]} →
       _build_bracket_from_rankings m = [championship_placement]).
Proof.
  split; [| split; [| split; [| split; [| split]]]].
  - intros m1 m2 Hdom. rewrite !bracket_from_rankings_keys. by rewrite Hdom.
  - apply championship_emitted_iff.
  - apply third_place_emitted_iff.
  - apply bracket_members.
  - intros m Hsub. rewrite (bracket_four_rosters m Hsub). by repeat split.
  - apply bracket_two_rosters.
Qed.

End RankBracket.

(** ** The matchup-derived bracket *)

Section Pairings.
Implicit Types a b e : Matchup.t.
Implicit Types g : groups.

Lemma max_by_points_pair a b : max_by_points [a; b] = Some (winner_of a b).
Proof. reflexivity. Qed.

Lemma min_by_points_pair a b : min_by_points [a; b] = Some (loser_of a b).
Proof. reflexivity. Qed.

Lemma first_scores_higher a b :
  (Matchup.points b < Matchup.points a)%Q →
  winner_of a b = a ∧ loser_of a b = b.
Proof.
  intros Hlt. unfold winner_of, loser_of.
  assert (Qle_bool (Matchup.points b) (Matchup.points a) = true) as ->
    by (apply Qle_bool_iff, Qlt_le_weak, Hlt).
  destruct (Qle_bool (Matchup.points a) (Matchup.points b)) eqn:Hle; [|done].
  apply Qle_bool_iff in Hle. exfalso. eapply Qlt_not_le; eassumption.
Qed.

Lemma second_scores_higher a b :
  (Matchup.points a < Matchup.points b)%Q →
  winner_of a b = b ∧ loser_of a b = a.
Proof.
  intros Hlt. unfold winner_of, loser_of.
  assert (Qle_bool (Matchup.points a) (Matchup.points b) = true) as ->
    by (apply Qle_bool_iff, Qlt_le_weak, Hlt).
  destruct (Qle_bool (Matchup.points b) (Matchup.points a)) eqn:Hle; [|done].
  apply Qle_bool_iff in Hle. exfalso. eapply Qlt_not_le; eassumption.
Qed.

Lemma equal_scores a b :
  (Matchup.points a == Matchup.points b)%Q →
  winner_of a b = a ∧ loser_of a b = a.
Proof.
  intros Heq. unfold winner_of, loser_of.
  assert (Qle_bool (Matchup.points a) (Matchup.points b) = true) as ->
    by (apply Qle_bool_iff; rewrite Heq; apply Qle_refl).
  assert (Qle_bool (Matchup.points b) (Matchup.points a) = true) as ->
    by (apply Qle_bool_iff; rewrite Heq; apply Qle_refl).
  done.
Qed.

Lemma winner_loser_from_pair a b :
  (winner_of a b = a ∨ winner_of a b = b)
  ∧ (loser_of a b = a ∨ loser_of a b = b).
Proof.
  unfold winner_of, loser_of.
  destruct (Qle_bool (Matchup.points b) (Matchup.points a)),
           (Qle_bool (Matchup.points a) (Matchup.points b)); simpl; auto.
Qed.

Lemma placement_of_pair (m p : Z) a b :
  placement_of m p (Some [a; b]) = [placement_for m p a b].
Proof. reflexivity. Qed.

Lemma placement_of_not_pair (m p : Z) (pr : list Matchup.t) :
  length pr ≠ 2%nat → placement_of m p (Some pr) = [].
Proof.
  intros Hlen. unfold placement_of.
  destruct (Nat.eqb_spec (length pr) 2); [contradiction | reflexivity].
Qed.

(** *** Grouping a week by [matchup_id] *)

Lemma group_by_matchup_snoc (week : list Matchup.t) e :
  group_by_matchup (week ++ [e])
  = group_put (Matchup.matchup_id e) e (group_by_matchup week).
Proof. unfold group_by_matchup. by rewrite fold_left_app. Qed.

Lemma group_find_put (k mid : Z) e g :
  group_find k (group_put mid e g)
  = if k =? mid then Some (default [] (group_find mid g) ++ [e])
    else group_find k g.
Proof.
  induction g as [|[k' es] g IH]; simpl.
  - rewrite (Z.eqb_sym mid k). by destruct (k =? mid).
  - destruct (Z.eqb_spec k' mid) as [->|Hne]; simpl.
    + rewrite (Z.eqb_sym mid k). by destruct (k =? mid).
    + rewrite IH. destruct (Z.eqb_spec k mid) as [->|Hne'].
      * by destruct (Z.eqb_spec k' mid).
      * reflexivity.
Qed.

(** The group stored under [k] holds the entries of the week that carry
    [k], in the order of the week. *)
Lemma group_find_by_matchup (k : Z) (week : list Matchup.t) :
  group_find k (group_by_matchup week)
  = match List.filter (with_id k) week with
    | [] => None
    | es => Some es
    end.
Proof.
  induction week as [|e week IH] using rev_ind; [reflexivity|].
  rewrite group_by_matchup_snoc, group_find_put, List.filter_app. simpl.
  unfold with_id at 2. rewrite (Z.eqb_sym _ k).
  destruct (Z.eqb_spec k (Matchup.matchup_id e)) as [<-|Hne].
  - rewrite IH. destruct (List.filter (with_id k) week); reflexivity.
  - rewrite IH, app_nil_r. reflexivity.
Qed.

Lemma group_put_keys (mid : Z) e g :
  map fst (group_put mid e g)
  = if bool_decide (mid ∈ map fst g) then map fst g else map fst g ++ [mid].
Proof.
  induction g as [|[k es] g IH]; simpl; [reflexivity|].
  destruct (Z.eqb_spec k mid) as [->|Hne]; simpl.
  - rewrite bool_decide_eq_true_2; [reflexivity | by left].
  - rewrite IH. repeat case_bool_decide; try reflexivity.
    + exfalso. apply H0. by right.
    + exfalso. apply elem_of_cons in H0 as [->|]; auto.
Qed.

Lemma group_keys_nodup (week : list Matchup.t) :
  NoDup (map fst (group_by_matchup week)).
Proof.
  induction week as [|e week IH] using rev_ind; [constructor|].
  rewrite group_by_matchup_snoc, group_put_keys.
  case_bool_decide; [assumption|].
  apply NoDup_app. split; [assumption|]. split.
  - intros x Hx Hx'. apply list_elem_of_singleton in Hx'. by subst.
  - apply NoDup_singleton.
Qed.

Lemma group_keys_elem (k : Z) (week : list Matchup.t) :
  k ∈ map fst (group_by_matchup week)
  ↔ ∃ e, e ∈ week ∧ Matchup.matchup_id e = k.
Proof.
  induction week as [|e week IH] using rev_ind.
  - split; [intros []%elem_of_nil | intros (e & []%elem_of_nil & _)].
  - rewrite group_by_matchup_snoc, group_put_keys. split.
    + intros Hin. case_bool_decide.
      * apply IH in Hin as (e' & He' & Hk). exists e'. split; [|done].
        apply elem_of_app. by left.
      * apply elem_of_app in Hin as [Hin|Hin].
        -- apply IH in Hin as (e' & He' & Hk). exists e'. split; [|done].
           apply elem_of_app. by left.
        -- apply list_elem_of_singleton in Hin. exists e. split; [|done].
           apply elem_of_app. right. by apply list_elem_of_singleton.
    + intros (e' & He' & Hk). apply elem_of_app in He' as [He'|He'].
      * assert (k ∈ map fst (group_by_matchup week)) by (apply IH; eauto).
        case_bool_decide; [done|]. apply elem_of_app. by left.
      * apply list_elem_of_singleton in He'. subst e'.
        case_bool_decide; [by subst|].
        apply elem_of_app. right. apply list_elem_of_singleton. done.
Qed.

Lemma group_find_elem (k : Z) (es : list Matchup.t) g :
  NoDup (map fst g) → (k, es) ∈ g ↔ group_find k g = Some es.
Proof.
  induction g as [|[k' es'] g IH]; simpl; intros Hnd.
  - split; [intros []%elem_of_nil | discriminate].
  - apply NoDup_cons in Hnd as [Hk' Hnd].
    destruct (Z.eqb_spec k' k) as [->|Hne].
    + split.
      * intros [Heq|Hin]%elem_of_cons; [congruence|].
        exfalso. apply Hk'. apply list_elem_of_fmap. by exists (k, es).
      * intros [= ->]. by left.
    + rewrite <- (IH Hnd). split.
      * intros [Heq|Hin]%elem_of_cons; [congruence | done].
      * intros Hin. by right.
Qed.

End Pairings.

(** ** The stable sort *)

Section StableSort.
Context {A : Type}.
Implicit Types x y : Z * A.
Implicit Types l : list (Z * A).

Lemma insert_by_key_perm x l : Permutation (x :: l) (insert_by_key x l).
Proof.
  induction l as [|y l IH]; simpl; [reflexivity|].
  destruct (fst x <=? fst y); [reflexivity|].
  rewrite Permutation_swap. by constructor.
Qed.

Lemma insert_by_key_sorted x l :
  StronglySorted key_le l → StronglySorted key_le (insert_by_key x l).
Proof.
  induction 1 as [|y l Hl IH Hy]; simpl.
  - repeat constructor.
  - destruct (Z.leb_spec (fst x) (fst y)) as [Hle|Hgt].
    + constructor; [by constructor|].
      constructor; [exact Hle|].
      eapply Forall_impl; [exact Hy|].
      intros z Hz. unfold key_le in *. lia.
    + constructor; [exact IH|].
      rewrite <- (insert_by_key_perm x l).
      constructor; [unfold key_le; lia | exact Hy].
Qed.

(** Insertion keeps the relative order of the elements of equal key, the
    new element going first among them. *)
Lemma insert_by_key_stable (k : Z) x l :
  List.filter (has_key k) (insert_by_key x l)
  = List.filter (has_key k) (x :: l).
Proof.
  induction l as [|y l IH]; [reflexivity|].
  cbn [insert_by_key].
  destruct (Z.leb_spec (fst x) (fst y)) as [Hle|Hgt]; [reflexivity|].
  cbn [List.filter] in *. rewrite IH. unfold has_key.
  destruct (Z.eqb_spec (fst x) k), (Z.eqb_spec (fst y) k);
    try reflexivity; lia.
Qed.

Lemma stable_sort_perm l : Permutation l (stable_sort l).
Proof.
  induction l as [|x l IH]; simpl; [reflexivity|].
  rewrite <- insert_by_key_perm. by constructor.
Qed.

Lemma stable_sort_sorted l : StronglySorted key_le (stable_sort l).
Proof.
  induction l as [|x l IH]; simpl; [constructor|].
  by apply insert_by_key_sorted.
Qed.

Lemma stable_sort_stable (k : Z) l :
  List.filter (has_key k) (stable_sort l) = List.filter (has_key k) l.
Proof.
  induction l as [|x l IH]; [reflexivity|].
  cbn [stable_sort foldr]. rewrite insert_by_key_stable.
  cbn [List.filter]. fold (stable_sort l). by rewrite IH.
Qed.

Lemma stable_sort_length l : length (stable_sort l) = length l.
Proof. symmetry. apply Permutation_length, stable_sort_perm. Qed.

End StableSort.

Section SortedIds.

Lemma sorted_ids_perm (ids : list Z) : Permutation ids (sorted_ids ids).
Proof.
  unfold sorted_ids.
  rewrite <- (stable_sort_perm (map (fun k => (k, tt)) ids)).
  rewrite map_map. simpl. by rewrite map_id.
Qed.

Lemma sorted_ids_ascending (ids : list Z) :
  StronglySorted Z.le (sorted_ids ids).
Proof.
  unfold sorted_ids.
  generalize (stable_sort_sorted (map (fun k => (k, tt)) ids)).
  generalize (stable_sort (map (fun k => (k, tt)) ids)).
  induction 1 as [|y l Hl IH Hy]; simpl; constructor; [exact IH|].
  apply Forall_map. exact Hy.
Qed.

Lemma sorted_ids_strictly_ascending (ids : list Z) :
  NoDup ids → StronglySorted Z.lt (sorted_ids ids).
Proof.
  intros Hnd.
  assert (NoDup (sorted_ids ids)) as Hnd'
    by (by rewrite <- sorted_ids_perm).
  generalize (sorted_ids_ascending ids). revert Hnd'.
  generalize (sorted_ids ids). clear.
  induction l as [|x l IH]; intros Hnd Hs; constructor.
  - apply IH; [by apply NoDup_cons in Hnd as [] | by inversion Hs].
  - apply NoDup_cons in Hnd as [Hx _]. inversion Hs as [|? ? _ Hall]; subst.
    apply Forall_forall. intros y Hy.
    rewrite Forall_forall in Hall. specialize (Hall y Hy).
    assert (x ≠ y) by (intros ->; apply Hx; by apply list_elem_of_In).
    lia.
Qed.

End SortedIds.

(** ** Placements from the play-off weeks *)

Section Placements.
Implicit Types a b e : Matchup.t.
Implicit Types g : groups.
Implicit Types W L : gset Z.

(** The function once its two weeks are picked. *)
Lemma determine_placements_picked
  (playoff_matchups : list (Z * list Matchup.t)) (playoff_start end_week : Z)
  (team_key_to_roster_id : keydict)
  (final : list Matchup.t) (semi : option (list Matchup.t)) W L :
  fold_left (pick_weeks end_week) playoff_matchups (None, None)
  = (Some final, semi) →
  final ≠ [] →
  semi_results semi = (W, L) →
  _determine_placements playoff_matchups playoff_start end_week
    team_key_to_roster_id
  = placement_of 1 1 (resolve_pairings W L (group_by_matchup final)).1
    ++ placement_of 2 3 (resolve_pairings W L (group_by_matchup final)).2.
Proof.
  intros Hpick Hne Hsemi. unfold _determine_placements.
  destruct playoff_matchups as [|wm rest]; [discriminate Hpick|].
  rewrite Hpick. destruct final as [|e es]; [contradiction|].
  rewrite Hsemi.
  by destruct (resolve_pairings W L (group_by_matchup (e :: es))).
Qed.

(** *** Semifinal winners and losers *)

Lemma semi_result_step W0 L0 (kv : Z * list Matchup.t) :
  semi_result (W0, L0) kv
  = (list_to_set (option_list (pair_winner kv)) ∪ W0,
     list_to_set (option_list (pair_loser kv)) ∪ L0).
Proof.
  destruct kv as [k [|a [|b [|c pr]]]]; unfold pair_winner, pair_loser;
    simpl; f_equal; set_solver.
Qed.

Lemma semi_results_fold g W0 L0 :
  fold_left semi_result g (W0, L0)
  = (list_to_set (omap pair_winner g) ∪ W0,
     list_to_set (omap pair_loser g) ∪ L0).
Proof.
  revert W0 L0. induction g as [|kv g IH]; intros W0 L0; cbn [fold_left omap].
  - f_equal; set_solver.
  - rewrite semi_result_step, IH. cbn [list_omap].
    destruct (pair_winner kv), (pair_loser kv); simpl; f_equal; set_solver.
Qed.



Lemma semi_results_groups (semi : option (list Matchup.t)) :
  semi_results semi
  = (list_to_set (omap pair_winner (group_by_matchup (default [] semi))),
     list_to_set (omap pair_loser (group_by_matchup (default [] semi)))).
Proof.
  unfold semi_results. destruct semi as [[|e es]|]; try reflexivity.
  rewrite semi_results_fold. simpl. f_equal; set_solver.
Qed.


(** *** The pairings chosen from semifinal results *)




(** *** The fallback on matchup ids *)

Lemma group_find_key (week : list Matchup.t) (k : Z) :
  k ∈ map fst (group_by_matchup week) →
  group_find k (group_by_matchup week) = Some (entries_with_id week k).
Proof.
  intros Hk. rewrite group_find_by_matchup. unfold entries_with_id.
  apply group_keys_elem in Hk as (e & He & Hid).
  destruct (List.filter (with_id k) week) eqn:Hf; [|reflexivity].
  exfalso. apply list_elem_of_In in He.
  assert (In e (List.filter (with_id k) week)) as Hin.
  { apply List.filter_In. split; [done|]. unfold with_id.
    by apply Z.eqb_eq. }
  by rewrite Hf in Hin.
Qed.

Lemma resolve_without_semifinals L (week : list Matchup.t) :
  let ids := sorted_ids (map fst (group_by_matchup week)) in
  resolve_pairings ∅ L (group_by_matchup week)
  = (entries_with_id week <$> ids !! 0%nat,
     entries_with_id week <$> ids !! 1%nat).
Proof.
  intros ids. unfold resolve_pairings.
  rewrite bool_decide_eq_false_2 by (intros H; by apply H).
  unfold by_matchup_id_order. fold ids.
  assert (∀ k, k ∈ ids → group_find k (group_by_matchup week)
                         = Some (entries_with_id week k)) as Hfind.
  { intros k Hk. apply group_find_key.
    unfold ids in Hk. by rewrite <- sorted_ids_perm in Hk. }
  destruct ids as [|k1 [|k2 ids']]; simpl.
  - reflexivity.
  - rewrite Hfind by (by left). reflexivity.
  - rewrite !Hfind; [reflexivity | right; by left | by left].
Qed.

End Placements.

Section PlacementClaims.
Implicit Types a b e : Matchup.t.
Implicit Types W L : gset Z.



Lemma placement_for_winner_loser (m p : Z) a b :
  ((Matchup.points b < Matchup.points a)%Q →
   Placement.w (placement_for m p a b) = Matchup.roster_id a
   ∧ Placement.l (placement_for m p a b) = Matchup.roster_id b)
  ∧ ((Matchup.points a < Matchup.points b)%Q →
     Placement.w (placement_for m p a b) = Matchup.roster_id b
     ∧ Placement.l (placement_for m p a b) = Matchup.roster_id a)
  ∧ (Placement.w (placement_for m p a b) = Matchup.roster_id a
     ∨ Placement.w (placement_for m p a b) = Matchup.roster_id b)
  ∧ (Placement.l (placement_for m p a b) = Matchup.roster_id a
     ∨ Placement.l (placement_for m p a b) = Matchup.roster_id b)
  ∧ Placement.t1 (placement_for m p a b) = Placement.w (placement_for m p a b)
  ∧ Placement.t2 (placement_for m p a b) = Placement.l (placement_for m p a b)
  ∧ Placement.p (placement_for m p a b) = p.
Proof.
  cbn [placement_for Placement.w Placement.l Placement.t1 Placement.t2
       Placement.p].
  split; [|split; [|split; [|split]]].
  - intros [-> ->]%first_scores_higher. done.
  - intros [-> ->]%second_scores_higher. done.
  - destruct (winner_loser_from_pair a b) as [[->| ->] _]; auto.
  - destruct (winner_loser_from_pair a b) as [_ [->| ->]]; auto.
  - done.
Qed.
End PlacementClaims.

Section PlacementTheorems.
Implicit Types a b e : Matchup.t.
Implicit Types W L : gset Z.


(** C8. Without semifinal winners, the matchup ids of the final week are
    put in ascending order; the entries carrying the smallest id are the
    championship pairing (placement 1) and those carrying the second
    smallest, if any, the third-place pairing (placement 3); a pairing of
    two entries yields one placement whose winner is the higher scorer and
    whose loser is the other, both taken from the pairing. *)
Theorem determine_placements_by_matchup_id :
  (∀ (playoff_matchups : list (Z * list Matchup.t))
     (playoff_start end_week : Z) (team_key_to_roster_id : keydict)
     (final : list Matchup.t) (semi : option (list Matchup.t)) L,
     fold_left (pick_weeks end_week) playoff_matchups (None, None)
     = (Some final, semi) →
     final ≠ [] →
     semi_results semi = (∅, L) →
     let ids := sorted_ids (map fst (group_by_matchup final)) in
     StronglySorted Z.lt ids
     ∧ (∀ k, k ∈ ids ↔ ∃ e, e ∈ final ∧ Matchup.matchup_id e = k)
     ∧ _determine_placements playoff_matchups playoff_start end_week
         team_key_to_roster_id
       = placement_of 1 1 (entries_with_id final <$> ids !! 0%nat)
         ++ placement_of 2 3 (entries_with_id final <$> ids !! 1%nat))
  ∧ (∀ (m p : Z) a b,
       placement_of m p (Some [a; b]) = [placement_for m p a b]
       ∧ ((Matchup.points b < Matchup.points a)%Q →
          Placement.w (placement_for m p a b) = Matchup.roster_id a
          ∧ Placement.l (placement_for m p a b) = Matchup.roster_id b)
       ∧ ((Matchup.points a < Matchup.points b)%Q →
          Placement.w (placement_for m p a b) = Matchup.roster_id b
          ∧ Placement.l (placement_for m p a b) = Matchup.roster_id a)
       ∧ (Placement.w (placement_for m p a b) = Matchup.roster_id a
          ∨ Placement.w (placement_for m p a b) = Matchup.roster_id b)
       ∧ (Placement.l (placement_for m p a b) = Matchup.roster_id a
          ∨ Placement.l (placement_for m p a b) = Matchup.roster_id b)
       ∧ Placement.t1 (placement_for m p a b)
         = Placement.w (placement_for m p a b)
       ∧ Placement.t2 (placement_for m p a b)
         = Placement.l (placement_for m p a b)
       ∧ Placement.p (placement_for m p a b) = p)
  ∧ (∀ (m p : Z) (pr : list Matchup.t),
       length pr ≠ 2%nat → placement_of m p (Some pr) = []).
Proof.
  split; [|split].
  - intros pm ps ew tk final semi L Hpick Hne Hsemi ids.
    split; [|split].
    + apply sorted_ids_strictly_ascending, group_keys_nodup.
    + intros k. unfold ids. rewrite <- sorted_ids_perm.
      apply group_keys_elem.
    + rewrite (determine_placements_picked pm ps ew tk final semi ∅ L)
        by assumption.
      by rewrite resolve_without_semifinals.
  - intros m p a b. split; [apply placement_of_pair|].
    apply placement_for_winner_loser.
  - apply placement_of_not_pair.
Qed.

Lemma group_by_matchup_same_id a b :
  Matchup.matchup_id a = Matchup.matchup_id b →
  group_by_matchup [a; b] = [(Matchup.matchup_id b, [a; b])].
Proof.
  intros Hid. unfold group_by_matchup. simpl. by rewrite Hid, Z.eqb_refl.
Qed.

(** C9. When the two entries of a pairing have equal points, the first
    entry is taken as winner and as loser: the placement has [t1], [t2],
    [w] and [l] all equal to its roster id. A tied semifinal adds its first
    entry to the semifinal winners and to the semifinal losers, and adds
    nothing for its second entry. *)
Theorem determine_placements_tie :
  (∀ (m p : Z) a b,
     (Matchup.points a == Matchup.points b)%Q →
     placement_of m p (Some [a; b])
     = [{| Placement.r := 2; Placement.m := m;
           Placement.t1 := Matchup.roster_id a;
           Placement.t2 := Matchup.roster_id a;
           Placement.w := Matchup.roster_id a;
           Placement.l := Matchup.roster_id a;
           Placement.p := p |}])
  ∧ (∀ W L (k : Z) a b,
       (Matchup.points a == Matchup.points b)%Q →
       semi_result (W, L) (k, [a; b])
       = ({[Matchup.roster_id a]} ∪ W, {[Matchup.roster_id a]} ∪ L))
  ∧ (∀ a b,
       (Matchup.points a == Matchup.points b)%Q →
       Matchup.matchup_id a = Matchup.matchup_id b →
       semi_results (Some [a; b])
       = ({[Matchup.roster_id a]}, {[Matchup.roster_id a]}))
  ∧ (∀ a b,
       (Matchup.points a == Matchup.points b)%Q →
       Matchup.matchup_id a = Matchup.matchup_id b →
       Matchup.roster_id b ≠ Matchup.roster_id a →
       (Matchup.roster_id b ∉ (semi_results (Some [a; b])).1)
       ∧ (Matchup.roster_id b ∉ (semi_results (Some [a; b])).2))
  ∧ (∀ (playoff_start end_week : Z) (team_key_to_roster_id : keydict) a b,
       (Matchup.points a == Matchup.points b)%Q →
       Matchup.matchup_id a = Matchup.matchup_id b →
       _determine_placements [(end_week, [a; b])] playoff_start end_week
         team_key_to_roster_id
       = [{| Placement.r := 2; Placement.m := 1;
             Placement.t1 := Matchup.roster_id a;
             Placement.t2 := Matchup.roster_id a;
             Placement.w := Matchup.roster_id a;
             Placement.l := Matchup.roster_id a;
             Placement.p := 1 |}]).
Proof.
  assert (∀ a b,
            (Matchup.points a == Matchup.points b)%Q →
            Matchup.matchup_id a = Matchup.matchup_id b →
            semi_results (Some [a; b])
            = ({[Matchup.roster_id a]}, {[Matchup.roster_id a]})) as Hweek.
  { intros a b Htie Hid. rewrite semi_results_groups.
    change (default [] (Some [a; b])) with [a; b].
    rewrite (group_by_matchup_same_id a b Hid). cbn [omap list_omap].
    unfold pair_winner, pair_loser. cbn [snd].
    destruct (equal_scores a b Htie) as [-> ->].
    f_equal; set_solver. }
  split; [|split; [|split; [exact Hweek|split]]].
  - intros m p a b Htie. rewrite placement_of_pair. unfold placement_for.
    by destruct (equal_scores a b Htie) as [-> ->].
  - intros W L k a b Htie. rewrite semi_result_step.
    unfold pair_winner, pair_loser. cbn [snd option_list].
    destruct (equal_scores a b Htie) as [-> ->].
    f_equal; set_solver.
  - intros a b Htie Hid Hne. rewrite (Hweek a b Htie Hid). cbn [fst snd].
    split; by apply not_elem_of_singleton.
  - intros ps ew tk a b Htie Hid.
    rewrite (determine_placements_picked _ ps ew tk [a; b] None ∅ ∅);
      [| cbn [fold_left]; unfold pick_weeks; by rewrite Z.eqb_refl
       | discriminate | reflexivity].
    rewrite resolve_without_semifinals.
    rewrite (group_by_matchup_same_id a b Hid).
    change (sorted_ids (map fst [(Matchup.matchup_id b, [a; b])]))
      with [Matchup.matchup_id b].
    change (placement_of 2 3 _) with (@nil Placement.t).
    rewrite app_nil_r.
    change (entries_with_id [a; b] <$> [Matchup.matchup_id b] !! 0%nat)
      with (Some (entries_with_id [a; b] (Matchup.matchup_id b))).
    unfold entries_with_id, with_id. cbn [List.filter].
    rewrite Hid, Z.eqb_refl. cbn [fst].
    change (placement_of 1 1 (Some [a; b])) with [placement_for 1 1 a b].
    unfold placement_for.
    by destruct (equal_scores a b Htie) as [-> ->].
Qed.

End PlacementTheorems.

(** ** The weekly scoreboard *)

Section Loops.
Context {A S : Type}.

Lemma for_each_invariant_in (P : S → Prop) (body : S → A → option S)
  (l : list A) (s s' : S) :
  (∀ s x s', x ∈ l → P s → body s x = Some s' → P s') →
  P s → for_each body l s = Some s' → P s'.
Proof.
  revert s. induction l as [|x l IH]; intros s Hstep Hs; simpl.
  - by intros [= <-].
  - destruct (body s x) as [s1|] eqn:Hb; [|discriminate].
    apply IH.
    + intros s2 y s3 Hy. apply Hstep. by right.
    + eapply Hstep; [by left | exact Hs | exact Hb].
Qed.

Lemma for_each_invariant (P : S → Prop) (body : S → A → option S)
  (l : list A) (s s' : S) :
  (∀ s x s', P s → body s x = Some s' → P s') →
  P s → for_each body l s = Some s' → P s'.
Proof.
  intros Hstep. apply for_each_invariant_in. intros s1 x s2 _. apply Hstep.
Qed.

End Loops.

Section Paired.
Implicit Types a b e : Matchup.t.
Implicit Types l : list Matchup.t.







End Paired.

Section Scoreboard.
Context (bi : builtins).
Implicit Types team_key_to_roster_id : keydict.

Lemma matchup_team_ids team_key_to_roster_id (teams_in_matchup : json)
  (matchup_id : Z) (match_teams match_teams' : list Matchup.t) (t : nat) :
  matchup_team bi team_key_to_roster_id teams_in_matchup matchup_id
    match_teams t = Some match_teams' →
  Forall (λ e, Matchup.matchup_id e = matchup_id) match_teams →
  Forall (λ e, Matchup.matchup_id e = matchup_id) match_teams'.
Proof.
  unfold matchup_team. intros Hstep Hall.
  destruct (py_get teams_in_matchup (str_of_nat t) (JDict [])) as [e|];
    [|discriminate]. cbn [mbind option_bind] in Hstep.
  destruct (py_get e "team" (JList [])) as [team_entry|]; [|discriminate].
  cbn [mbind option_bind] in Hstep.
  destruct (py_iter team_entry) as [items|]; [|discriminate].
  cbn [mbind option_bind] in Hstep.
  destruct (for_each (scan_team_item bi) items (JNull, 0%Q))
    as [[team_key team_points]|]; [|discriminate].
  cbn [mbind option_bind] in Hstep.
  destruct (truthy team_key); [|by injection Hstep as <-].
  destruct (keydict_get team_key (Z.of_nat t + 1) team_key_to_roster_id)
    as [roster_id|]; [|discriminate].
  injection Hstep as <-. apply Forall_app. split; [exact Hall|].
  by repeat constructor.
Qed.

Lemma matchup_participants_ids team_key_to_roster_id (matchup_data : json)
  (matchup_id : Z) (i : nat) (match_teams : list Matchup.t) :
  matchup_participants bi team_key_to_roster_id matchup_data matchup_id i
  = Some (Some match_teams) →
  Forall (λ e, Matchup.matchup_id e = matchup_id) match_teams.
Proof.
  unfold matchup_participants. intros Hp.
  destruct (py_get matchup_data (str_of_nat i) (JDict [])) as [e|];
    [|discriminate]. cbn [mbind option_bind] in Hp.
  destruct (py_get e "matchup" (JDict [])) as [match_entry|];
    [|discriminate]. cbn [mbind option_bind] in Hp.
  destruct (negb (truthy match_entry)); [discriminate|].
  destruct (positional_or_named match_entry "teams")
    as [teams_in_matchup|]; [|discriminate].
  cbn [mbind option_bind] in Hp.
  destruct (negb (truthy teams_in_matchup)); [discriminate|].
  destruct (py_get teams_in_matchup "count" (JInt 0)) as [team_count|];
    [|discriminate]. cbn [mbind option_bind] in Hp.
  destruct (py_range team_count) as [ts|]; [|discriminate].
  cbn [mbind option_bind] in Hp.
  destruct (for_each _ ts []) as [mt|] eqn:Hloop; [|discriminate].
  injection Hp as <-.
  refine (for_each_invariant _ _ ts [] mt _ _ Hloop); [|constructor].
  intros s x s' Hs Hstep. by eapply matchup_team_ids.
Qed.

(** An iteration of the matchup loop either leaves the state as it is or
    appends the two participants of the matchup, numbered with the
    current [matchup_id], and increments it. *)
Lemma scoreboard_matchup_step team_key_to_roster_id (matchup_data : json)
  (matchups matchups' : list Matchup.t) (matchup_id matchup_id' : Z)
  (i : nat) :
  scoreboard_matchup bi team_key_to_roster_id matchup_data
    (matchups, matchup_id) i = Some (matchups', matchup_id') →
  (matchups' = matchups ∧ matchup_id' = matchup_id)
  ∨ ∃ a b,
      matchup_participants bi team_key_to_roster_id matchup_data
        matchup_id i = Some (Some [a; b])
      ∧ Matchup.matchup_id a = matchup_id
      ∧ Matchup.matchup_id b = matchup_id
      ∧ matchups' = matchups ++ [a; b]
      ∧ matchup_id' = matchup_id + 1.
Proof.
  unfold scoreboard_matchup. intros Hstep.
  destruct (matchup_participants bi team_key_to_roster_id matchup_data
              matchup_id i) as [[mt|]|] eqn:Hp;
    cbn [mbind option_bind] in Hstep; [| |discriminate].
  - apply matchup_participants_ids in Hp as Hids.
    destruct mt as [|a [|b [|c mt]]]; cbn in Hstep;
      try (injection Hstep as <- <-; by left).
    injection Hstep as <- <-. right. exists a, b.
    apply Forall_cons in Hids as [Ha Hids].
    apply Forall_cons in Hids as [Hb _]. done.
  - injection Hstep as <- <-. by left.
Qed.


End Scoreboard.

Section ScoreboardClaims.
Context (bi : builtins).


End ScoreboardClaims.


(** ** Dicts *)

Section DictFacts.
Implicit Types d : pydict.

Lemma dict_get_set_eq (k : string) (v : json) d :
  dict_get k (dict_set k v d) = Some v.
Proof.
  induction d as [|[k' v'] d IH]; simpl.
  - by rewrite String.eqb_refl.
  - destruct (String.eqb_spec k k') as [<-|Hne]; simpl.
    + by rewrite String.eqb_refl.
    + by destruct (String.eqb_spec k k').
Qed.

Lemma dict_get_set_ne (k k' : string) (v : json) d :
  k ≠ k' → dict_get k (dict_set k' v d) = dict_get k d.
Proof.
  intros Hne. induction d as [|[k0 v0] d IH]; simpl.
  - by destruct (String.eqb_spec k k').
  - destruct (String.eqb_spec k' k0) as [<-|Hne0]; simpl.
    + by destruct (String.eqb_spec k k').
    + by rewrite IH.
Qed.

Lemma dict_update_absent (k : string) d (s : pydict) :
  dict_get k d = None → dict_get k s = None →
  dict_get k (dict_update d s) = None.
Proof.
  unfold dict_update. revert d.
  induction s as [|[k' v'] s IH]; intros d Hd Hs; simpl in *; [done|].
  destruct (String.eqb_spec k k') as [->|Hne]; [discriminate|].
  apply IH; [|done]. by rewrite dict_get_set_ne.
Qed.

End DictFacts.

(** ** Sorting by a key that may raise *)

Section PySorted.
Context {A : Type} (key : A → option Z).
Implicit Types l : list A.

Local Abbreviation keyZ := (key_or_zero key).
Local Abbreviation tag := (tagged key).

Lemma mapM_key_zip l (ks : list Z) :
  mapM key l = Some ks →
  zip ks l = map tag l ∧ Forall (λ t, key t = Some (keyZ t)) l.
Proof.
  intros Hm%mapM_Some_1.
  induction Hm as [|t k l ks Hk Hm [IHz IHf]]; [by split|].
  split.
  - simpl. rewrite IHz. unfold tagged at 2, key_or_zero. by rewrite Hk.
  - constructor; [|exact IHf]. unfold key_or_zero. by rewrite Hk.
Qed.

Lemma stable_sort_tagged l :
  Forall (λ p, fst p = keyZ (snd p)) (stable_sort (map tag l)).
Proof.
  rewrite <- (stable_sort_perm (map tag l)).
  apply Forall_map, Forall_forall. by intros t _.
Qed.

Lemma sorted_keys_ascending (kl : list (Z * A)) :
  StronglySorted key_le kl → StronglySorted Z.le (map fst kl).
Proof.
  induction 1 as [|y l Hl IH Hy]; simpl; constructor; [exact IH|].
  apply Forall_map. exact Hy.
Qed.

Lemma py_sorted_spec l (l' : list A) :
  py_sorted key l = Some l' →
  Permutation l l'
  ∧ (∃ ks, mapM key l' = Some ks ∧ StronglySorted Z.le ks)
  ∧ (∀ k : Z,
       List.filter (λ t, bool_decide (key t = Some k)) l'
       = List.filter (λ t, bool_decide (key t = Some k)) l).
Proof.
  unfold py_sorted. destruct (mapM key l) as [ks|] eqn:Hks; [|discriminate].
  cbn [mbind option_bind]. intros [= <-].
  destruct (mapM_key_zip l ks Hks) as [-> Hkeys].
  pose proof (stable_sort_tagged l) as Htag.
  pose proof (stable_sort_perm (map tag l)) as Hperm.
  assert (Permutation l (map snd (stable_sort (map tag l)))) as Hperm'.
  { rewrite <- Hperm, map_map. simpl. by rewrite map_id. }
  assert (Forall (λ t, key t = Some (keyZ t))
            (map snd (stable_sort (map tag l)))) as Hkeys'
    by (by rewrite <- Hperm').
  split; [exact Hperm'|]. split.
  - exists (map fst (stable_sort (map tag l))). split.
    + apply mapM_Some_2.
      clear Hperm Hperm'. revert Htag Hkeys'.
      generalize (stable_sort (map tag l)).
      induction l0 as [|[k t] l0 IH]; simpl; intros Ht Hk; constructor.
      * apply Forall_cons in Ht as [Ht _]. apply Forall_cons in Hk as [Hk _].
        simpl in *. by rewrite Ht.
      * apply IH; [by apply Forall_cons in Ht as [] |
                   by apply Forall_cons in Hk as []].
    + apply sorted_keys_ascending, stable_sort_sorted.
  - intros k.
    pose proof (stable_sort_stable k (map tag l)) as Hst.
    apply (f_equal (map snd)) in Hst.
    assert (∀ kl : list (Z * A),
              Forall (λ p, fst p = keyZ (snd p)) kl →
              Forall (λ t, key t = Some (keyZ t)) (map snd kl) →
              map snd (List.filter (has_key k) kl)
              = List.filter (λ t, bool_decide (key t = Some k)) (map snd kl))
      as Hfilter.
    { induction kl as [|[k' t] kl IH]; [done|]. intros Ht Hk.
      apply Forall_cons in Ht as [Ht Ht']. apply Forall_cons in Hk as [Hk Hk'].
      simpl in *. rewrite <- (IH Ht' Hk'). unfold has_key at 1. simpl.
      rewrite Hk, Ht.
      destruct (Z.eqb_spec (keyZ t) k) as [->|Hne].
      - by rewrite bool_decide_eq_true_2.
      - rewrite bool_decide_eq_false_2; [done | congruence]. }
    rewrite !Hfilter in Hst; try done.
    + rewrite Hst, map_map. simpl. by rewrite map_id.
    + apply Forall_map, Forall_forall. by intros t _.
    + rewrite map_map. simpl. by rewrite map_id.
Qed.

End PySorted.

(** ** Season assembly *)

Section Assembly.
Context (bi : builtins).

Lemma enumerate_lookup {A : Type} (l : list A) (i : nat) (x : A) :
  l !! i = Some x → enumerate l !! i = Some (i, x).
Proof.
  intros Hx. unfold enumerate. apply lookup_zip_with_Some.
  exists i, x. split; [done|]. split; [|done].
  apply lookup_seq. split; [done|]. by eapply lookup_lt_Some.
Qed.

Lemma enumerate_length {A : Type} (l : list A) :
  length (enumerate l) = length l.
Proof. unfold enumerate. rewrite length_zip_with, length_seq. lia. Qed.

Lemma roster_of_fields (league_key : string) (idx : nat) (team : pydict)
  (ro : Roster.t) :
  roster_of bi league_key idx team = Some ro →
  Roster.roster_id ro = Z.of_nat idx + 1
  ∧ Roster.owner_id ro = manager_id_of bi idx team
  ∧ Roster.league_id ro = league_key.
Proof.
  unfold roster_of.
  destruct (py_float bi (dict_get_or "points_for" (JInt 0) team));
    [|discriminate].
  destruct (py_float bi (dict_get_or "points_against" (JInt 0) team));
    [|discriminate].
  by intros [= <-].
Qed.

(** The first loop over [teams_sorted] appends one user and one roster per
    team, in order. *)
Lemma add_team_loop (league_key : string) (l : list (nat * pydict))
  (users0 users1 : list User.t) (rosters0 rosters1 : list Roster.t)
  (m0 m1 : gmap Z json) :
  for_each (add_team bi league_key) l (users0, rosters0, m0)
  = Some (users1, rosters1, m1) →
  users1 = users0 ++ map (λ it, user_of bi it.1 it.2) l
  ∧ ∃ rs, rosters1 = rosters0 ++ rs
          ∧ Forall2 (λ it ro, roster_of bi league_key it.1 it.2 = Some ro) l rs.
Proof.
  revert users0 rosters0 m0.
  induction l as [|[idx team] l IH]; intros users0 rosters0 m0; simpl.
  - intros [= <- <- <-]. rewrite app_nil_r. split; [done|].
    exists []. by rewrite app_nil_r.
  - destruct (roster_of bi league_key idx team) as [ro|] eqn:Hro;
      [|discriminate]. cbn [mbind option_bind].
    intros Hloop. apply IH in Hloop as [-> (rs & -> & Hrs)].
    split; [by rewrite <- app_assoc|].
    exists (ro :: rs). split; [by rewrite <- app_assoc|].
    by constructor.
Qed.

Lemma assemble_season_inv (a : api) (lg : league_ref)
  (num_teams playoff_start end_week : Z) (sd : season_data) :
  assemble_season bi a lg num_teams playoff_start end_week = Some sd →
  ∃ (standings_data : json) (parsed : standings) (teams_sorted : list pydict)
    (team_key_to_roster_id : keydict),
    get_league_standings a (lg_league_key lg) = Some standings_data
    ∧ _parse_standings bi standings_data = Some parsed
    ∧ py_sorted (rank_key bi) (teams parsed) = Some teams_sorted
    ∧ for_each add_team_key (enumerate teams_sorted) []
      = Some team_key_to_roster_id
    ∧ users sd = map (λ it, user_of bi it.1 it.2) (enumerate teams_sorted)
    ∧ Forall2
        (λ it ro, roster_of bi (lg_league_key lg) it.1 it.2 = Some ro)
        (enumerate teams_sorted) (rosters sd)
    ∧ matchups sd
      = map (week_matchups bi a (lg_league_key lg) team_key_to_roster_id)
          (range_Z 1 (playoff_start - 1 + 1))
    ∧ playoff_week_start (league sd) = playoff_start
    ∧ total_rosters (league sd) = length (teams parsed).
Proof.
  unfold assemble_season. intros Hsd.
  destruct (get_league_standings a (lg_league_key lg)) as [standings_data|];
    [|discriminate]. cbn [mbind option_bind] in Hsd.
  destruct (_parse_standings bi standings_data) as [parsed|] eqn:Hparsed;
    [|discriminate]. cbn [mbind option_bind] in Hsd.
  destruct (py_sorted (rank_key bi) (teams parsed)) as [teams_sorted|]
    eqn:Hsorted; [|discriminate]. cbn [mbind option_bind] in Hsd.
  destruct (for_each (add_team bi (lg_league_key lg)) (enumerate teams_sorted)
              ([], [], ∅)) as [[[us rs] m]|] eqn:Hloop; [|discriminate].
  cbn [mbind option_bind] in Hsd.
  destruct (for_each add_team_key (enumerate teams_sorted) []) as [tk|]
    eqn:Htk; [|discriminate]. cbn [mbind option_bind] in Hsd.
  injection Hsd as <-.
  apply add_team_loop in Hloop as [-> (rs' & -> & Hrs)].
  exists standings_data, parsed, teams_sorted, tk. cbn.
  repeat split; done.
Qed.

Lemma extract_season_data_inv (a : api) (lg : league_ref) (sd : season_data) :
  extract_season_data bi a lg = Some sd →
  ∃ (settings_data : json) (num_teams playoff_start end_week : Z),
    get_league_settings a (lg_league_key lg) = Some settings_data
    ∧ effective_settings bi (_parse_league_settings bi settings_data)
      = Some (num_teams, playoff_start, end_week)
    ∧ assemble_season bi a lg num_teams playoff_start end_week = Some sd.
Proof.
  unfold extract_season_data. intros Hsd.
  destruct (get_league_settings a (lg_league_key lg)) as [settings_data|];
    [|discriminate]. cbn [mbind option_bind] in Hsd.
  destruct (effective_settings bi (_parse_league_settings bi settings_data))
    as [[[nt ps] ew]|] eqn:Heff; [|discriminate].
  cbn [mbind option_bind] in Hsd.
  exists settings_data, nt, ps, ew. split; [done|]. split; [done|]. exact Hsd.
Qed.

End Assembly.

Section Standings.
Context (bi : builtins).

Lemma parse_team_entry_has_key (team_entry : json) (team : pydict) :
  _parse_team_entry bi team_entry = Some team →
  truthy (dict_get_or "team_key" JNull team) = true.
Proof.
  unfold _parse_team_entry.
  destruct (parse_team_entry_try bi team_entry) as [t|]; [|discriminate].
  destruct (truthy (dict_get_or "team_key" JNull t)) eqn:Hk; [|discriminate].
  by intros [= <-].
Qed.

Lemma standings_team_step (teams_data : json) (teams teams' : list pydict)
  (i : nat) :
  standings_team bi teams_data teams i = Some teams' →
  ∃ e, team_entry_at teams_data i = Some e
       ∧ teams' = teams ++ option_list (_parse_team_entry bi e).
Proof.
  unfold standings_team, team_entry_at.
  destruct (py_get teams_data (str_of_nat i) (JDict [])) as [e|];
    [|discriminate]. cbn [mbind option_bind].
  destruct (py_get e "team" (JList [])) as [team_entry|]; [|discriminate].
  cbn [mbind option_bind]. intros [= <-]. exists team_entry. split; [done|].
  destruct (_parse_team_entry bi team_entry) as [team|] eqn:Hteam.
  - apply parse_team_entry_has_key in Hteam.
    destruct team as [|kv team]; [discriminate Hteam|]. done.
  - by rewrite app_nil_r.
Qed.

Lemma standings_team_loop (teams_data : json) (idxs : list nat)
  (teams teams' : list pydict) :
  for_each (standings_team bi teams_data) idxs teams = Some teams' →
  ∃ es, mapM (team_entry_at teams_data) idxs = Some es
        ∧ teams' = teams ++ omap (_parse_team_entry bi) es.
Proof.
  revert teams. induction idxs as [|i idxs IH]; intros teams; simpl.
  - intros [= <-]. exists []. by rewrite app_nil_r.
  - destruct (standings_team bi teams_data teams i) as [teams1|] eqn:Hstep;
      [|discriminate].
    apply standings_team_step in Hstep as (e & He & ->).
    intros (es & Hes & ->)%IH. exists (e :: es). split.
    + rewrite He, Hes. done.
    + rewrite <- app_assoc. f_equal. cbn [omap list_omap].
      by destruct (_parse_team_entry bi e).
Qed.

Lemma standings_item_step (teams teams' : list pydict) (item : json) :
  standings_item bi teams item = Some teams' →
  ∃ es, item_team_entries item = Some es
        ∧ teams' = teams ++ omap (_parse_team_entry bi) es.
Proof.
  unfold standings_item, item_team_entries.
  destruct item as [| | | | | |it];
    try (intros [= <-]; exists []; by rewrite app_nil_r).
  destruct (dict_get "teams" it) as [teams_data|];
    [|intros [= <-]; exists []; by rewrite app_nil_r].
  destruct (py_get teams_data "count" (JInt 0)) as [team_count|];
    [|discriminate]. cbn [mbind option_bind].
  destruct (py_range team_count) as [idxs|]; [|discriminate].
  cbn [mbind option_bind]. apply standings_team_loop.
Qed.

Lemma standings_item_loop (st : list json) (teams teams' : list pydict) :
  for_each (standings_item bi) st teams = Some teams' →
  ∃ ess, mapM item_team_entries st = Some ess
         ∧ teams' = teams ++ omap (_parse_team_entry bi) (concat ess).
Proof.
  revert teams. induction st as [|item st IH]; intros teams; simpl.
  - intros [= <-]. exists []. by rewrite app_nil_r.
  - destruct (standings_item bi teams item) as [teams1|] eqn:Hstep;
      [|discriminate].
    apply standings_item_step in Hstep as (es & Hes & ->).
    intros (ess & Hess & ->)%IH. exists (es :: ess). split.
    + rewrite Hes, Hess. done.
    + simpl. by rewrite omap_app, <- app_assoc.
Qed.

(** The teams of [_parse_standings] are the team entries it visits that
    [_parse_team_entry] accepts, in order. *)
Lemma parse_standings_teams (data : json) (parsed : standings) :
  _parse_standings bi data = Some parsed →
  ∃ entries, standings_team_entries data = Some entries
             ∧ teams parsed = omap (_parse_team_entry bi) entries.
Proof.
  unfold _parse_standings, standings_team_entries.
  destruct (league_of data) as [league_data|]; [|discriminate].
  cbn [mbind option_bind].
  destruct (first_dict league_data) as [meta|]; [|discriminate].
  cbn [mbind option_bind].
  destruct (py_len league_data) as [n|]; [|discriminate].
  cbn [mbind option_bind].
  destruct (1 <? n)%nat.
  - destruct (py_index league_data 1) as [second|]; [|discriminate].
    cbn [mbind option_bind].
    destruct second as [| | | | | |sd];
      try (intros [= <-]; by exists []).
    destruct (dict_get_or "standings" (JList []) sd) as [| | | | |st|];
      try (intros [= <-]; by exists []).
    destruct (for_each (standings_item bi) st []) as [ts|] eqn:Hloop;
      [|discriminate].
    cbn [mbind option_bind]. intros [= <-].
    apply standings_item_loop in Hloop as (ess & Hess & ->).
    exists (concat ess). rewrite Hess. done.
  - intros [= <-]. by exists [].
Qed.

Lemma parse_standings_keys (data : json) (parsed : standings) :
  _parse_standings bi data = Some parsed →
  Forall (λ team, truthy (dict_get_or "team_key" JNull team) = true)
    (teams parsed).
Proof.
  intros (entries & _ & ->)%parse_standings_teams.
  apply Forall_forall. intros team (e & _ & He)%list_elem_of_omap.
  by eapply parse_team_entry_has_key.
Qed.

End Standings.

Section SeasonClaims.
Context (bi : builtins).

Lemma roster_ids_seq (league_key : string) (l : list pydict) (s : nat)
  (rs : list Roster.t) :
  Forall2 (λ it ro, roster_of bi league_key it.1 it.2 = Some ro)
    (zip (seq s (length l)) l) rs →
  map Roster.roster_id rs = map Z.of_nat (seq (S s) (length l)).
Proof.
  revert s rs. induction l as [|t l IH]; intros s rs; simpl.
  - by intros ->%Forall2_nil_inv_l.
  - intros (ro & rs' & Hro & Hrs & ->)%Forall2_cons_inv_l. simpl.
    apply roster_of_fields in Hro as (-> & _ & _). simpl.
    f_equal; [lia|]. by apply IH.
Qed.

Lemma roster_owners_users (league_key : string) (l : list (nat * pydict))
  (rs : list Roster.t) :
  Forall2 (λ it ro, roster_of bi league_key it.1 it.2 = Some ro) l rs →
  map Roster.owner_id rs
  = map User.user_id (map (λ it, user_of bi it.1 it.2) l).
Proof.
  induction 1 as [|[idx team] ro l rs Hro Hrs IH]; [done|]. simpl.
  apply roster_of_fields in Hro as (_ & -> & _). by rewrite IH.
Qed.

Lemma rank_key_missing (team : pydict) :
  dict_get "rank" team = None ∨ dict_get "rank" team = Some JNull →
  rank_key bi team = Some 99.
Proof. unfold rank_key, dict_get_or. by intros [->| ->]. Qed.

Lemma sorted_head_least (ranks : list Z) (i : nat) (k1 k : Z) :
  StronglySorted Z.le ranks →
  ranks !! 0%nat = Some k1 → ranks !! i = Some k → k1 <= k.
Proof.
  intros Hs H1 Hi. destruct ranks as [|r ranks]; [done|].
  injection H1 as ->. destruct i as [|i]; [injection Hi as ->; lia|].
  apply StronglySorted_inv in Hs as [_ Hall].
  rewrite Forall_forall in Hall. apply Hall.
  eapply list_elem_of_lookup_2. exact Hi.
Qed.

Lemma rank_key_truthy (team : pydict) (v : json) :
  dict_get "rank" team = Some v → truthy v = true →
  rank_key bi team = py_int bi v.
Proof.
  intros Hv Ht. unfold rank_key, dict_get_or, py_or. rewrite Hv. simpl.
  by rewrite Ht.
Qed.

Lemma rank_key_falsy (team : pydict) (v : json) :
  dict_get "rank" team = Some v → truthy v = false →
  rank_key bi team = Some 99.
Proof.
  intros Hv Ht. unfold rank_key, dict_get_or, py_or. rewrite Hv. simpl.
  by rewrite Ht.
Qed.

Lemma sorted_lookup_le (ranks : list Z) (i j : nat) (ki kj : Z) :
  StronglySorted Z.le ranks → (i <= j)%nat →
  ranks !! i = Some ki → ranks !! j = Some kj → ki <= kj.
Proof.
  intros Hs. revert i j. induction Hs as [|r ranks Hs IH Hall];
    intros i j Hij Hi Hj; [done|].
  destruct i as [|i], j as [|j]; simpl in Hi, Hj.
  - injection Hi as <-. injection Hj as <-. lia.
  - injection Hi as <-. rewrite Forall_forall in Hall. apply Hall.
    by eapply list_elem_of_lookup_2.
  - lia.
  - apply (IH i j); [lia | done..].
Qed.

Lemma keys_of_sorted (teams_sorted : list pydict) (ranks : list Z)
  (i : nat) (team : pydict) :
  mapM (rank_key bi) teams_sorted = Some ranks →
  teams_sorted !! i = Some team → ranks !! i = rank_key bi team.
Proof.
  intros Hranks%mapM_Some Hteam.
  destruct (Forall2_lookup_l _ _ _ _ _ Hranks Hteam) as (k & Hk & Hkey).
  by rewrite Hk, Hkey.
Qed.

(** C1. In an assembled season the roster ids are 1, 2, ..., N in order,
    N being the number of team entries of the standings that
    [_parse_team_entry] accepts, each with a non-empty [team_key]. The
    rosters follow the teams sorted by rank: a permutation of the parsed
    teams whose rank keys ascend, a missing rank counting as 99, teams of
    equal rank keeping their order of discovery; the roster at position [i]
    has id [i + 1], so the rank key of roster 1 is the least. The rank key
    of a team is the integer value of its ["rank"] entry when this entry
    is truthy, and 99 when the entry is missing or falsy; the key at a
    position is that of the team at this position, and keys ascend with
    the position. *)
Theorem extract_season_data_roster_ids (a : api) (lg : league_ref)
  (sd : season_data) :
  extract_season_data bi a lg = Some sd →
  ∃ (standings_data : json) (parsed : standings) (entries : list json)
    (teams_sorted : list pydict) (ranks : list Z),
    get_league_standings a (lg_league_key lg) = Some standings_data
    ∧ _parse_standings bi standings_data = Some parsed
    ∧ standings_team_entries standings_data = Some entries
    ∧ teams parsed = omap (_parse_team_entry bi) entries
    ∧ Forall (λ team, truthy (dict_get_or "team_key" JNull team) = true)
        (teams parsed)
    ∧ map Roster.roster_id (rosters sd)
      = map Z.of_nat (seq 1 (length (teams parsed)))
    ∧ Permutation (teams parsed) teams_sorted
    ∧ mapM (rank_key bi) teams_sorted = Some ranks
    ∧ StronglySorted Z.le ranks
    ∧ (∀ team : pydict,
         dict_get "rank" team = None ∨ dict_get "rank" team = Some JNull →
         rank_key bi team = Some 99)
    ∧ (∀ k : Z,
         List.filter (λ t, bool_decide (rank_key bi t = Some k)) teams_sorted
         = List.filter (λ t, bool_decide (rank_key bi t = Some k))
             (teams parsed))
    ∧ (∀ (i : nat) (team : pydict),
         teams_sorted !! i = Some team →
         ∃ ro, rosters sd !! i = Some ro
               ∧ Roster.roster_id ro = Z.of_nat i + 1
               ∧ Roster.owner_id ro = manager_id_of bi i team)
    ∧ (∀ (i : nat) (k1 k : Z),
         ranks !! 0%nat = Some k1 → ranks !! i = Some k → k1 <= k)
    ∧ (∀ (team : pydict) (v : json),
         dict_get "rank" team = Some v → truthy v = true →
         rank_key bi team = py_int bi v)
    ∧ (∀ (team : pydict) (v : json),
         dict_get "rank" team = Some v → truthy v = false →
         rank_key bi team = Some 99)
    ∧ (∀ (i : nat) (team : pydict),
         teams_sorted !! i = Some team → ranks !! i = rank_key bi team)
    ∧ (∀ (i j : nat) (ki kj : Z),
         (i <= j)%nat →
         ranks !! i = Some ki → ranks !! j = Some kj → ki <= kj).
Proof.
  intros (settings_data & nt & ps & ew & _ & _ & Hsd)%extract_season_data_inv.
  apply assemble_season_inv in Hsd
    as (standings_data & parsed & teams_sorted & tk & Hget & Hparsed & Hsorted
        & _ & _ & Hrosters & _).
  destruct (parse_standings_teams bi _ _ Hparsed) as (entries & Hentries & Ht).
  destruct (py_sorted_spec _ _ _ Hsorted)
    as (Hperm & (ranks & Hranks & Hasc) & Hstable).
  exists standings_data, parsed, entries, teams_sorted, ranks.
  split; [done|]. split; [done|]. split; [done|]. split; [done|].
  split; [by eapply parse_standings_keys|].
  split.
  { rewrite (Permutation_length Hperm). by eapply roster_ids_seq. }
  split; [done|]. split; [done|]. split; [done|].
  split; [apply rank_key_missing|]. split; [done|]. split.
  { intros i team Hteam. apply enumerate_lookup in Hteam.
    destruct (Forall2_lookup_l _ _ _ _ _ Hrosters Hteam) as (ro & Hro & Hof).
    exists ro. split; [done|].
    apply roster_of_fields in Hof as (? & ? & _). done. }
  split; [intros i k1 k; by apply sorted_head_least|].
  split; [apply rank_key_truthy|]. split; [apply rank_key_falsy|].
  split.
  - intros i team. by apply keys_of_sorted.
  - intros i j ki kj. by apply sorted_lookup_le.
Qed.

(** C3 (amended). In an assembled season the users list has exactly one
    User per team, in roster order: the user at position [i] carries the
    manager id, display name, avatar and team name of the team of roster
    [i + 1], whether or not another team has the same manager id. *)
Theorem extract_season_data_users (a : api) (lg : league_ref)
  (sd : season_data) :
  extract_season_data bi a lg = Some sd →
  ∃ (standings_data : json) (parsed : standings) (teams_sorted : list pydict),
    get_league_standings a (lg_league_key lg) = Some standings_data
    ∧ _parse_standings bi standings_data = Some parsed
    ∧ py_sorted (rank_key bi) (teams parsed) = Some teams_sorted
    ∧ length (users sd) = length (teams parsed)
    ∧ length (users sd) = length (rosters sd)
    ∧ map User.user_id (users sd) = map Roster.owner_id (rosters sd)
    ∧ (∀ (i : nat) (team : pydict),
         teams_sorted !! i = Some team →
         users sd !! i
         = Some
             {| User.user_id := manager_id_of bi i team;
                User.display_name :=
                  dict_get_or "manager_name"
                    (JStr (String.append "Manager "
                             (str_of_Z (Z.of_nat i + 1)))) team;
                User.avatar := dict_get_or "team_logo" JNull team;
                User.team_name := dict_get_or "team_name" (JStr "") team |}).
Proof.
  intros (settings_data & nt & ps & ew & _ & _ & Hsd)%extract_season_data_inv.
  apply assemble_season_inv in Hsd
    as (standings_data & parsed & teams_sorted & tk & Hget & Hparsed & Hsorted
        & _ & Husers & Hrosters & _).
  destruct (py_sorted_spec _ _ _ Hsorted) as (Hperm & _ & _).
  exists standings_data, parsed, teams_sorted.
  split; [done|]. split; [done|]. split; [done|].
  assert (length (users sd) = length teams_sorted) as Hlen
    by (by rewrite Husers, length_map, enumerate_length).
  split; [by rewrite (Permutation_length Hperm)|].
  split.
  { rewrite Hlen, <- (enumerate_length teams_sorted).
    by eapply Forall2_length. }
  split; [rewrite Husers; symmetry; by eapply roster_owners_users|].
  intros i team Hteam. rewrite Husers, list_lookup_fmap.
  by rewrite (enumerate_lookup _ _ _ Hteam).
Qed.


End SeasonClaims.

(** ** League settings *)

Section Settings.
Context (bi : builtins).
Implicit Types v data : json.
Implicit Types d settings : pydict.

Lemma mentions_dict_key (k : string) d :
  mentions k (JDict d) = false → dict_get k d = None.
Proof.
  induction d as [|[k' v'] d IH]; [done|]. cbn [mentions existsb fst snd].
  intros [[Hk _]%orb_false_elim Hd]%orb_false_elim.
  cbn [dict_get]. rewrite Hk. by apply IH.
Qed.

Lemma mentions_dict_get (k k' : string) d v :
  mentions k (JDict d) = false → dict_get k' d = Some v →
  mentions k v = false.
Proof.
  induction d as [|[k0 v0] d IH]; [done|]. cbn [mentions existsb fst snd].
  intros [[_ Hv]%orb_false_elim Hd]%orb_false_elim.
  cbn [dict_get]. destruct (String.eqb k' k0); [by intros [= <-]|].
  by apply IH.
Qed.

Lemma mentions_elem (k : string) (l : list json) v :
  mentions k (JList l) = false → v ∈ l → mentions k v = false.
Proof.
  induction l as [|x l IH]; [intros _ Hin; by apply elem_of_nil in Hin|].
  cbn [mentions existsb]. intros [Hx Hl]%orb_false_elim.
  intros [->|Hin]%elem_of_cons; [done | by apply IH].
Qed.

Lemma mentions_py_get (k k' : string) v (dflt x : json) :
  mentions k v = false → mentions k dflt = false →
  py_get v k' dflt = Some x → mentions k x = false.
Proof.
  destruct v as [| | | | | |d]; try discriminate. cbn [py_get].
  intros Hd Hdflt [= <-]. unfold dict_get_or.
  destruct (dict_get k' d) as [y|] eqn:Hy; [|done].
  by eapply mentions_dict_get.
Qed.

Lemma mentions_chars (k : string) (s : string) :
  Forall (λ x, mentions k x = false) (chars s).
Proof. unfold chars. apply Forall_map, Forall_forall. done. Qed.

Lemma mentions_py_iter (k : string) v (l : list json) :
  mentions k v = false → py_iter v = Some l →
  Forall (λ x, mentions k x = false) l.
Proof.
  destruct v as [| | | |s|l'|d]; try discriminate; cbn [py_iter].
  - intros _ [= <-]. apply mentions_chars.
  - intros Hl [= <-]. apply Forall_forall. intros x Hx.
    by eapply mentions_elem.
  - intros _ [= <-]. apply Forall_map, Forall_forall. done.
Qed.

Lemma mentions_py_index (k : string) v (i : nat) (x : json) :
  mentions k v = false → py_index v i = Some x → mentions k x = false.
Proof.
  destruct v as [| | | |s|l|]; try discriminate; cbn [py_index].
  - intros _ Hx. pose proof (mentions_chars k s) as Hall.
    rewrite Forall_forall in Hall. apply Hall.
    by eapply list_elem_of_lookup_2.
  - intros Hl Hx. eapply mentions_elem; [exact Hl|].
    by eapply list_elem_of_lookup_2.
Qed.

Lemma mentions_league_of (k : string) data (league_data : json) :
  mentions k data = false → league_of data = Some league_data →
  mentions k league_data = false.
Proof.
  unfold league_of. intros Hd.
  destruct (py_get data "fantasy_content" (JDict [])) as [fc|] eqn:Hfc;
    [|discriminate]. cbn [mbind option_bind].
  intros Hleague.
  eapply (mentions_py_get k "league" fc (JList []) league_data);
    [|done|exact Hleague].
  by eapply (mentions_py_get k "fantasy_content" data (JDict []) fc).
Qed.

Lemma mentions_first_dict (k : string) (league_data : json) (meta : pydict) :
  mentions k league_data = false →
  first_dict league_data = Some (Some meta) →
  mentions k (JDict meta) = false.
Proof.
  unfold first_dict. intros Hl. destruct (truthy league_data); [|discriminate].
  destruct (py_index league_data 0) as [x|] eqn:Hx; [|discriminate].
  cbn [mbind option_bind]. destruct x; try discriminate.
  intros [= <-]. by eapply mentions_py_index.
Qed.

(** A key the response does not mention stays out of the settings. *)
Lemma set_int_field_absent (k : string) (src settings settings' : pydict)
  (key : string) :
  dict_get k src = None → dict_get k settings = None →
  set_int_field bi src settings key = Some settings' →
  dict_get k settings' = None.
Proof.
  unfold set_int_field. intros Hsrc Hs.
  destruct (dict_get key src) as [v|] eqn:Hv; [|by intros [= <-]].
  destruct (py_int bi v) as [z|]; [|discriminate].
  cbn [mbind option_bind]. intros [= <-].
  rewrite dict_get_set_ne; [done|]. intros ->. congruence.
Qed.

Lemma merge_settings_absent (k : string) (setting_list : list json) settings :
  Forall (λ x, mentions k x = false) setting_list →
  dict_get k settings = None →
  dict_get k (fold_left merge_setting setting_list settings) = None.
Proof.
  intros Hall. revert settings.
  induction Hall as [|s l Hs Hl IH]; intros settings Hk; [done|].
  cbn [fold_left]. apply IH. unfold merge_setting.
  destruct s as [| | | | | |sd]; try done.
  apply dict_update_absent; [done|]. by apply mentions_dict_key.
Qed.

Lemma settings_item_absent (k : string) settings settings' (item : json) :
  mentions k item = false → dict_get k settings = None →
  settings_item bi settings item = Some settings' →
  dict_get k settings' = None.
Proof.
  intros Hitem Hk. unfold settings_item.
  destruct item as [| | | | | |it]; try (by intros [= <-]).
  pose proof (mentions_dict_key k it Hitem) as Hsrc.
  set (s0 := match dict_get "settings" it with
             | Some (JList setting_list) =>
                 fold_left merge_setting setting_list settings
             | _ => settings
             end).
  assert (dict_get k s0 = None) as H0.
  { subst s0. destruct (dict_get "settings" it) as [sl|] eqn:Hsl; [|done].
    destruct sl as [| | | | |setting_list|]; try done.
    apply merge_settings_absent; [|done].
    apply Forall_forall. intros x Hx.
    eapply mentions_elem; [|exact Hx]. by eapply mentions_dict_get. }
  destruct (set_int_field bi it s0 "num_teams") as [s1|] eqn:H1;
    [|discriminate]. cbn [mbind option_bind].
  destruct (set_int_field bi it s1 "end_week") as [s2|] eqn:H2;
    [|discriminate]. cbn [mbind option_bind].
  destruct (set_int_field bi it s2 "start_week") as [s3|] eqn:H3;
    [|discriminate]. cbn [mbind option_bind].
  intros H4.
  eapply set_int_field_absent in H1; [|done..].
  eapply set_int_field_absent in H2; [|done..].
  eapply set_int_field_absent in H3; [|done..].
  by eapply set_int_field_absent in H4.
Qed.

Lemma parse_league_settings_absent (k : string) data settings :
  mentions k data = false →
  parse_league_settings_try bi data = Some settings →
  dict_get k settings = None.
Proof.
  intros Hdata. unfold parse_league_settings_try.
  destruct (league_of data) as [league_data|] eqn:Hld; [|discriminate].
  cbn [mbind option_bind].
  pose proof (mentions_league_of k _ _ Hdata Hld) as Hclean.
  destruct (py_iter league_data) as [items|] eqn:Hitems; [|discriminate].
  cbn [mbind option_bind].
  pose proof (mentions_py_iter k _ _ Hclean Hitems) as Hall.
  destruct (for_each (settings_item bi) items []) as [s1|] eqn:Hloop;
    [|discriminate]. cbn [mbind option_bind].
  assert (dict_get k s1 = None) as Hs1.
  { refine (for_each_invariant_in (λ s, dict_get k s = None) _ items [] s1
              _ _ Hloop); [|done].
    intros s x s' Hx Hs Hstep. rewrite Forall_forall in Hall.
    eapply settings_item_absent; [by apply Hall | exact Hs | exact Hstep]. }
  destruct (first_dict league_data) as [[meta|]|] eqn:Hmeta;
    [| by intros [= <-] | discriminate].
  cbn [mbind option_bind]. intros Hloop2.
  pose proof (mentions_dict_key k meta
                (mentions_first_dict k _ _ Hclean Hmeta)) as Hsrc.
  refine (for_each_invariant_in (λ s, dict_get k s = None) _ meta_keys s1
            settings _ Hs1 Hloop2).
  intros s x s' _ Hs Hstep.
  exact (set_int_field_absent k meta s s' x Hsrc Hs Hstep).
Qed.

Lemma effective_settings_defaults settings :
  dict_get "num_teams" settings = None →
  dict_get "playoff_start_week" settings = None →
  dict_get "end_week" settings = None →
  effective_settings bi settings = Some (10, 14, 16).
Proof.
  intros H1 H2 H3. unfold effective_settings, dict_get_or.
  by rewrite H1, H2, H3.
Qed.

End Settings.

Section WeekClaims.
Context (bi : builtins).

Lemma range_Z_length (lo hi : Z) :
  length (range_Z lo hi) = Z.to_nat (hi - lo).
Proof. unfold range_Z. by rewrite length_map, length_seq. Qed.

Lemma range_Z_lookup (lo hi : Z) (i : nat) :
  (i < Z.to_nat (hi - lo))%nat →
  range_Z lo hi !! i = Some (lo + Z.of_nat i).
Proof.
  intros Hi. unfold range_Z.
  change (map ?f ?l) with (f <$> l). rewrite list_lookup_fmap.
  by rewrite lookup_seq_lt.
Qed.

Lemma parse_scoreboard_raise_in_loop (data : json)
  (team_key_to_roster_id : keydict) (matchup_data : json)
  (before after : list nat) (i : nat) (matchups : list Matchup.t)
  (matchup_id : Z) :
  locate_matchups data = Some (Some matchup_data) →
  py_get matchup_data "count" (JInt 0) ≫= py_range
  = Some (before ++ i :: after) →
  for_each (scoreboard_matchup bi team_key_to_roster_id matchup_data) before
    ([], 1) = Some (matchups, matchup_id) →
  scoreboard_matchup bi team_key_to_roster_id matchup_data
    (matchups, matchup_id) i = None →
  _parse_scoreboard bi data team_key_to_roster_id = matchups.
Proof.
  intros Hloc Hcount Hbefore Hraise. unfold _parse_scoreboard.
  rewrite Hloc, Hcount. clear Hloc Hcount.
  revert Hbefore. generalize (@nil Matchup.t, 1) as st.
  induction before as [|j before IH]; intros st; simpl.
  - intros [= ->]. by rewrite Hraise.
  - destruct (scoreboard_matchup bi team_key_to_roster_id matchup_data st j)
      as [st'|]; [|discriminate]. apply IH.
Qed.

Lemma parse_scoreboard_raise_before_loop (data : json)
  (team_key_to_roster_id : keydict) :
  locate_matchups data = None →
  _parse_scoreboard bi data team_key_to_roster_id = [].
Proof. intros Hloc. unfold _parse_scoreboard. by rewrite Hloc. Qed.

Lemma parse_scoreboard_early_return (data : json)
  (team_key_to_roster_id : keydict) :
  locate_matchups data = Some None →
  _parse_scoreboard bi data team_key_to_roster_id = [].
Proof. intros Hloc. unfold _parse_scoreboard. by rewrite Hloc. Qed.

Lemma parse_scoreboard_raise_at_count (data : json)
  (team_key_to_roster_id : keydict) (matchup_data : json) :
  locate_matchups data = Some (Some matchup_data) →
  py_get matchup_data "count" (JInt 0) ≫= py_range = None →
  _parse_scoreboard bi data team_key_to_roster_id = [].
Proof.
  intros Hloc Hcount. unfold _parse_scoreboard. by rewrite Hloc, Hcount.
Qed.

Lemma scoreboard_loop_no_pair (team_key_to_roster_id : keydict)
  (matchup_data : json) (idxs : list nat) (st : list Matchup.t * Z) :
  (∀ (i : nat) (matchup_id : Z) (x y : Matchup.t),
     i ∈ idxs →
     matchup_participants bi team_key_to_roster_id matchup_data matchup_id i
     ≠ Some (Some [x; y])) →
  run_until_raise (scoreboard_matchup bi team_key_to_roster_id matchup_data)
    idxs st
  = st.
Proof.
  induction idxs as [|i idxs IH]; intros Hno; [reflexivity|].
  cbn [run_until_raise]. destruct st as [ms mid].
  destruct (scoreboard_matchup bi team_key_to_roster_id matchup_data
              (ms, mid) i) as [[ms' mid']|] eqn:Hstep; [|reflexivity].
  apply scoreboard_matchup_step in Hstep
    as [[-> ->]|(x & y & Hp & _)].
  - apply IH. intros j matchup_id x y Hj. apply Hno. by right.
  - exfalso. apply (Hno i mid x y); [by left | exact Hp].
Qed.

Lemma parse_scoreboard_no_pair (data : json)
  (team_key_to_roster_id : keydict) (matchup_data : json)
  (idxs : list nat) :
  locate_matchups data = Some (Some matchup_data) →
  py_get matchup_data "count" (JInt 0) ≫= py_range = Some idxs →
  (∀ (i : nat) (matchup_id : Z) (x y : Matchup.t),
     i ∈ idxs →
     matchup_participants bi team_key_to_roster_id matchup_data matchup_id i
     ≠ Some (Some [x; y])) →
  _parse_scoreboard bi data team_key_to_roster_id = [].
Proof.
  intros Hloc Hcount Hno. unfold _parse_scoreboard. rewrite Hloc, Hcount.
  by rewrite scoreboard_loop_no_pair.
Qed.

(** Whatever the scoreboard requests do, a season is assembled as soon as
    one is with the same settings and standings responses, with as many
    weeks. *)
Lemma extract_season_data_other_scoreboards (a a' : api) (lg : league_ref)
  (sd : season_data) :
  extract_season_data bi a lg = Some sd →
  same_standings a a' →
  ∃ sd' : season_data,
    extract_season_data bi a' lg = Some sd'
    ∧ length (matchups sd') = length (matchups sd).
Proof.
  intros Hsd [Hsettings Hstandings]. revert Hsd.
  unfold extract_season_data, assemble_season.
  rewrite <- (Hsettings (lg_league_key lg)),
    <- (Hstandings (lg_league_key lg)).
  destruct (get_league_settings a (lg_league_key lg)) as [settings_data|];
    [|discriminate]. cbn [mbind option_bind].
  destruct (effective_settings bi (_parse_league_settings bi settings_data))
    as [[[nt ps] ew]|]; [|discriminate]. cbn [mbind option_bind].
  destruct (get_league_standings a (lg_league_key lg)) as [standings_data|];
    [|discriminate]. cbn [mbind option_bind].
  destruct (_parse_standings bi standings_data) as [parsed|];
    [|discriminate]. cbn [mbind option_bind].
  destruct (py_sorted (rank_key bi) (teams parsed)) as [teams_sorted|];
    [|discriminate]. cbn [mbind option_bind].
  destruct (for_each (add_team bi (lg_league_key lg)) (enumerate teams_sorted)
              ([], [], ∅)) as [[[us rs] m]|]; [|discriminate].
  cbn [mbind option_bind].
  destruct (for_each add_team_key (enumerate teams_sorted) []) as [tk|];
    [|discriminate]. cbn [mbind option_bind].
  intros [= <-]. eexists. split; [reflexivity|]. cbn [matchups].
  by rewrite !length_map.
Qed.

(** C5 (amended). In an assembled season the matchups field has one
    element per week 1, 2, ..., [playoff_start_week - 1], in order (for
    [playoff_start_week] at least 1). A week whose fetch raises is the
    empty list; a fetched week is what [_parse_scoreboard] returns, which
    is the empty list when the parse raises before the loop over the
    matchups (while the matchup collection is located, or at its count),
    when it returns early, and when no matchup of the collection has
    exactly two participants, and which is the list of the matchups
    emitted before the failure when the parse raises inside the loop. No
    week is absent, and no week aborts the season: whatever the
    scoreboard requests answer, the season is assembled with the same
    number of weeks. *)
Theorem extract_season_data_weeks (a : api) (lg : league_ref)
  (sd : season_data) :
  extract_season_data bi a lg = Some sd →
  let playoff_start := playoff_week_start (league sd) in
  let league_key := lg_league_key lg in
  length (matchups sd) = Z.to_nat (playoff_start - 1)
  ∧ (1 <= playoff_start →
     Z.of_nat (length (matchups sd)) = playoff_start - 1)
  ∧ (∃ team_key_to_roster_id : keydict,
       ∀ i : nat,
         (i < Z.to_nat (playoff_start - 1))%nat →
         let week := Z.of_nat i + 1 in
         ∃ week_list : list Matchup.t,
           matchups sd !! i = Some week_list
           ∧ (get_league_scoreboard a league_key week = None →
              week_list = [])
           ∧ (∀ scoreboard : json,
                get_league_scoreboard a league_key week = Some scoreboard →
                week_list
                = _parse_scoreboard bi scoreboard team_key_to_roster_id)
           ∧ (∀ scoreboard : json,
                get_league_scoreboard a league_key week = Some scoreboard →
                locate_matchups scoreboard = None →
                week_list = [])
           ∧ (∀ scoreboard : json,
                get_league_scoreboard a league_key week = Some scoreboard →
                locate_matchups scoreboard = Some None →
                week_list = [])
           ∧ (∀ scoreboard matchup_data : json,
                get_league_scoreboard a league_key week = Some scoreboard →
                locate_matchups scoreboard = Some (Some matchup_data) →
                py_get matchup_data "count" (JInt 0) ≫= py_range = None →
                week_list = [])
           ∧ (∀ (scoreboard matchup_data : json) (idxs : list nat),
                get_league_scoreboard a league_key week = Some scoreboard →
                locate_matchups scoreboard = Some (Some matchup_data) →
                py_get matchup_data "count" (JInt 0) ≫= py_range
                = Some idxs →
                (∀ (j : nat) (matchup_id : Z) (x y : Matchup.t),
                   j ∈ idxs →
                   matchup_participants bi team_key_to_roster_id
                     matchup_data matchup_id j
                   ≠ Some (Some [x; y])) →
                week_list = []))
  ∧ (∀ (data : json) (team_key_to_roster_id : keydict) (matchup_data : json)
       (before after : list nat) (i : nat) (emitted : list Matchup.t)
       (matchup_id : Z),
       locate_matchups data = Some (Some matchup_data) →
       py_get matchup_data "count" (JInt 0) ≫= py_range
       = Some (before ++ i :: after) →
       for_each (scoreboard_matchup bi team_key_to_roster_id matchup_data)
         before ([], 1) = Some (emitted, matchup_id) →
       scoreboard_matchup bi team_key_to_roster_id matchup_data
         (emitted, matchup_id) i = None →
       _parse_scoreboard bi data team_key_to_roster_id = emitted)
  ∧ (∀ a' : api,
       same_standings a a' →
       ∃ sd' : season_data,
         extract_season_data bi a' lg = Some sd'
         ∧ length (matchups sd') = length (matchups sd)).
Proof.
  intros Hextract. pose proof Hextract as Hsd.
  apply extract_season_data_inv in Hsd
    as (settings_data & nt & ps & ew & _ & _ & Hsd).
  apply assemble_season_inv in Hsd
    as (standings_data & parsed & teams_sorted & tk & _ & _ & _ & _ & _ & _
        & Hweeks & Hps & _).
  intros playoff_start league_key. subst playoff_start. rewrite Hps.
  assert (length (matchups sd) = Z.to_nat (ps - 1)) as Hlen.
  { rewrite Hweeks, length_map, range_Z_length. f_equal. lia. }
  split; [exact Hlen|]. split; [lia|]. split.
  - exists tk. intros i Hi week.
    exists (week_matchups bi a league_key tk week). split.
    + rewrite Hweeks. change (map ?f ?l) with (f <$> l).
      rewrite list_lookup_fmap, range_Z_lookup by lia.
      simpl. do 2 f_equal. unfold week. lia.
    + unfold week_matchups. split; [by intros ->|].
      split; [by intros scoreboard ->|].
      split; [intros scoreboard -> Hloc;
              by apply parse_scoreboard_raise_before_loop|].
      split; [intros scoreboard -> Hloc;
              by apply parse_scoreboard_early_return|].
      split.
      * intros scoreboard matchup_data -> Hloc Hcount.
        by eapply parse_scoreboard_raise_at_count.
      * intros scoreboard matchup_data idxs -> Hloc Hcount Hno.
        by eapply parse_scoreboard_no_pair.
  - split; [apply parse_scoreboard_raise_in_loop|].
    intros a' Hsame.
    by apply (extract_season_data_other_scoreboards a a' lg sd).
Qed.

(** C6 (amended). When the settings response mentions none of
    [num_teams], [playoff_start_week] and [end_week], or when its parsing
    raises, the settings [extract_season_data] works with are
    [num_teams = 10], [playoff_start_week = 14] and [end_week = 16]; the
    season is then assembled from the standings with these values, and an
    assembled season has 13 regular-season weeks. A settings request that
    raises, and a parsed setting that does not convert to an integer, give
    no season. *)
Theorem league_settings_defaults :
  (∀ data : json,
     mentions "num_teams" data = false →
     mentions "playoff_start_week" data = false →
     mentions "end_week" data = false →
     effective_settings bi (_parse_league_settings bi data)
     = Some (10, 14, 16))
  ∧ (∀ data : json,
       parse_league_settings_try bi data = None →
       _parse_league_settings bi data = default_settings
       ∧ effective_settings bi (_parse_league_settings bi data)
         = Some (10, 14, 16))
  ∧ (∀ (a : api) (lg : league_ref) (data : json),
       get_league_settings a (lg_league_key lg) = Some data →
       effective_settings bi (_parse_league_settings bi data)
       = Some (10, 14, 16) →
       extract_season_data bi a lg = assemble_season bi a lg 10 14 16)
  ∧ (∀ (a : api) (lg : league_ref) (sd : season_data),
       assemble_season bi a lg 10 14 16 = Some sd →
       playoff_week_start (league sd) = 14
       ∧ playoff_week_start (league sd) - 1 = 13
       ∧ length (matchups sd) = 13%nat)
  ∧ (∀ (a : api) (lg : league_ref) (data : json),
       get_league_settings a (lg_league_key lg) = Some data →
       (mentions "num_teams" data = false
        ∧ mentions "playoff_start_week" data = false
        ∧ mentions "end_week" data = false)
       ∨ parse_league_settings_try bi data = None →
       extract_season_data bi a lg = assemble_season bi a lg 10 14 16)
  ∧ (∀ (a : api) (lg : league_ref),
       get_league_settings a (lg_league_key lg) = None →
       extract_season_data bi a lg = None)
  ∧ (∀ (a : api) (lg : league_ref) (data : json),
       get_league_settings a (lg_league_key lg) = Some data →
       effective_settings bi (_parse_league_settings bi data) = None →
       extract_season_data bi a lg = None)
  ∧ (∀ (settings : pydict) (key : string) (v : json),
       key ∈ ["num_teams"; "playoff_start_week"; "end_week"] →
       dict_get key settings = Some v →
       py_int bi v = None →
       effective_settings bi settings = None).
Proof.
  assert (∀ data : json,
            mentions "num_teams" data = false →
            mentions "playoff_start_week" data = false →
            mentions "end_week" data = false →
            effective_settings bi (_parse_league_settings bi data)
            = Some (10, 14, 16)) as Hkeys.
  { intros data H1 H2 H3. unfold _parse_league_settings.
    destruct (parse_league_settings_try bi data) as [settings|] eqn:Hp;
      [|reflexivity].
    apply effective_settings_defaults;
      by eapply parse_league_settings_absent. }
  assert (∀ data : json,
            parse_league_settings_try bi data = None →
            _parse_league_settings bi data = default_settings
            ∧ effective_settings bi (_parse_league_settings bi data)
              = Some (10, 14, 16)) as Hraise.
  { intros data Hp. unfold _parse_league_settings. by rewrite Hp. }
  assert (∀ (a : api) (lg : league_ref) (data : json),
            get_league_settings a (lg_league_key lg) = Some data →
            effective_settings bi (_parse_league_settings bi data)
            = Some (10, 14, 16) →
            extract_season_data bi a lg = assemble_season bi a lg 10 14 16)
    as Hextract.
  { intros a lg data Hget Heff. unfold extract_season_data.
    rewrite Hget. cbn [mbind option_bind]. by rewrite Heff. }
  split; [exact Hkeys|]. split; [exact Hraise|]. split; [exact Hextract|].
  split.
  { intros a lg sd Hsd.
    apply assemble_season_inv in Hsd
      as (standings_data & parsed & teams_sorted & tk & _ & _ & _ & _ & _ & _
          & Hweeks & Hps & _).
    rewrite Hps. split; [done|]. split; [done|].
    by rewrite Hweeks, length_map, range_Z_length. }
  split.
  { intros a lg data Hget [(H1 & H2 & H3)|Hp];
      apply (Hextract a lg data Hget);
      [by apply Hkeys | by apply Hraise]. }
  split.
  { intros a lg Hget. unfold extract_season_data. by rewrite Hget. }
  split.
  { intros a lg data Hget Heff. unfold extract_season_data.
    rewrite Hget. cbn [mbind option_bind]. by rewrite Heff. }
  intros settings key v Hkey Hv Hint. unfold effective_settings, dict_get_or.
  apply elem_of_cons in Hkey as [->|Hkey].
  { rewrite Hv. simpl. by rewrite Hint. }
  destruct (py_int bi (default (JInt 10) (dict_get "num_teams" settings)));
    [|reflexivity]. cbn [mbind option_bind].
  apply elem_of_cons in Hkey as [->|Hkey].
  { rewrite Hv. simpl. by rewrite Hint. }
  destruct (py_int bi
              (default (JInt 14) (dict_get "playoff_start_week" settings)));
    [|reflexivity]. cbn [mbind option_bind].
  apply list_elem_of_singleton in Hkey as ->.
  rewrite Hv. simpl. by rewrite Hint.
Qed.

End WeekClaims.

(** ** Decimal strings *)

Section DecimalStrings.

Lemma to_uint_not_nil (n : nat) : Nat.to_uint n ≠ Decimal.Nil.
Proof.
  rewrite <- (DecimalNat.Unsigned.of_to n) at 1.
  rewrite DecimalNat.Unsigned.to_of. apply DecimalFacts.unorm_nonnil.
Qed.

Lemma str_of_nat_inj (i j : nat) : str_of_nat i = str_of_nat j → i = j.
Proof.
  unfold str_of_nat. intros Heq.
  apply DecimalNat.Unsigned.to_uint_inj.
  pose proof (NilZero.usu _ (to_uint_not_nil i)) as Hi.
  pose proof (NilZero.usu _ (to_uint_not_nil j)) as Hj.
  rewrite Heq in Hi. congruence.
Qed.

Lemma to_int_not_nil (z : Z) :
  Z.to_int z ≠ Decimal.Pos Decimal.Nil ∧ Z.to_int z ≠ Decimal.Neg Decimal.Nil.
Proof.
  destruct z as [|p|p]; simpl; split; try discriminate;
    intros [= H]; by apply DecimalPos.Unsigned.to_uint_nonnil in H.
Qed.

Lemma str_of_Z_inj (x y : Z) : str_of_Z x = str_of_Z y → x = y.
Proof.
  unfold str_of_Z. intros Heq. apply DecimalZ.to_int_inj.
  destruct (to_int_not_nil x) as [Hx1 Hx2].
  destruct (to_int_not_nil y) as [Hy1 Hy2].
  pose proof (NilZero.isi _ Hx1 Hx2) as Hx.
  pose proof (NilZero.isi _ Hy1 Hy2) as Hy.
  rewrite Heq in Hx. congruence.
Qed.

End DecimalStrings.

(** ** The assembled record *)

Section Record.
Context (bi : builtins).

(** The first loop over [teams_sorted] fills [roster_to_owner] with the
    keys it numbers and leaves the other keys alone. *)
Lemma add_team_loop_owner (league_key : string) (l : list pydict) (s : nat)
  (users0 users1 : list User.t) (rosters0 rosters1 : list Roster.t)
  (m0 m1 : gmap Z json) :
  for_each (add_team bi league_key) (zip (seq s (length l)) l)
    (users0, rosters0, m0) = Some (users1, rosters1, m1) →
  (∀ k : Z, k <= Z.of_nat s ∨ Z.of_nat (s + length l) < k →
            m1 !! k = m0 !! k)
  ∧ (∀ (i : nat) (team : pydict),
       l !! i = Some team →
       m1 !! (Z.of_nat (s + i) + 1) = Some (manager_id_of bi (s + i) team)).
Proof.
  revert s users0 rosters0 m0.
  induction l as [|t l IH]; intros s users0 rosters0 m0; simpl.
  - intros [= <- <- <-]. split; [done|]. intros i team. by rewrite lookup_nil.
  - destruct (roster_of bi league_key s t) as [ro|]; [|discriminate].
    cbn [mbind option_bind]. intros Hloop.
    apply IH in Hloop as [Hout Hin]. split.
    + intros k Hk. rewrite Hout by lia. apply lookup_insert_ne. lia.
    + intros [|i] team; simpl.
      * intros [= <-]. rewrite Hout by lia.
        replace (s + 0)%nat with s by lia. apply lookup_insert_eq.
      * intros Hteam. specialize (Hin i team Hteam).
        by replace (s + S i)%nat with (S s + i)%nat by lia.
Qed.

Lemma assemble_season_record (a : api) (lg : league_ref)
  (num_teams playoff_start end_week : Z) (sd : season_data) :
  assemble_season bi a lg num_teams playoff_start end_week = Some sd →
  ∃ (standings_data : json) (parsed : standings) (teams_sorted : list pydict)
    (us : list User.t) (rs : list Roster.t) (roster_to_owner : gmap Z json)
    (team_key_to_roster_id : keydict),
    get_league_standings a (lg_league_key lg) = Some standings_data
    ∧ _parse_standings bi standings_data = Some parsed
    ∧ py_sorted (rank_key bi) (teams parsed) = Some teams_sorted
    ∧ for_each (add_team bi (lg_league_key lg)) (enumerate teams_sorted)
        ([], [], ∅) = Some (us, rs, roster_to_owner)
    ∧ for_each add_team_key (enumerate teams_sorted) []
      = Some team_key_to_roster_id
    ∧ sd = {| league :=
                {| lo_league_id := lg_league_key lg;
                   lo_name := lg_name lg;
                   lo_season := lg_season lg;
                   total_rosters := length (teams parsed);
                   playoff_week_start := playoff_start |};
              users := us;
              rosters := rs;
              matchups :=
                map (week_matchups bi a (lg_league_key lg)
                       team_key_to_roster_id)
                  (range_Z 1 (playoff_start - 1 + 1));
              winnersBracket := _build_bracket_from_rankings roster_to_owner;
              rosterToOwner := stringify_keys roster_to_owner |}.
Proof.
  unfold assemble_season. intros Hsd.
  destruct (get_league_standings a (lg_league_key lg)) as [standings_data|];
    [|discriminate]. cbn [mbind option_bind] in Hsd.
  destruct (_parse_standings bi standings_data) as [parsed|] eqn:Hparsed;
    [|discriminate]. cbn [mbind option_bind] in Hsd.
  destruct (py_sorted (rank_key bi) (teams parsed)) as [teams_sorted|]
    eqn:Hsorted; [|discriminate]. cbn [mbind option_bind] in Hsd.
  destruct (for_each (add_team bi (lg_league_key lg)) (enumerate teams_sorted)
              ([], [], ∅)) as [[[us rs] m]|] eqn:Hloop; [|discriminate].
  cbn [mbind option_bind] in Hsd.
  destruct (for_each add_team_key (enumerate teams_sorted) []) as [tk|]
    eqn:Htk; [|discriminate]. cbn [mbind option_bind] in Hsd.
  injection Hsd as <-.
  by exists standings_data, parsed, teams_sorted, us, rs, m, tk.
Qed.

(** The keys of [roster_to_owner] are the roster ids 1, ..., N. *)
Lemma roster_to_owner_keys (league_key : string) (teams_sorted : list pydict)
  (us : list User.t) (rs : list Roster.t) (roster_to_owner : gmap Z json) :
  for_each (add_team bi league_key) (enumerate teams_sorted) ([], [], ∅)
  = Some (us, rs, roster_to_owner) →
  length rs = length teams_sorted
  ∧ (∀ k : Z, is_Some (roster_to_owner !! k)
              ↔ 1 <= k <= Z.of_nat (length teams_sorted))
  ∧ (∀ (i : nat) (ro : Roster.t),
       rs !! i = Some ro →
       Roster.roster_id ro = Z.of_nat i + 1
       ∧ roster_to_owner !! (Z.of_nat i + 1) = Some (Roster.owner_id ro)).
Proof.
  intros Hloop.
  destruct (add_team_loop bi _ _ _ _ _ _ _ _ Hloop) as (_ & rs' & Hrs & Hall).
  simpl in Hrs. subst rs'.
  apply (add_team_loop_owner league_key teams_sorted 0) in Hloop
    as [Hout Hin].
  assert (length rs = length teams_sorted) as Hlen.
  { rewrite <- (enumerate_length teams_sorted). symmetry.
    by eapply Forall2_length. }
  split; [exact Hlen|]. split.
  - intros k. split.
    + intros Hk.
      destruct (decide (1 <= k <= Z.of_nat (length teams_sorted)))
        as [|Hno]; [done|].
      rewrite Hout, lookup_empty in Hk by lia. by destruct Hk.
    + intros Hk.
      destruct (lookup_lt_is_Some_2 teams_sorted (Z.to_nat (k - 1)))
        as [team Hteam]; [lia|].
      specialize (Hin _ _ Hteam).
      replace (Z.of_nat (0 + Z.to_nat (k - 1)) + 1) with k in Hin by lia.
      by rewrite Hin.
  - intros i ro Hro.
    destruct (Forall2_lookup_r _ _ _ _ _ Hall Hro) as ([j team] & Hit & Hof).
    assert (teams_sorted !! i = Some team ∧ j = i) as [Hteam ->].
    { unfold enumerate in Hit. apply lookup_zip_with_Some in Hit
        as (j' & t' & [= -> ->] & Hj & Ht).
      apply lookup_seq in Hj as [-> _]. done. }
    simpl in Hof. apply roster_of_fields in Hof as (Hid & Hown & _).
    split; [exact Hid|]. rewrite Hown. exact (Hin _ _ Hteam).
Qed.

End Record.

Section RecordProperties.
Context (bi : builtins).

Lemma stringify_keys_nodup (m : gmap Z json) :
  NoDup (map (fun kv : Z * json => (str_of_Z (fst kv), snd kv))
           (map_to_list m)).*1.
Proof.
  change (map ?f ?l) with (f <$> l). rewrite <- list_fmap_compose.
  assert ((fst ∘ (λ kv : Z * json, (str_of_Z kv.1, kv.2)))
          = (str_of_Z ∘ fst)) as -> by done.
  rewrite list_fmap_compose. apply NoDup_fmap_2.
  - intros x y. apply str_of_Z_inj.
  - apply NoDup_fst_map_to_list.
Qed.

Lemma stringify_keys_lookup (m : gmap Z json) (k : Z) :
  stringify_keys m !! str_of_Z k = m !! k.
Proof.
  apply option_eq. intros v. unfold stringify_keys.
  rewrite <- elem_of_list_to_map by apply stringify_keys_nodup.
  rewrite <- elem_of_map_to_list, list_elem_of_fmap. split.
  - intros ([k' v'] & [= Hk ->] & Hin). simpl in *.
    by apply str_of_Z_inj in Hk as ->.
  - intros Hin. by exists (k, v).
Qed.

Lemma stringify_keys_is_Some (m : gmap Z json) (key : string) :
  is_Some (stringify_keys m !! key) →
  ∃ k : Z, key = str_of_Z k ∧ is_Some (m !! k).
Proof.
  intros [v Hv]. unfold stringify_keys in Hv.
  apply elem_of_list_to_map in Hv; [|apply stringify_keys_nodup].
  apply list_elem_of_fmap in Hv as ([k' v'] & [= -> ->] & Hin).
  exists k'. split; [done|]. apply elem_of_map_to_list in Hin. by eexists.
Qed.

Lemma bracket_of_roster_count (m : gmap Z json) (n : nat) :
  (∀ k : Z, is_Some (m !! k) ↔ 1 <= k <= Z.of_nat n) →
  _build_bracket_from_rankings m = bracket_of_count n.
Proof.
  intros Hkeys. unfold _build_bracket_from_rankings, bracket_of_count.
  assert (∀ k : Z, bool_decide (is_Some (m !! k))
                   = bool_decide (1 <= k <= Z.of_nat n)) as Hdec
    by (intros k; apply bool_decide_ext, Hkeys).
  rewrite !Hdec.
  destruct (Nat.leb_spec 2 n), (Nat.leb_spec 4 n);
    repeat case_bool_decide; simpl; try reflexivity; lia.
Qed.

(** X1. The winners bracket of an assembled season depends on the number N
    of its rosters only: it holds the championship placement of roster 1
    over roster 2 exactly when N is at least 2, followed by the third-place
    placement of roster 3 over roster 4 exactly when N is at least 4. *)
Theorem extract_season_data_bracket (a : api) (lg : league_ref)
  (sd : season_data) :
  extract_season_data bi a lg = Some sd →
  winnersBracket sd = bracket_of_count (length (rosters sd))
  ∧ (championship_placement ∈ winnersBracket sd
     ↔ (2 <= length (rosters sd))%nat)
  ∧ (third_place_placement ∈ winnersBracket sd
     ↔ (4 <= length (rosters sd))%nat).
Proof.
  intros (settings_data & nt & ps & ew & _ & _ & Hsd)%extract_season_data_inv.
  apply assemble_season_record in Hsd
    as (standings_data & parsed & teams_sorted & us & rs & m & tk & _ & _ & _
        & Hloop & _ & ->).
  cbn [winnersBracket rosters].
  destruct (roster_to_owner_keys bi _ _ _ _ _ Hloop) as (Hlen & Hkeys & _).
  rewrite Hlen. rewrite (bracket_of_roster_count m _ Hkeys).
  split; [done|]. unfold bracket_of_count.
  split; destruct (Nat.leb_spec 2 (length teams_sorted)),
               (Nat.leb_spec 4 (length teams_sorted));
    rewrite elem_of_app, ?list_elem_of_singleton, ?elem_of_nil;
    split; intros; try lia; try tauto; try (by left); try (by right);
    destruct_or?; try done; try lia; discriminate.
Qed.

(** X2. In an assembled season [rosterToOwner] has exactly the keys
    [str(roster_id)] of the rosters, and maps each of them to the
    [owner_id] of that roster. *)
Theorem extract_season_data_roster_to_owner (a : api) (lg : league_ref)
  (sd : season_data) :
  extract_season_data bi a lg = Some sd →
  (∀ ro : Roster.t,
     ro ∈ rosters sd →
     rosterToOwner sd !! str_of_Z (Roster.roster_id ro)
     = Some (Roster.owner_id ro))
  ∧ (∀ key : string,
       is_Some (rosterToOwner sd !! key) →
       ∃ ro : Roster.t,
         ro ∈ rosters sd ∧ key = str_of_Z (Roster.roster_id ro)).
Proof.
  intros (settings_data & nt & ps & ew & _ & _ & Hsd)%extract_season_data_inv.
  apply assemble_season_record in Hsd
    as (standings_data & parsed & teams_sorted & us & rs & m & tk & _ & _ & _
        & Hloop & _ & ->).
  cbn [rosterToOwner rosters].
  destruct (roster_to_owner_keys bi _ _ _ _ _ Hloop) as (Hlen & Hkeys & Hro).
  split.
  - intros ro (i & Hi)%list_elem_of_lookup.
    destruct (Hro i ro Hi) as [-> Hown].
    by rewrite stringify_keys_lookup.
  - intros key (k & -> & Hk)%stringify_keys_is_Some.
    apply Hkeys in Hk.
    destruct (lookup_lt_is_Some_2 rs (Z.to_nat (k - 1))) as [ro Hi]; [lia|].
    exists ro. split; [by eapply list_elem_of_lookup_2|].
    destruct (Hro _ ro Hi) as [-> _]. f_equal. lia.
Qed.

(** X3. The scoreboard responses decide nothing but the content of the
    weeks: two services that answer the settings and standings requests
    alike both produce a season or both produce none, and the two seasons
    have the same league data, users, rosters, winners bracket and
    roster-to-owner map, and the same number of weeks. *)
Theorem extract_season_data_scoreboard_independent (a1 a2 : api)
  (lg : league_ref) :
  same_standings a1 a2 →
  (extract_season_data bi a1 lg = None
   ↔ extract_season_data bi a2 lg = None)
  ∧ (∀ sd1 sd2 : season_data,
       extract_season_data bi a1 lg = Some sd1 →
       extract_season_data bi a2 lg = Some sd2 →
       league sd1 = league sd2
       ∧ users sd1 = users sd2
       ∧ rosters sd1 = rosters sd2
       ∧ winnersBracket sd1 = winnersBracket sd2
       ∧ rosterToOwner sd1 = rosterToOwner sd2
       ∧ length (matchups sd1) = length (matchups sd2)).
Proof.
  intros [Hsettings Hstandings].
  unfold extract_season_data, assemble_season.
  rewrite <- (Hsettings (lg_league_key lg)), <- (Hstandings (lg_league_key lg)).
  destruct (get_league_settings a1 (lg_league_key lg)) as [settings_data|];
    [|by split]. cbn [mbind option_bind].
  destruct (effective_settings bi (_parse_league_settings bi settings_data))
    as [[[nt ps] ew]|]; [|by split]. cbn [mbind option_bind].
  destruct (get_league_standings a1 (lg_league_key lg)) as [standings_data|];
    [|by split]. cbn [mbind option_bind].
  destruct (_parse_standings bi standings_data) as [parsed|]; [|by split].
  cbn [mbind option_bind].
  destruct (py_sorted (rank_key bi) (teams parsed)) as [teams_sorted|];
    [|by split]. cbn [mbind option_bind].
  destruct (for_each (add_team bi (lg_league_key lg)) (enumerate teams_sorted)
              ([], [], ∅)) as [[[us rs] m]|]; [|by split].
  cbn [mbind option_bind].
  destruct (for_each add_team_key (enumerate teams_sorted) []) as [tk|];
    [|by split]. cbn [mbind option_bind].
  split; [by split|]. intros sd1 sd2 [= <-] [= <-]. cbn.
  by rewrite !length_map.
Qed.

End RecordProperties.

(** ** The team record *)

Section TeamRecord.
Context (bi : builtins).
Implicit Types team sub item : pydict.

Lemma dict_set_keys (k : string) (v : json) (d : pydict) :
  map fst (dict_set k v d)
  = if bool_decide (k ∈ map fst d) then map fst d else map fst d ++ [k].
Proof.
  induction d as [|[k' v'] d IH]; simpl; [done|].
  destruct (String.eqb_spec k k') as [->|Hne]; simpl.
  - rewrite bool_decide_eq_true_2; [done | by left].
  - rewrite IH. repeat case_bool_decide; try done.
    + exfalso. rename select (k ∉ k' :: _) into Hn. apply Hn. by right.
    + exfalso. rename select (k ∈ k' :: _) into Hin.
      apply elem_of_cons in Hin as [->|]; done.
Qed.

Lemma dict_set_ok (k : string) (v : json) team :
  field_ok (k, v) = true → team_record_ok team →
  team_record_ok (dict_set k v team).
Proof.
  intros Hkv [Hall Hnd]. split.
  - clear Hnd. induction Hall as [|[k' v'] d Hx Hd IH]; simpl.
    + by repeat constructor.
    + destruct (String.eqb k k'); constructor; done.
  - rewrite dict_set_keys. case_bool_decide; [done|].
    apply NoDup_app. split; [done|]. split; [|apply NoDup_singleton].
    intros x Hx ->%list_elem_of_singleton. done.
Qed.

Lemma team_meta_field_ok sub team team' (key : string) :
  key ∈ team_meta_keys → team_record_ok team →
  team_meta_field sub team key = Some team' → team_record_ok team'.
Proof.
  intros Hkey Hok. unfold team_meta_field.
  destruct (dict_get key sub) as [v|]; [|by intros [= <-]].
  unfold team_meta_keys in Hkey.
  repeat (apply elem_of_cons in Hkey as [->|Hkey]);
    [..|by apply elem_of_nil in Hkey]; cbn [String.eqb Ascii.eqb Bool.eqb];
    try (intros [= <-]; by apply dict_set_ok).
  destruct v as [| | | | |[|[| | | | | |logo] ?]|]; try (by intros [= <-]).
  destruct (dict_get "team_logo" logo) as [tl|]; [|by intros [= <-]].
  destruct (py_get tl "url" JNull) as [u|]; [|discriminate].
  cbn [mbind option_bind]. intros [= <-]. by apply dict_set_ok.
Qed.

Lemma team_manager_ok sub team team' :
  team_record_ok team → team_manager sub team = Some team' →
  team_record_ok team'.
Proof.
  intros Hok. unfold team_manager.
  destruct (dict_get "managers" sub) as [v|]; [|by intros [= <-]].
  destruct v as [| | | | |[|[| | | | | |mgr] ?]|]; try (by intros [= <-]).
  destruct (dict_get "manager" mgr) as [mgr_data|]; [|by intros [= <-]].
  destruct (py_get mgr_data "nickname" (JStr "Unknown")) as [nickname|];
    [|discriminate]. cbn [mbind option_bind].
  destruct (py_get mgr_data "guid" (JStr "")) as [guid|]; [|discriminate].
  cbn [mbind option_bind]. intros [= <-].
  apply dict_set_ok; [done|]. by apply dict_set_ok.
Qed.

Lemma team_sub_ok team team' (sub : json) :
  team_record_ok team → team_sub team sub = Some team' →
  team_record_ok team'.
Proof.
  intros Hok. unfold team_sub.
  destruct sub as [| | | | | |sd]; try (by intros [= <-]).
  destruct (for_each (team_meta_field sd) team_meta_keys team) as [t1|]
    eqn:Hloop; [|discriminate]. cbn [mbind option_bind].
  apply team_manager_ok.
  refine (for_each_invariant_in team_record_ok _ _ _ _ _ Hok Hloop).
  intros s x s' Hx Hs. by apply team_meta_field_ok.
Qed.

Lemma team_standings_ok item team team' :
  team_record_ok team → team_standings bi item team = Some team' →
  team_record_ok team'.
Proof.
  intros Hok. unfold team_standings.
  destruct (dict_get "team_standings" item) as [st|]; [|by intros [= <-]].
  destruct (py_get st "rank" JNull) as [rank|]; [|discriminate].
  cbn [mbind option_bind].
  destruct (py_get st "outcome_totals" (JDict [])) as [outcome|];
    [|discriminate]. cbn [mbind option_bind].
  destruct (py_get outcome "wins" (JInt 0) ≫= py_int bi) as [wins|];
    [|discriminate]. cbn [mbind option_bind].
  destruct (py_get outcome "losses" (JInt 0) ≫= py_int bi) as [losses|];
    [|discriminate]. cbn [mbind option_bind].
  destruct (py_get outcome "ties" (JInt 0) ≫= py_int bi) as [ties|];
    [|discriminate]. cbn [mbind option_bind].
  destruct (py_get st "points_for" (JInt 0) ≫= py_float bi) as [pf|];
    [|discriminate]. cbn [mbind option_bind].
  destruct (py_get st "points_against" (JInt 0) ≫= py_float bi) as [pa|];
    [|discriminate]. cbn [mbind option_bind].
  intros [= <-]. by repeat (apply dict_set_ok; [done|]).
Qed.

Lemma team_points_ok item team team' :
  team_record_ok team → team_points bi item team = Some team' →
  team_record_ok team'.
Proof.
  intros Hok. unfold team_points.
  destruct (dict_get "team_points" item) as [tp|]; [|by intros [= <-]].
  destruct (py_get tp "total" (JInt 0) ≫= py_float bi) as [total|];
    [|discriminate]. cbn [mbind option_bind].
  intros [= <-]. by apply dict_set_ok.
Qed.

Lemma team_item_ok team team' (item : json) :
  team_record_ok team → team_item bi team item = Some team' →
  team_record_ok team'.
Proof.
  intros Hok. unfold team_item.
  destruct item as [| | | | |subs|it]; try (by intros [= <-]).
  - apply for_each_invariant; [|done]. intros s x s'. apply team_sub_ok.
  - destruct (team_standings bi it team) as [t1|] eqn:H1; [|discriminate].
    cbn [mbind option_bind]. apply team_points_ok.
    by eapply team_standings_ok.
Qed.

Lemma parse_team_entry_ok (team_entry : json) team :
  _parse_team_entry bi team_entry = Some team → team_record_ok team.
Proof.
  unfold _parse_team_entry, parse_team_entry_try. intros Hteam.
  destruct (py_iter team_entry) as [items|]; [|discriminate].
  cbn [mbind option_bind] in Hteam.
  destruct (for_each (team_item bi) items []) as [t|] eqn:Hloop;
    [|discriminate].
  destruct (truthy (dict_get_or "team_key" JNull t)); [|discriminate].
  injection Hteam as <-.
  refine (for_each_invariant team_record_ok _ _ _ _ _ _ Hloop).
  - intros s x s'. apply team_item_ok.
  - split; constructor.
Qed.

Lemma dict_get_elem (k : string) (v : json) (d : pydict) :
  dict_get k d = Some v → (k, v) ∈ d.
Proof.
  induction d as [|[k' v'] d IH]; [done|]. simpl.
  destruct (String.eqb_spec k k') as [->|]; [intros [= ->]; by left|].
  right. by apply IH.
Qed.

Lemma existsb_eqb_elem (k : string) (l : list string) :
  existsb (String.eqb k) l = true ↔ k ∈ l.
Proof.
  rewrite existsb_exists. split.
  - intros (x & Hx & ->%String.eqb_eq). by apply list_elem_of_In.
  - intros Hx. exists k. split; [by apply list_elem_of_In|].
    apply String.eqb_refl.
Qed.

Lemma team_record_field team (k : string) (v : json) :
  team_record_ok team → dict_get k team = Some v →
  k ∈ team_fields
  ∧ (k ∈ int_fields → ∃ z : Z, v = JInt z)
  ∧ (k ∈ float_fields → ∃ q : Q, v = JFloat q).
Proof.
  intros [Hall _] Hin%dict_get_elem.
  rewrite Forall_forall in Hall. specialize (Hall _ Hin).
  unfold field_ok in Hall. cbn [fst snd] in Hall.
  apply andb_prop in Hall as [[Hk Hint]%andb_prop Hfloat].
  split; [by apply existsb_eqb_elem|]. split.
  - intros Hi%existsb_eqb_elem. rewrite Hi in Hint.
    destruct v; try discriminate. eauto.
  - intros Hf%existsb_eqb_elem. rewrite Hf in Hfloat.
    destruct v; try discriminate. eauto.
Qed.

(** X4. Every team record [_parse_team_entry] returns has a non-empty
    [team_key], holds none but the fifteen known keys (never ["name"] or
    ["team_logos"]), each at most once, its wins, losses and ties are
    integers and its points are floats. *)
Theorem parse_team_entry_record (team_entry : json) (team : pydict) :
  _parse_team_entry bi team_entry = Some team →
  truthy (dict_get_or "team_key" JNull team) = true
  ∧ NoDup (map fst team)
  ∧ (∀ (k : string) (v : json),
       dict_get k team = Some v →
       k ∈ team_fields
       ∧ (k ∈ int_fields → ∃ z : Z, v = JInt z)
       ∧ (k ∈ float_fields → ∃ q : Q, v = JFloat q)).
Proof.
  intros Hteam. split; [by eapply parse_team_entry_has_key|].
  apply parse_team_entry_ok in Hteam as Hok.
  split; [by destruct Hok|]. intros k v. by apply team_record_field.
Qed.

End TeamRecord.

(** ** When a season is produced *)

Section Produced.
Context (bi : builtins).

Lemma add_team_key_loop_Some (l : list (nat * pydict)) (d : keydict) :
  is_Some (for_each add_team_key l d)
  ↔ Forall (λ it, hashable (dict_get_or "team_key" (JStr "") it.2) = true) l.
Proof.
  revert d. induction l as [|[idx team] l IH]; intros d; simpl.
  - split; [constructor | by eexists].
  - unfold keydict_set.
    destruct (hashable (dict_get_or "team_key" (JStr "") team)) eqn:Hh.
    + rewrite IH. split; [by constructor | by intros [_ ?]%Forall_cons].
    + split; [by intros [? [=]] | intros [Hc _]%Forall_cons].
      simpl in Hc. congruence.
Qed.

Lemma Forall_enumerate {A : Type} (P : A → Prop) (l : list A) :
  Forall (λ it : nat * A, P it.2) (enumerate l) ↔ Forall P l.
Proof.
  unfold enumerate. generalize 0%nat.
  induction l as [|x l IH]; intros s; simpl.
  - split; constructor.
  - rewrite !Forall_cons, IH. done.
Qed.

Lemma py_sorted_is_Some {A : Type} (key : A → option Z) (l : list A) :
  is_Some (py_sorted key l) ↔ Forall (λ t, is_Some (key t)) l.
Proof.
  unfold py_sorted. rewrite <- (mapM_is_Some key l).
  destruct (mapM key l); simpl; split; try done; by intros [? [=]].
Qed.

(** X5. A season is produced only when the settings request succeeds and
    its three settings convert to integers, the standings request succeeds
    and its response parses, every parsed team has a rank that converts to
    an integer, and every parsed team has a hashable [team_key]: a single
    team whose rank does not convert, or whose key is unhashable, leaves
    the whole season without a record. *)
Theorem extract_season_data_produced (a : api) (lg : league_ref) :
  is_Some (extract_season_data bi a lg) →
  ∃ (settings_data standings_data : json) (parsed : standings),
    get_league_settings a (lg_league_key lg) = Some settings_data
    ∧ is_Some (effective_settings bi
                 (_parse_league_settings bi settings_data))
    ∧ get_league_standings a (lg_league_key lg) = Some standings_data
    ∧ _parse_standings bi standings_data = Some parsed
    ∧ Forall (λ team, is_Some (rank_key bi team)) (teams parsed)
    ∧ Forall (λ team,
                hashable (dict_get_or "team_key" (JStr "") team) = true)
        (teams parsed).
Proof.
  intros [sd Hsd].
  apply extract_season_data_inv in Hsd
    as (settings_data & nt & ps & ew & Hget & Heff & Hsd).
  apply assemble_season_inv in Hsd
    as (standings_data & parsed & teams_sorted & tk & Hget' & Hparsed
        & Hsorted & Htk & _).
  exists settings_data, standings_data, parsed.
  split; [done|]. split; [by rewrite Heff|]. split; [done|].
  split; [done|].
  destruct (py_sorted_spec _ _ _ Hsorted) as (Hperm & _ & _).
  split.
  - apply py_sorted_is_Some. by rewrite Hsorted.
  - rewrite Hperm. apply (Forall_enumerate (λ team, hashable
      (dict_get_or "team_key" (JStr "") team) = true)).
    apply (add_team_key_loop_Some _ []). by rewrite Htk.
Qed.

End Produced.

(** ** Precedence in the league settings *)

Section SettingsPrecedence.
Context (bi : builtins).

Lemma set_int_fields_other (src : pydict) (keys : list string)
  (settings settings' : pydict) (key : string) :
  key ∉ keys →
  for_each (set_int_field bi src) keys settings = Some settings' →
  dict_get key settings' = dict_get key settings.
Proof.
  revert settings. induction keys as [|k keys IH]; intros settings Hkey; simpl.
  - by intros [= <-].
  - apply not_elem_of_cons in Hkey as [Hne Hkey].
    destruct (set_int_field bi src settings k) as [s1|] eqn:Hstep;
      [|discriminate].
    intros Hloop. rewrite (IH _ Hkey Hloop).
    unfold set_int_field in Hstep.
    destruct (dict_get k src) as [v|]; [|by injection Hstep as <-].
    destruct (py_int bi v) as [z|]; [|discriminate].
    injection Hstep as <-. by apply dict_get_set_ne.
Qed.

Lemma set_int_fields_set (src : pydict) (keys : list string)
  (settings settings' : pydict) (key : string) (v : json) :
  NoDup keys → key ∈ keys → dict_get key src = Some v →
  for_each (set_int_field bi src) keys settings = Some settings' →
  ∃ z : Z, py_int bi v = Some z ∧ dict_get key settings' = Some (JInt z).
Proof.
  revert settings. induction keys as [|k keys IH]; intros settings Hnd Hkey Hv.
  - by apply elem_of_nil in Hkey.
  - apply NoDup_cons in Hnd as [Hk Hnd]. simpl.
    destruct (set_int_field bi src settings k) as [s1|] eqn:Hstep;
      [|discriminate].
    intros Hloop. apply elem_of_cons in Hkey as [->|Hkey].
    + unfold set_int_field in Hstep. rewrite Hv in Hstep.
      destruct (py_int bi v) as [z|]; [|discriminate].
      injection Hstep as <-. exists z. split; [done|].
      rewrite (set_int_fields_other _ _ _ _ _ Hk Hloop).
      apply dict_get_set_eq.
    + by eapply IH.
Qed.

(** X6. When the parsing of a settings response does not raise and the
    first element of its league list is a dict, each of [num_teams],
    [end_week], [start_week] and [playoff_start_week] that this element
    holds ends up in the result as its integer value, whatever the
    ["settings"] sub-collections and the other elements say. *)
Theorem parse_league_settings_first_element (data league_data : json)
  (meta settings : pydict) (key : string) (v : json) :
  parse_league_settings_try bi data = Some settings →
  league_of data = Some league_data →
  first_dict league_data = Some (Some meta) →
  key ∈ meta_keys →
  dict_get key meta = Some v →
  _parse_league_settings bi data = settings
  ∧ ∃ z : Z, py_int bi v = Some z ∧ dict_get key settings = Some (JInt z).
Proof.
  intros Htry Hld Hmeta Hkey Hv. split.
  { unfold _parse_league_settings. by rewrite Htry. }
  unfold parse_league_settings_try in Htry. rewrite Hld in Htry.
  cbn [mbind option_bind] in Htry.
  destruct (py_iter league_data) as [items|]; [|discriminate].
  cbn [mbind option_bind] in Htry.
  destruct (for_each (settings_item bi) items []) as [s1|]; [|discriminate].
  cbn [mbind option_bind] in Htry. rewrite Hmeta in Htry.
  cbn [mbind option_bind] in Htry.
  eapply set_int_fields_set; [|exact Hkey|exact Hv|exact Htry].
  unfold meta_keys. repeat (apply NoDup_cons; split; [set_solver|]).
  apply NoDup_nil_2.
Qed.

End SettingsPrecedence.

(** ** The map from team keys to roster ids *)

Section TeamKeys.
Implicit Types k : json.
Implicit Types d : keydict.

Lemma key_eqb_sym k1 k2 : key_eqb k1 k2 = key_eqb k2 k1.
Proof.
  destruct k1, k2; simpl; try done;
    try (apply eq_true_iff_eq; rewrite !Qeq_bool_iff; split; intros ->;
         reflexivity).
  apply String.eqb_sym.
Qed.

Lemma key_eqb_trans k1 k2 k3 :
  key_eqb k1 k2 = true → key_eqb k2 k3 = true → key_eqb k1 k3 = true.
Proof.
  destruct k1, k2, k3; simpl; try done;
    try (rewrite !Qeq_bool_iff; intros -> ->; reflexivity).
  intros ->%String.eqb_eq ->%String.eqb_eq. apply String.eqb_refl.
Qed.

Lemma key_eqb_refl k : hashable k = true → key_eqb k k = true.
Proof.
  destruct k; simpl; try done; try (intros _; by apply Qeq_bool_iff).
  intros _. apply String.eqb_refl.
Qed.

(** Lookup after an insertion. *)
Lemma keydict_find_put k k2 (v : Z) d :
  keydict_find k (keydict_put k2 v d)
  = if key_eqb k2 k then Some v else keydict_find k d.
Proof.
  induction d as [|[k' v'] d IH]; simpl; [done|].
  destruct (key_eqb k' k2) eqn:H12; simpl.
  - destruct (key_eqb k2 k) eqn:H2.
    + by rewrite (key_eqb_trans _ _ _ H12 H2).
    + destruct (key_eqb k' k) eqn:H1; [|done].
      rewrite key_eqb_sym in H12.
      by rewrite (key_eqb_trans _ _ _ H12 H1) in H2.
  - rewrite IH. destruct (key_eqb k' k) eqn:H1; [|done].
    destruct (key_eqb k2 k) eqn:H2; [|done].
    rewrite (key_eqb_sym k2 k) in H2.
    by rewrite (key_eqb_trans _ _ _ H1 H2) in H12.
Qed.

Lemma add_team_key_loop_find (l : list pydict) (s : nat) d (tk : keydict) k :
  for_each add_team_key (zip (seq s (length l)) l) d = Some tk →
  (Forall (λ team, key_eqb (dict_get_or "team_key" (JStr "") team) k = false)
     l →
   keydict_find k tk = keydict_find k d)
  ∧ (∀ (i : nat) (team : pydict),
       l !! i = Some team →
       key_eqb (dict_get_or "team_key" (JStr "") team) k = true →
       (∀ (j : nat) (team' : pydict),
          (i < j)%nat → l !! j = Some team' →
          key_eqb (dict_get_or "team_key" (JStr "") team') k = false) →
       keydict_find k tk = Some (Z.of_nat (s + i) + 1)).
Proof.
  revert s d. induction l as [|t l IH]; intros s d; simpl.
  - intros [= <-]. split; [done|]. intros i team. by rewrite lookup_nil.
  - unfold keydict_set.
    destruct (hashable (dict_get_or "team_key" (JStr "") t)); [|discriminate].
    intros Hloop. destruct (IH _ _ Hloop) as [Hnone Hlast]. split.
    + intros [Ht Hl]%Forall_cons. rewrite (Hnone Hl), keydict_find_put.
      by rewrite Ht.
    + intros [|i] team Hteam Heq Hlater.
      * injection Hteam as <-. rewrite Hnone.
        -- rewrite keydict_find_put, Heq. do 2 f_equal. lia.
        -- apply Forall_forall. intros team' [j Hj]%list_elem_of_lookup.
           apply (Hlater (S j)); [lia | done].
      * simpl in Hteam. rewrite (Hlast i team Hteam Heq).
        -- do 2 f_equal. lia.
        -- intros j team' Hij Hj. apply (Hlater (S j)); [lia | done].
Qed.

End TeamKeys.

Section TeamKeyLookup.

(** X7. The map built from the sorted teams sends a key to the roster id of
    the last team whose [team_key] equals it (as Python compares keys), so
    to each team's own roster id when the keys are distinct; a hashable key
    of no team gets the default the caller supplies. *)
Theorem team_key_to_roster_id_lookup (teams_sorted : list pydict)
  (team_key_to_roster_id : keydict) :
  for_each add_team_key (enumerate teams_sorted) []
  = Some team_key_to_roster_id →
  (∀ (i : nat) (team : pydict) (k : json) (dflt : Z),
     teams_sorted !! i = Some team →
     key_eqb (dict_get_or "team_key" (JStr "") team) k = true →
     (∀ (j : nat) (team' : pydict),
        (i < j)%nat → teams_sorted !! j = Some team' →
        key_eqb (dict_get_or "team_key" (JStr "") team') k = false) →
     keydict_get k dflt team_key_to_roster_id = Some (Z.of_nat i + 1))
  ∧ (∀ (i : nat) (team : pydict),
       teams_sorted !! i = Some team →
       key_eqb (dict_get_or "team_key" (JStr "") team)
         (dict_get_or "team_key" (JStr "") team) = true)
  ∧ (∀ (k : json) (dflt : Z),
       hashable k = true →
       Forall (λ team,
                 key_eqb (dict_get_or "team_key" (JStr "") team) k = false)
         teams_sorted →
       keydict_get k dflt team_key_to_roster_id = Some dflt).
Proof.
  intros Hloop.
  assert (Forall (λ team,
            hashable (dict_get_or "team_key" (JStr "") team) = true)
            teams_sorted) as Hhash.
  { apply (Forall_enumerate (λ team, hashable
      (dict_get_or "team_key" (JStr "") team) = true)).
    apply (add_team_key_loop_Some _ []). by rewrite Hloop. }
  split; [|split].
  - intros i team k dflt Hteam Heq Hlater.
    destruct (add_team_key_loop_find teams_sorted 0 [] _ k Hloop)
      as [_ Hlast].
    unfold keydict_get.
    assert (hashable k = true) as ->.
    { rewrite Forall_forall in Hhash.
      pose proof (Hhash team (list_elem_of_lookup_2 _ _ _ Hteam)) as Ht.
      destruct (dict_get_or "team_key" (JStr "") team), k;
        simpl in *; done. }
    by rewrite (Hlast i team Hteam Heq Hlater).
  - intros i team Hteam. apply key_eqb_refl.
    rewrite Forall_forall in Hhash. apply Hhash.
    by eapply list_elem_of_lookup_2.
  - intros k dflt Hk Hnone.
    destruct (add_team_key_loop_find teams_sorted 0 [] _ k Hloop)
      as [Hfind _].
    unfold keydict_get. by rewrite Hk, (Hfind Hnone).
Qed.

End TeamKeyLookup.

(** ** What the matchup-derived bracket can hold *)

Section PlacementShape.
Implicit Types a b e : Matchup.t.
Implicit Types g : groups.






End PlacementShape.

(** ** The grouping of a week by matchup id *)

Section Grouping.
Implicit Types e : Matchup.t.
Implicit Types g : groups.

Lemma group_put_entries (mid : Z) e g :
  Permutation (concat (map snd (group_put mid e g)))
    (e :: concat (map snd g)).
Proof.
  induction g as [|[k es] g IH]; simpl; [reflexivity|].
  destruct (k =? mid); simpl.
  - rewrite <- app_assoc. simpl. symmetry. apply Permutation_middle.
  - rewrite IH. symmetry. apply Permutation_middle.
Qed.

(** X9. Grouping a week by matchup id keeps every entry exactly once: the
    groups have pairwise different ids, the ids are those of the week's
    entries, the group of an id holds the week's entries with this id in
    the order of the week and is never empty, and the groups together are
    a rearrangement of the week. *)
Theorem group_by_matchup_partition (week : list Matchup.t) :
  let by_matchup := group_by_matchup week in
  NoDup (map fst by_matchup)
  ∧ (∀ k : Z,
       k ∈ map fst by_matchup ↔ ∃ e, e ∈ week ∧ Matchup.matchup_id e = k)
  ∧ (∀ (k : Z) (es : list Matchup.t),
       (k, es) ∈ by_matchup →
       es = List.filter (with_id k) week ∧ es ≠ [])
  ∧ Permutation (concat (map snd by_matchup)) week.
Proof.
  cbn zeta. split; [apply group_keys_nodup|].
  split; [intros k; apply group_keys_elem|]. split.
  - intros k es Hin.
    apply group_find_elem in Hin; [|apply group_keys_nodup].
    rewrite group_find_by_matchup in Hin.
    destruct (List.filter (with_id k) week) as [|x l]; [discriminate|].
    by injection Hin as <-.
  - induction week as [|e week IH] using rev_ind; [reflexivity|].
    rewrite group_by_matchup_snoc, group_put_entries, IH.
    apply Permutation_cons_append.
Qed.

End Grouping.

(** ** The scoreboard of a week listing two-team matchups *)

Section IndexedCollections.

Lemma dict_get_app (k : string) (d1 d2 : pydict) :
  dict_get k (d1 ++ d2)
  = match dict_get k d1 with
    | Some v => Some v
    | None => dict_get k d2
    end.
Proof.
  induction d1 as [|[k' v] d1 IH]; simpl; [reflexivity|].
  by destruct (String.eqb k k').
Qed.

Lemma str_of_nat_not_count (i : nat) : str_of_nat i ≠ "count".
Proof.
  intros Hi.
  assert (NilZero.uint_of_string (str_of_nat i) = Some (Nat.to_uint i)) as Hu.
  { unfold str_of_nat. apply NilZero.usu. apply to_uint_not_nil. }
  rewrite Hi in Hu. discriminate Hu.
Qed.

Lemma positions_get (l : list json) (n i : nat) :
  dict_get (str_of_nat (n + i))
    (imap (λ j x, (str_of_nat (n + j), x)) l)
  = l !! i.
Proof.
  revert n i. induction l as [|x l IH]; intros n i; [reflexivity|].
  cbn [imap dict_get]. destruct i as [|i].
  - rewrite Nat.add_0_r, String.eqb_refl. reflexivity.
  - destruct (String.eqb_spec (str_of_nat (n + S i)) (str_of_nat (n + 0)))
      as [Heq|_]; [apply str_of_nat_inj in Heq; lia|].
    transitivity
      (dict_get (str_of_nat (S n + i))
         (imap (λ j x, (str_of_nat (S n + j), x)) l)); [|apply IH].
    replace (S n + i)%nat with (n + S i)%nat by lia.
    f_equal. apply imap_ext. intros j y _. simpl. do 2 f_equal. lia.
Qed.

Lemma positions_no_count (l : list json) (n : nat) :
  dict_get "count" (imap (λ j x, (str_of_nat (n + j), x)) l) = None.
Proof.
  revert n. induction l as [|x l IH]; intros n; [reflexivity|].
  cbn [imap dict_get].
  destruct (String.eqb_spec "count" (str_of_nat (n + 0))) as [Heq|_];
    [by apply eq_sym, str_of_nat_not_count in Heq|].
  transitivity
    (dict_get "count" (imap (λ j x, (str_of_nat (S n + j), x)) l));
    [|apply IH].
  f_equal. apply imap_ext. intros j y _. simpl. do 2 f_equal. lia.
Qed.

Lemma indexed_get (l : list json) (i : nat) (dflt : json) :
  py_get (indexed l) (str_of_nat i) dflt = Some (default dflt (l !! i)).
Proof.
  unfold indexed, py_get, dict_get_or. f_equal.
  rewrite dict_get_app.
  change (imap (λ i x, (str_of_nat i, x)) l)
    with (imap (λ j x, (str_of_nat (0 + j), x)) l).
  change (str_of_nat i) with (str_of_nat (0 + i)) at 1.
  rewrite (positions_get l 0 i).
  destruct (l !! i); [reflexivity|]. simpl.
  destruct (String.eqb_spec (str_of_nat i) "count") as [Heq|_];
    [by apply str_of_nat_not_count in Heq | reflexivity].
Qed.

Lemma indexed_count (l : list json) (dflt : json) :
  py_get (indexed l) "count" dflt = Some (JInt (Z.of_nat (length l))).
Proof.
  unfold indexed, py_get, dict_get_or. f_equal.
  rewrite dict_get_app.
  change (imap (λ i x, (str_of_nat i, x)) l)
    with (imap (λ j x, (str_of_nat (0 + j), x)) l).
  rewrite (positions_no_count l 0). reflexivity.
Qed.

Lemma indexed_truthy (l : list json) : truthy (indexed l) = true.
Proof. unfold indexed. by destruct l. Qed.

End IndexedCollections.

Section ListedScoreboard.
Context (bi : builtins).
Implicit Types team_key_to_roster_id : keydict.
Implicit Types team : listed_team.

Lemma matchup_team_listed team_key_to_roster_id (teams : list json)
  (matchup_id : Z) (match_teams : list Matchup.t) (t : nat) team :
  teams !! t = Some (scoreboard_team team.1 team.2) →
  readable_team bi team →
  matchup_team bi team_key_to_roster_id (indexed teams) matchup_id
    match_teams t
  = Some (match_teams
          ++ [entry_of bi team_key_to_roster_id t matchup_id team]).
Proof.
  destruct team as [key total]. cbn [fst snd].
  intros Ht (Htruthy & Hhash & [q Hq]). cbn [fst snd] in *.
  unfold matchup_team, entry_of. cbn [fst snd].
  rewrite indexed_get, Ht. unfold scoreboard_team.
  cbn -[py_float truthy keydict_get Z.add Z.of_nat].
  rewrite Hq. cbn -[truthy keydict_get Z.add Z.of_nat]. rewrite Htruthy.
  unfold keydict_get. rewrite Hhash. reflexivity.
Qed.

Lemma matchup_participants_listed team_key_to_roster_id
  (matchups : list json) (matchup_id : Z) (i : nat)
  (ab : listed_team * listed_team) :
  matchups !! i = Some (scoreboard_pair_of ab) →
  readable_team bi ab.1 → readable_team bi ab.2 →
  matchup_participants bi team_key_to_roster_id (indexed matchups)
    matchup_id i
  = Some (Some [entry_of bi team_key_to_roster_id 0 matchup_id ab.1;
                entry_of bi team_key_to_roster_id 1 matchup_id ab.2]).
Proof.
  intros Hi Ha Hb. unfold matchup_participants.
  rewrite indexed_get, Hi.
  unfold scoreboard_pair_of, scoreboard_matchup_of.
  set (teams := [scoreboard_team ab.1.1 ab.1.2;
                 scoreboard_team ab.2.1 ab.2.2]).
  cbn -[indexed matchup_team truthy].
  change (truthy (JDict ?d)) with true. cbn -[indexed matchup_team truthy].
  rewrite indexed_truthy. cbn -[indexed matchup_team].
  rewrite indexed_count. cbn -[indexed matchup_team].
  change (seq 0 (Z.to_nat (Z.of_nat 2))) with [0%nat; 1%nat].
  cbn [for_each].
  rewrite (matchup_team_listed _ teams _ [] 0 ab.1 eq_refl Ha).
  cbn [app].
  rewrite (matchup_team_listed _ teams _ _ 1 ab.2 eq_refl Hb).
  reflexivity.
Qed.

Lemma scoreboard_matchup_listed team_key_to_roster_id
  (matchups : list json) (acc : list Matchup.t) (matchup_id : Z) (i : nat)
  (ab : listed_team * listed_team) :
  matchups !! i = Some (scoreboard_pair_of ab) →
  readable_team bi ab.1 → readable_team bi ab.2 →
  scoreboard_matchup bi team_key_to_roster_id (indexed matchups)
    (acc, matchup_id) i
  = Some (acc ++ [entry_of bi team_key_to_roster_id 0 matchup_id ab.1;
                  entry_of bi team_key_to_roster_id 1 matchup_id ab.2],
          matchup_id + 1).
Proof.
  intros Hi Ha Hb. unfold scoreboard_matchup.
  by rewrite (matchup_participants_listed _ _ _ i ab).
Qed.

Lemma scoreboard_loop_listed team_key_to_roster_id (matchups : list json)
  (pairs : list (listed_team * listed_team)) (n : nat)
  (acc : list Matchup.t) :
  (∀ j ab, pairs !! j = Some ab →
           matchups !! (n + j)%nat = Some (scoreboard_pair_of ab)) →
  Forall (λ ab, readable_team bi ab.1 ∧ readable_team bi ab.2) pairs →
  run_until_raise
    (scoreboard_matchup bi team_key_to_roster_id (indexed matchups))
    (seq n (length pairs)) (acc, Z.of_nat n + 1)
  = (acc
     ++ concat
          (imap
             (λ j ab,
                [entry_of bi team_key_to_roster_id 0
                   (Z.of_nat (n + j) + 1) ab.1;
                 entry_of bi team_key_to_roster_id 1
                   (Z.of_nat (n + j) + 1) ab.2])
             pairs),
     Z.of_nat (n + length pairs) + 1).
Proof.
  revert n acc. induction pairs as [|ab pairs IH]; intros n acc Hat Hok.
  - simpl. by rewrite app_nil_r, Nat.add_0_r.
  - apply Forall_cons in Hok as [[Ha Hb] Hok].
    assert (matchups !! n = Some (scoreboard_pair_of ab)) as Hn.
    { rewrite <- (Nat.add_0_r n). by apply Hat. }
    cbn [length seq run_until_raise].
    rewrite (scoreboard_matchup_listed _ _ _ _ n ab Hn Ha Hb).
    replace (Z.of_nat n + 1 + 1) with (Z.of_nat (S n) + 1) by lia.
    rewrite IH; [|intros j ab' Hj;
                   replace (S n + j)%nat with (n + S j)%nat by lia;
                   by apply Hat|done].
    cbn [imap concat]. rewrite <- app_assoc, Nat.add_0_r.
    f_equal; [|f_equal; cbn [length]; lia].
    f_equal. cbn [app]. do 3 f_equal. apply imap_ext.
    intros j y _. simpl.
    by replace (S (n + j)) with (n + S j)%nat by lia.
Qed.

End ListedScoreboard.

Section ListedWeek.
Context (bi : builtins).

Lemma locate_matchups_listed (matchups : list json) :
  locate_matchups (scoreboard_of matchups) = Some (Some (indexed matchups)).
Proof.
  unfold locate_matchups, scoreboard_of.
  cbn -[indexed truthy]. change (truthy (JDict (?kv :: ?d))) with true.
  cbn -[indexed truthy]. repeat (rewrite indexed_truthy; cbn [negb]).
  reflexivity.
Qed.

(** X10. For a scoreboard response that lists matchups of two teams, each
    team with a truthy hashable key and a points total that converts to a
    float, [_parse_scoreboard] returns two entries per matchup in the
    order of the response: the matchups are numbered from 1, the points
    are the converted totals, and the roster id of a team is the value
    stored for its key in [team_key_to_roster_id] or, for an unknown key,
    the team's position in its matchup (1 or 2). *)
Theorem parse_scoreboard_listed (team_key_to_roster_id : keydict)
  (pairs : list (listed_team * listed_team)) :
  Forall (λ ab, readable_team bi ab.1 ∧ readable_team bi ab.2) pairs →
  _parse_scoreboard bi (scoreboard_of (map scoreboard_pair_of pairs))
    team_key_to_roster_id
  = entries_of bi team_key_to_roster_id pairs.
Proof.
  intros Hok. unfold _parse_scoreboard.
  rewrite locate_matchups_listed, indexed_count.
  cbn [mbind option_bind py_range]. rewrite Nat2Z.id, length_map.
  change ([], 1) with (@nil Matchup.t, Z.of_nat 0 + 1).
  rewrite (scoreboard_loop_listed bi team_key_to_roster_id _ pairs 0 []);
    [reflexivity| |exact Hok].
  intros j ab Hj. rewrite list_lookup_fmap. cbn [Nat.add]. by rewrite Hj.
Qed.

End ListedWeek.

(** ** League discovery *)

Section Discovery.
Implicit Types all_leagues : list League.t.

(** A loop body that only appends to the list it is given. *)
Local Abbreviation appends body :=
  (∀ all_leagues x,
     body all_leagues x
     = (all_leagues ++ (body [] x).1, (body [] x).2)).

Lemma for_each_commit_appends {A : Type}
  (body : list League.t → A → list League.t * bool) (l : list A)
  all_leagues :
  appends body →
  for_each_commit body l all_leagues
  = (all_leagues ++ (for_each_commit body l []).1,
     (for_each_commit body l []).2).
Proof.
  intros Hbody. revert all_leagues.
  induction l as [|x l IH]; intros all_leagues; simpl.
  - by rewrite app_nil_r.
  - rewrite (Hbody all_leagues x).
    destruct (body [] x) as [found ok] eqn:Hx. cbn [fst snd].
    destruct ok; [|reflexivity].
    rewrite (IH (all_leagues ++ found)), (IH found).
    cbn [fst snd]. by rewrite app_assoc.
Qed.

Lemma add_league_appends (leagues_data : json) (year game_id : Z) :
  appends (add_league leagues_data year game_id).
Proof.
  intros all_leagues j. unfold add_league.
  destruct (league_at leagues_data year game_id j); simpl;
    [reflexivity | by rewrite app_nil_r].
Qed.

Lemma add_game_appends (games_data : json) (year game_id : Z) :
  appends (add_game games_data year game_id).
Proof.
  intros all_leagues i. unfold add_game.
  destruct (_ ≫= _) as [[game_entry n]|]; [|by rewrite app_nil_r].
  destruct (n <? 2)%nat; [by rewrite app_nil_r|].
  destruct (_ ≫= _) as [[leagues_data js]|]; [|by rewrite app_nil_r].
  apply (for_each_commit_appends _ _ _ (add_league_appends _ _ _)).
Qed.

Lemma add_year_appends (data : json) (year game_id : Z) all_leagues :
  add_year data year game_id all_leagues
  = (all_leagues ++ (add_year data year game_id []).1,
     (add_year data year game_id []).2).
Proof.
  unfold add_year.
  destruct (_ ≫= _) as [[games n]|]; [|by rewrite app_nil_r].
  destruct (n <? 2)%nat; [by rewrite app_nil_r|].
  destruct (_ ≫= _) as [[games_data idxs]|]; [|by rewrite app_nil_r].
  apply (for_each_commit_appends _ _ _ (add_game_appends _ _ _)).
Qed.

Lemma discover_year_appends (api_get : string → option json) all_leagues
  (year : Z) :
  discover_year api_get all_leagues year
  = all_leagues ++ discover_year api_get [] year.
Proof.
  unfold discover_year.
  destruct (int_dict_get year NFL_GAME_IDS) as [game_id|];
    [|by rewrite app_nil_r].
  destruct (game_id =? 0); [by rewrite app_nil_r|].
  destruct (api_get (leagues_path game_id)) as [data|];
    [|by rewrite app_nil_r].
  by rewrite add_year_appends.
Qed.

Lemma discover_years (api_get : string → option json) (years : list Z)
  all_leagues :
  fold_left (discover_year api_get) years all_leagues
  = all_leagues ++ concat (map (discover_year api_get []) years).
Proof.
  revert all_leagues. induction years as [|year years IH];
    intros all_leagues; simpl.
  - by rewrite app_nil_r.
  - by rewrite IH, discover_year_appends, app_assoc.
Qed.

Lemma discover_year_ext (api_get api_get' : string → option json)
  (year : Z) :
  (∀ game_id,
     int_dict_get year NFL_GAME_IDS = Some game_id →
     api_get' (leagues_path game_id) = api_get (leagues_path game_id)) →
  discover_year api_get' [] year = discover_year api_get [] year.
Proof.
  intros Hsame. unfold discover_year.
  destruct (int_dict_get year NFL_GAME_IDS) as [game_id|]; [|reflexivity].
  by rewrite (Hsame game_id eq_refl).
Qed.

Lemma range_Z_elem (lo hi x : Z) : x ∈ range_Z lo hi ↔ lo <= x < hi.
Proof.
  unfold range_Z. rewrite list_elem_of_fmap. split.
  - intros (i & -> & Hi%elem_of_seq). lia.
  - intros Hx. exists (Z.to_nat (x - lo)). split; [lia|].
    apply elem_of_seq. lia.
Qed.

(** X11. The leagues [discover_leagues] returns are those of the years
    2001 to 2019 one after the other, a year's leagues depending on the
    response to that year's request only: a year whose request raises
    contributes nothing and leaves the other years as they are, and two
    services that answer the requests of these nineteen years alike give
    the same list. *)
Theorem discover_leagues_by_year (api_get : string → option json) :
  discover_leagues api_get
  = concat (map (discover_year api_get []) (range_Z 2001 2020))
  ∧ (∀ year game_id : Z,
       int_dict_get year NFL_GAME_IDS = Some game_id →
       api_get (leagues_path game_id) = None →
       discover_year api_get [] year = [])
  ∧ (∀ api_get' : string → option json,
       (∀ year game_id : Z,
          2001 <= year < 2020 →
          int_dict_get year NFL_GAME_IDS = Some game_id →
          api_get' (leagues_path game_id)
          = api_get (leagues_path game_id)) →
       discover_leagues api_get' = discover_leagues api_get).
Proof.
  split; [apply (discover_years api_get _ [])|]. split.
  - intros year game_id Hid Hget. unfold discover_year.
    rewrite Hid, Hget. by destruct (game_id =? 0).
  - intros api_get' Hsame. unfold discover_leagues.
    rewrite !discover_years. cbn [app]. f_equal.
    apply map_ext_in. intros year Hyear%list_elem_of_In%range_Z_elem.
    apply discover_year_ext. intros game_id Hid. by apply (Hsame year).
Qed.

End Discovery.

Section DiscoveredGames.
Implicit Types all_leagues : list League.t.

Lemma for_each_commit_invariant {A S : Type} (P : S → Prop)
  (body : S → A → S * bool) (l : list A) (s : S) :
  (∀ s x, P s → P (body s x).1) → P s → P (for_each_commit body l s).1.
Proof.
  intros Hbody. revert s. induction l as [|x l IH]; intros s Hs; [exact Hs|].
  simpl. specialize (Hbody s x Hs).
  destruct (body s x) as [s' ok]. destruct ok; [by apply IH | exact Hbody].
Qed.

Lemma add_league_game (leagues_data : json) (year game_id : Z) all_leagues
  (j : nat) :
  of_game game_id all_leagues →
  of_game game_id (add_league leagues_data year game_id all_leagues j).1.
Proof.
  unfold of_game. intros Hall. unfold add_league, league_at.
  destruct (py_get leagues_data (str_of_nat j) (JDict [])) as [e|];
    [|exact Hall]. cbn [mbind option_bind].
  destruct (py_get e "league" (JList [JDict []])) as [l|]; [|exact Hall].
  cbn [mbind option_bind].
  destruct (py_index l 0) as [league_info|]; [|exact Hall].
  cbn [mbind option_bind].
  destruct league_info; try exact Hall.
  cbn. apply Forall_app. split; [exact Hall|]. by repeat constructor.
Qed.

Lemma add_game_game (games_data : json) (year game_id : Z) all_leagues
  (i : nat) :
  of_game game_id all_leagues →
  of_game game_id (add_game games_data year game_id all_leagues i).1.
Proof.
  unfold of_game. intros Hall. unfold add_game.
  destruct (_ ≫= _) as [[game_entry n]|]; [|exact Hall].
  destruct (n <? 2)%nat; [exact Hall|].
  destruct (_ ≫= _) as [[leagues_data js]|]; [|exact Hall].
  apply for_each_commit_invariant; [|exact Hall].
  intros s j Hs. by apply add_league_game.
Qed.

Lemma add_year_game (data : json) (year game_id : Z) all_leagues :
  of_game game_id all_leagues →
  of_game game_id (add_year data year game_id all_leagues).1.
Proof.
  unfold of_game. intros Hall. unfold add_year.
  destruct (_ ≫= _) as [[games n]|]; [|exact Hall].
  destruct (n <? 2)%nat; [exact Hall|].
  destruct (_ ≫= _) as [[games_data idxs]|]; [|exact Hall].
  apply for_each_commit_invariant; [|exact Hall].
  intros s i Hs. by apply add_game_game.
Qed.

Lemma discover_year_game (api_get : string → option json) (year : Z) :
  Forall (λ league : League.t,
            int_dict_get year NFL_GAME_IDS = Some (League.game_id league)
            ∧ League.game_key league = str_of_Z (League.game_id league))
    (discover_year api_get [] year).
Proof.
  unfold discover_year.
  destruct (int_dict_get year NFL_GAME_IDS) as [game_id|]; [|constructor].
  destruct (game_id =? 0); [constructor|].
  destruct (api_get (leagues_path game_id)) as [data|]; [|constructor].
  eapply Forall_impl; [apply (add_year_game data year game_id []);
                       constructor|]. cbn beta.
  intros league [-> ->]. done.
Qed.

Lemma range_Z_sorted (lo hi : Z) : StronglySorted Z.le (range_Z lo hi).
Proof.
  unfold range_Z. generalize (Z.to_nat (hi - lo)) as n.
  generalize 0%nat as s. intros s n. revert s.
  induction n as [|n IH]; intros s; simpl; constructor; [apply IH|].
  apply Forall_forall. intros x (i & -> & Hi%elem_of_seq)%list_elem_of_fmap.
  lia.
Qed.

Lemma years_of_leagues (api_get : string → option json) (ys : list Z) :
  StronglySorted Z.le ys →
  ∃ years : list Z,
    Forall2
      (λ (year : Z) (league : League.t),
         year ∈ ys
         ∧ int_dict_get year NFL_GAME_IDS = Some (League.game_id league)
         ∧ League.game_key league = str_of_Z (League.game_id league))
      years (concat (map (discover_year api_get []) ys))
    ∧ StronglySorted Z.le years.
Proof.
  induction ys as [|y ys IH]; intros Hsorted.
  - exists []. split; constructor.
  - apply StronglySorted_inv in Hsorted as [Hsorted Hy].
    destruct (IH Hsorted) as (years & Hyears & Hs).
    exists (replicate (length (discover_year api_get [] y)) y ++ years).
    split.
    + simpl. apply Forall2_app.
      * pose proof (discover_year_game api_get y) as Hgame.
        induction Hgame as [|league l [Hid Hkey] _ IHl]; simpl;
          constructor; [|exact IHl].
        split; [by left | done].
      * eapply Forall2_impl; [exact Hyears|].
        intros year league (Hin & Hid & Hkey). split; [by right | done].
    + generalize (length (discover_year api_get [] y)) as n.
      induction n as [|n IHn]; simpl; [exact Hs|].
      constructor; [exact IHn|]. apply Forall_app. split.
      * apply Forall_forall. intros x [-> _]%elem_of_replicate. lia.
      * apply Forall_forall. intros x Hx.
        assert (x ∈ ys) as Hxy.
        { apply list_elem_of_lookup in Hx as [i Hi].
          destruct (Forall2_lookup_l _ _ _ _ _ Hyears Hi)
            as (league & _ & Hin & _). exact Hin. }
        rewrite Forall_forall in Hy. by apply Hy.
Qed.

(** X12. Every league [discover_leagues] returns carries the game id that
    [NFL_GAME_IDS] gives for a year from 2001 to 2019 (never the id of a
    later season) and, as [game_key], the decimal text of this id; the
    leagues are listed by ascending year. *)
Theorem discover_leagues_game_ids (api_get : string → option json) :
  ∃ years : list Z,
    Forall2
      (λ (year : Z) (league : League.t),
         2001 <= year <= 2019
         ∧ int_dict_get year NFL_GAME_IDS = Some (League.game_id league)
         ∧ League.game_key league = str_of_Z (League.game_id league))
      years (discover_leagues api_get)
    ∧ StronglySorted Z.le years.
Proof.
  destruct (years_of_leagues api_get (range_Z 2001 2020)
              (range_Z_sorted 2001 2020)) as (years & Hyears & Hsorted).
  exists years. split; [|exact Hsorted].
  unfold discover_leagues. rewrite discover_years. cbn [app].
  eapply Forall2_impl; [exact Hyears|].
  intros year league (Hin%range_Z_elem & Hid & Hkey).
  split; [lia | done].
Qed.

End DiscoveredGames.

Section DiscoveredLeagues.
Implicit Types all_leagues : list League.t.

Lemma game_ids_nonzero (year game_id : Z) :
  int_dict_get year NFL_GAME_IDS = Some game_id → game_id ≠ 0.
Proof.
  unfold NFL_GAME_IDS. cbn [int_dict_get].
  repeat (destruct (year =? _); [by intros [= <-]|]). discriminate.
Qed.

Lemma league_loop (leagues_data : json) (year game_id : Z) (js : list nat)
  all_leagues :
  for_each_commit (add_league leagues_data year game_id) js all_leagues
  = (all_leagues
     ++ successes (map (league_at leagues_data year game_id) js),
     forallb (λ j, bool_decide
                     (is_Some (league_at leagues_data year game_id j))) js).
Proof.
  revert all_leagues. induction js as [|j js IH]; intros all_leagues; simpl.
  - by rewrite app_nil_r.
  - unfold add_league at 1.
    destruct (league_at leagues_data year game_id j) as [league|]; simpl.
    + rewrite IH, <- app_assoc. reflexivity.
    + by rewrite app_nil_r.
Qed.

(** X13. Within one game of a response the leagues are read in order,
    and those read before the first league entry that cannot be read are
    kept: the loop appends exactly them, and ends without raising exactly
    when every entry can be read. *)
Theorem league_loop_keeps_found (leagues_data : json) (year game_id : Z)
  (js : list nat) (all_leagues found : list League.t) (ok : bool) :
  for_each_commit (add_league leagues_data year game_id) js all_leagues
  = (found, ok) →
  found
  = all_leagues ++ successes (map (league_at leagues_data year game_id) js)
  ∧ (ok = true
     ↔ ∀ j : nat,
         j ∈ js → is_Some (league_at leagues_data year game_id j))
  ∧ (∀ (i j : nat),
       js !! i = Some j →
       league_at leagues_data year game_id j = None →
       (length found <= length all_leagues + i)%nat).
Proof.
  rewrite league_loop. intros [= <- <-]. split; [reflexivity|]. split.
  - rewrite forallb_forall. split.
    + intros Hall j Hj%list_elem_of_In.
      by apply (bool_decide_unpack _), Is_true_true, Hall.
    + intros Hall j Hj%list_elem_of_In.
      by apply bool_decide_eq_true_2, Hall.
  - intros i j Hi Hj. rewrite length_app. apply Nat.add_le_mono_l.
    revert i Hi. induction js as [|j' js IH]; intros i Hi; [done|].
    destruct i as [|i]; simpl in Hi.
    + injection Hi as ->. simpl. by rewrite Hj.
    + simpl. destruct (league_at leagues_data year game_id j');
        simpl; [|lia].
      specialize (IH i Hi). lia.
Qed.

Lemma league_at_listed (infos : list pydict) (year game_id : Z) (j : nat)
  (info : pydict) :
  infos !! j = Some info →
  league_at (indexed (map league_entry infos)) year game_id j
  = Some (league_of_info year game_id info).
Proof.
  intros Hj. unfold league_at.
  rewrite indexed_get, list_lookup_fmap, Hj. reflexivity.
Qed.

Lemma successes_listed (infos : list pydict) (year game_id : Z) (n : nat)
  (rest : list pydict) :
  (∀ j info, rest !! j = Some info → infos !! (n + j)%nat = Some info) →
  successes
    (map (league_at (indexed (map league_entry infos)) year game_id)
       (seq n (length rest)))
  = map (league_of_info year game_id) rest.
Proof.
  revert n. induction rest as [|info rest IH]; intros n Hat; [reflexivity|].
  cbn [length seq map].
  rewrite (league_at_listed infos year game_id n info).
  - cbn [successes]. f_equal. apply IH. intros j info' Hj.
    replace (S n + j)%nat with (n + S j)%nat by lia. by apply Hat.
  - rewrite <- (Nat.add_0_r n). by apply Hat.
Qed.

Lemma add_game_listed (infos : list pydict) (year game_id : Z) :
  add_game (indexed [game_entry_of infos]) year game_id [] 0
  = (map (league_of_info year game_id) infos, true).
Proof.
  unfold add_game. rewrite indexed_get. unfold game_entry_of.
  cbn -[indexed add_league]. rewrite indexed_count.
  cbn -[indexed add_league]. rewrite Nat2Z.id, league_loop, length_map.
  cbn [app]. f_equal.
  - apply (successes_listed infos year game_id 0 infos). by intros j info.
  - apply forallb_forall. intros j Hj%list_elem_of_In%elem_of_seq.
    apply bool_decide_eq_true_2.
    destruct (lookup_lt_is_Some_2 infos j) as [info Hinfo]; [lia|].
    by rewrite (league_at_listed infos year game_id j info Hinfo).
Qed.

Lemma add_year_listed (infos : list pydict) (year game_id : Z) :
  (add_year (leagues_response infos) year game_id []).1
  = map (league_of_info year game_id) infos.
Proof.
  unfold add_year, leagues_response.
  cbn -[indexed add_game]. rewrite indexed_count.
  cbn -[indexed add_game].
  change (seq 0 (Z.to_nat (Z.of_nat 1))) with [0%nat].
  cbn [for_each_commit]. by rewrite add_game_listed.
Qed.

(** X14. When the response to a year's request lists league dicts under
    one game, the year contributes one league per dict, in the order of
    the response: name, league key and league id are those of the dict,
    the empty string when it has none; the season is that of the dict,
    the year's decimal text when it has none. *)
Theorem discover_year_listed (api_get : string → option json)
  (year game_id : Z) (infos : list pydict) :
  int_dict_get year NFL_GAME_IDS = Some game_id →
  api_get (leagues_path game_id) = Some (leagues_response infos) →
  discover_year api_get [] year = map (league_of_info year game_id) infos.
Proof.
  intros Hid Hget. unfold discover_year. rewrite Hid, Hget.
  destruct (Z.eqb_spec game_id 0) as [->|_];
    [by apply game_ids_nonzero in Hid|].
  apply add_year_listed.
Qed.

End DiscoveredLeagues.

(** ** The name filter *)

Section Substrings.

Lemma prefix_spec (p s : string) :
  String.prefix p s = true ↔ ∃ post, s = String.append p post.
Proof.
  revert s. induction p as [|a p IH]; intros s.
  - split; [intros _; by exists s | by destruct s].
  - destruct s as [|b s]; simpl.
    { split; [discriminate|]. intros [post Hpost]. discriminate Hpost. }
    destruct (ascii_dec a b) as [->|Hne].
    + rewrite IH. split; intros [post Hpost]; exists post.
      * simpl. by rewrite Hpost.
      * change (String b s = String b (String.append p post)) in Hpost.
        by injection Hpost.
    + split; [discriminate|]. intros [post Hpost].
      change (String b s = String a (String.append p post)) in Hpost.
      congruence.
Qed.

(** [contains] is the substring test. *)
Lemma contains_spec (p s : string) :
  contains p s = true
  ↔ ∃ pre post, s = String.append pre (String.append p post).
Proof.
  induction s as [|b s IH]; cbn [contains].
  - rewrite orb_false_r, prefix_spec. split.
    + intros [post Hpost]. by exists "", post.
    + intros (pre & post & Hs). destruct pre; [by exists post|done].
  - rewrite orb_true_iff, prefix_spec, IH. split.
    + intros [[post Hpost]|(pre & post & Hs)].
      * by exists "", post.
      * exists (String b pre), post. simpl. by rewrite Hs.
    + intros (pre & post & Hs). destruct pre as [|c pre]; simpl in Hs.
      * left. by exists post.
      * right. injection Hs as _ Hs. by exists pre, post.
Qed.

End Substrings.

Section Filtered.
Context (tb : text_builtins).
Implicit Types leagues filtered : list League.t.
Implicit Types league : League.t.

Lemma match_patterns_existsb (patterns : list string) (name_lower : string)
  league filtered :
  match_patterns patterns name_lower league filtered
  = if existsb (λ pattern, contains pattern name_lower) patterns
    then filtered ++ [league] else filtered.
Proof.
  induction patterns as [|pattern patterns IH]; simpl; [reflexivity|].
  by destruct (contains pattern name_lower).
Qed.

Lemma filter_league_step filtered league :
  filter_league tb filtered league
  = if is_str (League.name league)
    then Some (filtered
               ++ (if name_matches tb league then [league] else []))
    else None.
Proof.
  unfold filter_league, name_matches.
  destruct (League.name league); try reflexivity. cbn [is_str].
  rewrite match_patterns_existsb.
  destruct (existsb _ _); [reflexivity | by rewrite app_nil_r].
Qed.

Lemma filter_loop leagues filtered :
  for_each (filter_league tb) leagues filtered
  = if forallb (λ league, is_str (League.name league)) leagues
    then Some (filtered ++ List.filter (name_matches tb) leagues)
    else None.
Proof.
  revert filtered. induction leagues as [|league leagues IH];
    intros filtered; simpl.
  - by rewrite app_nil_r.
  - rewrite filter_league_step.
    destruct (is_str (League.name league)); [|reflexivity]. simpl.
    rewrite IH. destruct (forallb _ leagues); [|reflexivity].
    rewrite <- app_assoc. by destruct (name_matches tb league).
Qed.

Lemma filter_sublist {A : Type} (f : A → bool) (l : list A) :
  List.filter f l `sublist_of` l.
Proof.
  induction l as [|x l IH]; simpl; [constructor|].
  destruct (f x); by constructor.
Qed.

Lemma filter_filter_same {A : Type} (f : A → bool) (l : list A) :
  List.filter f (List.filter f l) = List.filter f l.
Proof.
  induction l as [|x l IH]; simpl; [reflexivity|].
  destruct (f x) eqn:Hx; simpl; [|exact IH]. by rewrite Hx, IH.
Qed.

Lemma name_matches_spec league :
  name_matches tb league = true
  ↔ ∃ (s pattern pre post : string),
      League.name league = JStr s
      ∧ pattern ∈ LEAGUE_NAME_FILTERS
      ∧ strip tb (lower tb s)
        = String.append pre (String.append pattern post).
Proof.
  unfold name_matches. split.
  - destruct (League.name league) as [| | | |s| |]; try discriminate.
    intros (pattern & Hin%list_elem_of_In & Hc)%existsb_exists.
    apply contains_spec in Hc as (pre & post & Hc).
    by exists s, pattern, pre, post.
  - intros (s & pattern & pre & post & -> & Hin & Hs).
    apply existsb_exists. exists pattern.
    split; [by apply list_elem_of_In|].
    apply contains_spec. by exists pre, post.
Qed.

(** X15. [filter_leagues] raises exactly when the name of some league is
    not a string or the sort of the kept seasons raises. Otherwise it
    returns, in the order of its input and each at most once, the leagues
    whose name, lowered and stripped, has ["football101"] or
    ["football 1"] as a substring; filtering the result again changes
    nothing. *)
Theorem filter_leagues_kept leagues :
  (is_Some (filter_leagues tb leagues)
   ↔ (∀ league, league ∈ leagues → is_str (League.name league) = true)
     ∧ sorts tb (map League.season
                   (List.filter (name_matches tb) leagues)) = true)
  ∧ (∀ filtered,
       filter_leagues tb leagues = Some filtered →
       filtered = List.filter (name_matches tb) leagues
       ∧ filtered `sublist_of` leagues
       ∧ (∀ league,
            league ∈ filtered
            ↔ league ∈ leagues
              ∧ ∃ (s pattern pre post : string),
                  League.name league = JStr s
                  ∧ pattern ∈ LEAGUE_NAME_FILTERS
                  ∧ strip tb (lower tb s)
                    = String.append pre (String.append pattern post))
       ∧ filter_leagues tb filtered = Some filtered).
Proof.
  unfold filter_leagues. rewrite filter_loop. cbn [app]. split.
  - destruct (forallb _ leagues) eqn:Hstr; cbn [mbind option_bind].
    + rewrite forallb_forall in Hstr.
      destruct (sorts tb _) eqn:Hsorts.
      * split; [|by eexists]. intros _. split; [|reflexivity].
        intros league Hin%list_elem_of_In. by apply Hstr.
      * split; [by intros [? [=]] | by intros [_ [=]]].
    + split; [by intros [? [=]]|]. intros [Hall _].
      assert (forallb (λ league, is_str (League.name league)) leagues
              = true) as Htrue; [|congruence].
      apply forallb_forall. intros league Hin%list_elem_of_In.
      by apply Hall.
  - intros filtered Hf.
    destruct (forallb _ leagues) eqn:Hstr; [|discriminate].
    cbn [mbind option_bind] in Hf.
    destruct (sorts tb _) eqn:Hsorts; [|discriminate].
    injection Hf as <-. split; [reflexivity|].
    split; [apply filter_sublist|]. split.
    + intros league. rewrite <- name_matches_spec.
      rewrite !list_elem_of_In. apply List.filter_In.
    + rewrite filter_loop, filter_filter_same. cbn [app].
      assert (forallb (λ league, is_str (League.name league))
                (List.filter (name_matches tb) leagues) = true) as ->.
      { rewrite forallb_forall in Hstr. apply forallb_forall.
        intros league [Hin _]%List.filter_In. by apply Hstr. }
      cbn [mbind option_bind]. by rewrite Hsorts.
Qed.

End Filtered.

(** ** The table of managers *)

Section Managers.
Implicit Types m : managers.
Implicit Types u : User.t.
Implicit Types us : list User.t.
Implicit Types uid : json.

Lemma for_each_app {A S : Type} (body : S → A → option S) (l1 l2 : list A)
  (s : S) :
  for_each body (l1 ++ l2) s = for_each body l1 s ≫= for_each body l2.
Proof.
  revert s. induction l1 as [|x l1 IH]; intros s; simpl; [reflexivity|].
  destruct (body s x); [apply IH | reflexivity].
Qed.

Lemma managers_find_eqv uid uid' m :
  key_eqb uid uid' = true → managers_find uid m = managers_find uid' m.
Proof.
  intros Heq. induction m as [|[k n] m IH]; simpl; [reflexivity|].
  rewrite IH. destruct (key_eqb k uid) eqn:H1.
  - by rewrite (key_eqb_trans _ _ _ H1 Heq).
  - destruct (key_eqb k uid') eqn:H2; [|reflexivity].
    rewrite key_eqb_sym in Heq.
    by rewrite (key_eqb_trans _ _ _ H2 Heq) in H1.
Qed.

Lemma managers_find_app uid m (k name : json) :
  managers_find uid (m ++ [(k, name)])
  = match managers_find uid m with
    | Some x => Some x
    | None => if key_eqb k uid then Some name else None
    end.
Proof.
  induction m as [|[k' n'] m IH]; simpl; [reflexivity|].
  by destruct (key_eqb k' uid).
Qed.

Lemma managers_find_None uid m :
  managers_find uid m = None
  ↔ ∀ k name, (k, name) ∈ m → key_eqb k uid = false.
Proof.
  induction m as [|[k' n'] m IH]; simpl.
  - split; [by intros _ k name ?%elem_of_nil | done].
  - destruct (key_eqb k' uid) eqn:Hk.
    + split; [discriminate|]. intros Hall.
      rewrite (Hall k' n') in Hk; [discriminate | by left].
    + rewrite IH. split.
      * intros Hall k name [[= -> ->]|Hin]%elem_of_cons; eauto.
      * intros Hall k name Hin. apply (Hall k name). by right.
Qed.

Lemma managers_find_Some uid m (name : json) :
  managers_find uid m = Some name →
  ∃ (i : nat) k, m !! i = Some (k, name) ∧ key_eqb k uid = true.
Proof.
  induction m as [|[k' n'] m IH]; simpl; [discriminate|].
  destruct (key_eqb k' uid) eqn:Hk.
  - intros [= ->]. by exists 0%nat, k'.
  - intros (i & k & Hi & Heq)%IH. by exists (S i), k.
Qed.

Lemma add_manager_loop us m m' :
  for_each add_manager us m = Some m' →
  (∀ uid,
     managers_find uid m'
     = match managers_find uid m with
       | Some name => Some name
       | None => User.display_name <$> first_user uid us
       end)
  ∧ Forall (λ u, hashable (User.user_id u) = true) us
  ∧ (∀ k name,
       (k, name) ∈ m' →
       (k, name) ∈ m
       ∨ ∃ u, u ∈ us ∧ k = User.user_id u ∧ name = User.display_name u)
  ∧ ((∀ (i j : nat) k1 n1 k2 n2,
        m !! i = Some (k1, n1) → m !! j = Some (k2, n2) →
        key_eqb k1 k2 = true → i = j) →
     ∀ (i j : nat) k1 n1 k2 n2,
       m' !! i = Some (k1, n1) → m' !! j = Some (k2, n2) →
       key_eqb k1 k2 = true → i = j).
Proof.
  revert m. induction us as [|u us IH]; intros m; simpl.
  - intros [= <-]. split; [|split; [constructor|split; [by left|done]]].
    intros uid. by destruct (managers_find uid m).
  - unfold add_manager at 1.
    destruct (hashable (User.user_id u)) eqn:Hhash; [|discriminate].
    destruct (managers_find (User.user_id u) m) as [known|] eqn:Hknown.
    + intros Hloop. destruct (IH _ Hloop) as (Hfind & Hall & Hfrom & Hone).
      split; [|split; [by constructor|split; [|exact Hone]]].
      * intros uid. rewrite Hfind. unfold first_user. cbn [List.find].
        destruct (managers_find uid m) eqn:Huid; [reflexivity|].
        destruct (key_eqb (User.user_id u) uid) eqn:Heq; [|reflexivity].
        rewrite (managers_find_eqv _ _ _ Heq) in Hknown. congruence.
      * intros k name Hin. destruct (Hfrom k name Hin)
          as [?|(u' & Hu' & -> & ->)]; [by left|].
        right. exists u'. split; [by right | done].
    + intros Hloop. destruct (IH _ Hloop) as (Hfind & Hall & Hfrom & Hone).
      split; [|split; [by constructor|split]].
      * intros uid. rewrite Hfind, managers_find_app.
        unfold first_user. cbn [List.find].
        destruct (managers_find uid m); [reflexivity|].
        by destruct (key_eqb (User.user_id u) uid).
      * intros k name Hin. destruct (Hfrom k name Hin)
          as [[?|[= -> ->]%list_elem_of_singleton]%elem_of_app
             |(u' & Hu' & -> & ->)].
        -- by left.
        -- right. exists u. split; [by left | done].
        -- right. exists u'. split; [by right | done].
      * intros Hm. apply Hone. intros i j k1 n1 k2 n2 Hi Hj Heq.
        rewrite managers_find_None in Hknown.
        assert (∀ (i : nat) k name,
                  (m ++ [(User.user_id u, User.display_name u)]) !! i
                  = Some (k, name) →
                  (m !! i = Some (k, name) ∧ (i < length m)%nat)
                  ∨ (i = length m ∧ k = User.user_id u)) as Hcases.
        { intros i' k name Hi'.
          apply lookup_app_Some in Hi' as [Hl|[Hge Hr]].
          - left. split; [done|]. by apply lookup_lt_Some in Hl.
          - right. apply list_lookup_singleton_Some in Hr as [Hz [= <- <-]].
            split; [lia | done]. }
        destruct (Hcases _ _ _ Hi) as [[Hi' Hli]|[-> ->]],
                 (Hcases _ _ _ Hj) as [[Hj' Hlj]|[-> ->]].
        -- by apply (Hm i j k1 n1 k2 n2).
        -- rewrite (Hknown k1 n1) in Heq; [discriminate|].
           by apply list_elem_of_lookup_2 in Hi'.
        -- rewrite key_eqb_sym, (Hknown k2 n2) in Heq; [discriminate|].
           by apply list_elem_of_lookup_2 in Hj'.
        -- reflexivity.
Qed.

Lemma add_manager_loop_Some us m :
  Forall (λ u, hashable (User.user_id u) = true) us →
  is_Some (for_each add_manager us m).
Proof.
  revert m. induction us as [|u us IH]; intros m Hall; simpl; [by eexists|].
  apply Forall_cons in Hall as [Hu Hall]. unfold add_manager at 1.
  rewrite Hu. destruct (managers_find (User.user_id u) m); by apply IH.
Qed.

Lemma collect_managers_flat (all_season_data : list season_data) m :
  for_each (λ all_managers sd, for_each add_manager (users sd) all_managers)
    all_season_data m
  = for_each add_manager (concat (map users all_season_data)) m.
Proof.
  revert m. induction all_season_data as [|sd sds IH]; intros m; simpl;
    [reflexivity|].
  rewrite for_each_app.
  destruct (for_each add_manager (users sd) m) as [m1|]; [apply IH | done].
Qed.

(** X16. The table of managers [main] prints lists every user id once,
    with the display name of the first user carrying this id in the order
    of the seasons and of their users; ids are compared as Python compares
    dict keys. Building the table raises exactly when some user id is
    unhashable. *)
Theorem collect_managers_first_seen (all_season_data : list season_data) :
  let us := concat (map users all_season_data) in
  (is_Some (collect_managers all_season_data)
   ↔ ∀ u, u ∈ us → hashable (User.user_id u) = true)
  ∧ (∀ all_managers : managers,
       collect_managers all_season_data = Some all_managers →
       (∀ uid,
          managers_find uid all_managers
          = User.display_name <$> first_user uid us)
       ∧ (∀ k name,
            (k, name) ∈ all_managers →
            ∃ u, u ∈ us ∧ k = User.user_id u
                 ∧ name = User.display_name u)
       ∧ (∀ (i j : nat) k1 n1 k2 n2,
            all_managers !! i = Some (k1, n1) →
            all_managers !! j = Some (k2, n2) →
            key_eqb k1 k2 = true → i = j)).
Proof.
  intros us. unfold collect_managers. rewrite collect_managers_flat.
  fold us. split.
  - split.
    + intros [m Hm]. apply add_manager_loop in Hm as (_ & Hall & _).
      by apply Forall_forall.
    + intros Hall. by apply add_manager_loop_Some, Forall_forall.
  - intros m Hm. apply add_manager_loop in Hm as (Hfind & _ & Hfrom & Hone).
    split; [exact Hfind|]. split.
    + intros k name Hin.
      by destruct (Hfrom k name Hin) as [?%elem_of_nil|?].
    + apply Hone. intros i j k1 n1 k2 n2 Hi. discriminate Hi.
Qed.

End Managers.

(** ** The requests of a season *)

Section Requests.
Context (bi : builtins).

Lemma append_inj_l (p a b : string) :
  String.append p a = String.append p b → a = b.
Proof.
  induction p as [|c p IH]; [done|].
  change (String c (String.append p a) = String c (String.append p b) → a = b).
  intros [= H]. by apply IH.
Qed.

Lemma assemble_season_requests (a a' : api) (lg : league_ref)
  (num_teams playoff_start end_week : Z) :
  get_league_standings a' (lg_league_key lg)
  = get_league_standings a (lg_league_key lg) →
  (∀ week : Z,
     1 <= week < playoff_start →
     get_league_scoreboard a' (lg_league_key lg) week
     = get_league_scoreboard a (lg_league_key lg) week) →
  assemble_season bi a' lg num_teams playoff_start end_week
  = assemble_season bi a lg num_teams playoff_start end_week.
Proof.
  intros Hst Hsb. unfold assemble_season. rewrite Hst.
  destruct (get_league_standings a (lg_league_key lg)) as [sd|];
    [|reflexivity]. cbn [mbind option_bind].
  destruct (_parse_standings bi sd) as [parsed|]; [|reflexivity].
  cbn [mbind option_bind].
  destruct (py_sorted (rank_key bi) (teams parsed)) as [teams_sorted|];
    [|reflexivity]. cbn [mbind option_bind].
  destruct (for_each (add_team bi (lg_league_key lg))
              (enumerate teams_sorted) ([], [], ∅))
    as [[[us rs] ro]|]; [|reflexivity]. cbn [mbind option_bind].
  destruct (for_each add_team_key (enumerate teams_sorted) []) as [tk|];
    [|reflexivity]. cbn [mbind option_bind].
  do 2 f_equal. apply map_ext_in.
  intros week Hweek%list_elem_of_In%range_Z_elem.
  unfold week_matchups. rewrite Hsb; [reflexivity | lia].
Qed.

(** X17. A season is extracted from the responses to three kinds of
    request only: the settings and the standings of its league and the
    scoreboards of the weeks from 1 up to the week before the play-offs
    start, as the settings response gives it. Two services that answer
    these requests alike yield the same season; no scoreboard of a
    play-off week and no path of another kind is requested. The paths of
    these requests are pairwise different. *)
Theorem extract_season_data_requests
  (api_get api_get' : string → option json) (lg : league_ref) :
  let league_key := lg_league_key lg in
  api_get' (settings_path league_key) = api_get (settings_path league_key) →
  api_get' (standings_path league_key)
  = api_get (standings_path league_key) →
  (∀ (settings_data : json) (num_teams playoff_start end_week week : Z),
     api_get (settings_path league_key) = Some settings_data →
     effective_settings bi (_parse_league_settings bi settings_data)
     = Some (num_teams, playoff_start, end_week) →
     1 <= week < playoff_start →
     api_get' (scoreboard_path league_key week)
     = api_get (scoreboard_path league_key week)) →
  extract_season_data bi (api_of api_get') lg
  = extract_season_data bi (api_of api_get) lg
  ∧ settings_path league_key ≠ standings_path league_key
  ∧ (∀ week : Z,
       scoreboard_path league_key week ≠ settings_path league_key
       ∧ scoreboard_path league_key week ≠ standings_path league_key)
  ∧ (∀ week week' : Z,
       scoreboard_path league_key week = scoreboard_path league_key week' →
       week = week').
Proof.
  intros league_key Hsettings Hstandings Hweeks. split; [|split; [|split]].
  - unfold extract_season_data. cbn [api_of get_league_settings].
    fold league_key. rewrite Hsettings.
    destruct (api_get (settings_path league_key)) as [settings_data|] eqn:Hs;
      [|reflexivity]. cbn [mbind option_bind].
    destruct (effective_settings bi _) as [[[n ps] ew]|] eqn:He;
      [|reflexivity]. cbn [mbind option_bind].
    apply assemble_season_requests; [exact Hstandings|].
    intros week Hweek. by apply (Hweeks settings_data n ps ew week).
  - unfold settings_path, standings_path.
    intros H%append_inj_l%append_inj_l. discriminate H.
  - intros week. unfold scoreboard_path, settings_path, standings_path.
    split; intros H%append_inj_l%append_inj_l; discriminate H.
  - intros week week'. unfold scoreboard_path.
    intros H%append_inj_l%append_inj_l%append_inj_l.
    by apply str_of_Z_inj.
Qed.

End Requests.

(** ** The league object of a season *)

Section LeagueObject.
Context (bi : builtins).

(** X18. In an extracted season the league object carries the key, name
    and season of the league it was extracted for, [total_rosters] is the
    number of rosters (and of users) of the record, every roster carries
    the league key, and [playoff_week_start] is the play-off start the
    settings response gives. The [num_teams] and [end_week] settings are
    converted but decide nothing in the record. *)
Theorem extract_season_data_league (a : api) (lg : league_ref)
  (sd : season_data) :
  extract_season_data bi a lg = Some sd →
  lo_league_id (league sd) = lg_league_key lg
  ∧ lo_name (league sd) = lg_name lg
  ∧ lo_season (league sd) = lg_season lg
  ∧ total_rosters (league sd) = length (rosters sd)
  ∧ total_rosters (league sd) = length (users sd)
  ∧ (∀ ro : Roster.t,
       ro ∈ rosters sd → Roster.league_id ro = lg_league_key lg)
  ∧ (∃ (settings_data : json) (num_teams end_week : Z),
       get_league_settings a (lg_league_key lg) = Some settings_data
       ∧ effective_settings bi (_parse_league_settings bi settings_data)
         = Some (num_teams, playoff_week_start (league sd), end_week))
  ∧ (∀ num_teams end_week : Z,
       assemble_season bi a lg num_teams (playoff_week_start (league sd))
         end_week
       = Some sd).
Proof.
  intros (settings_data & nt & ps & ew & Hget & Heff & Hsd)
    %extract_season_data_inv.
  pose proof Hsd as Hrec.
  apply assemble_season_record in Hrec
    as (standings_data & parsed & teams_sorted & us & rs & m & tk & Hst
        & Hparsed & Hsorted & Hloop & Htk & ->).
  cbn [league users rosters lo_league_id lo_name lo_season total_rosters
       playoff_week_start].
  apply py_sorted_spec in Hsorted as Hperm. destruct Hperm as (Hperm & _).
  apply add_team_loop in Hloop as Hfields.
  destruct Hfields as (Hus & rs' & Hrs & Hall). cbn [app] in Hus, Hrs.
  subst us rs'.
  assert (length rs = length teams_sorted) as Hlen.
  { apply Forall2_length in Hall. by rewrite enumerate_length in Hall. }
  split; [reflexivity|]. split; [reflexivity|]. split; [reflexivity|].
  split; [by rewrite Hlen, (Permutation_length Hperm)|].
  split; [by rewrite length_map, enumerate_length,
            (Permutation_length Hperm)|].
  split; [|split].
  - intros ro (i & Hi)%list_elem_of_lookup.
    destruct (Forall2_lookup_r _ _ _ _ _ Hall Hi) as ([idx team] & _ & Hro).
    by apply roster_of_fields in Hro as (_ & _ & ->).
  - by exists settings_data, nt, ew.
  - intros nt' ew'. rewrite <- Hsd. reflexivity.
Qed.

End LeagueObject.

(** ** Examples *)

Lemma build_bracket_from_rankings_by_key_set_witness :
  _build_bracket_from_rankings
    (<[1 := JStr "GA"]> (<[2 := JStr "GB"]> (∅ : gmap Z json)))
  = [championship_placement].
Proof.
  apply (proj2 (proj2 (proj2 (proj2 (proj2
           build_bracket_from_rankings_by_key_set))))).
  by vm_compute.
Defined.


Lemma extract_season_data_roster_ids_witness :
  ∃ sd : season_data,
    extract_season_data example_builtins
      (example_api (JDict []) two_team_standings failing_scoreboard) example_league
    = Some sd
    ∧ map Roster.roster_id (rosters sd) = [1; 2]
    ∧ map Roster.owner_id (rosters sd) = [JStr "GA"; JStr "GB"].
Proof.
  destruct (extract_season_data example_builtins
              (example_api (JDict []) two_team_standings failing_scoreboard)
              example_league) as [sd|] eqn:Hsd;
    [|vm_compute in Hsd; discriminate Hsd].
  exists sd. split; [reflexivity|].
  destruct (extract_season_data_roster_ids example_builtins _ _ _ Hsd)
    as (standings_data & parsed & entries & teams_sorted & ranks & Hget
        & Hparsed & _ & _ & _ & Hids & Hperm & _ & _ & _ & _ & Hrosters & _
        & Htruthy & _ & Hkeys & Hasc).
  injection Hget as <-. vm_compute in Hparsed. injection Hparsed as <-.
  split; [exact Hids|].
  cbn [teams] in Hperm.
  apply Permutation_length_2_inv in Hperm as [->| ->].
  - exfalso.
    pose proof (Hkeys 0%nat _ eq_refl) as H0.
    pose proof (Hkeys 1%nat _ eq_refl) as H1.
    erewrite (Htruthy _ (JStr "2")) in H0; [|reflexivity..].
    erewrite (Htruthy _ (JStr "1")) in H1; [|reflexivity..].
    pose proof (Hasc 0%nat 1%nat 2 1 (le_S _ _ (le_n _)) H0 H1). lia.
  - destruct (Hrosters 0%nat _ eq_refl) as (r1 & Hr1 & _ & Ho1).
    destruct (Hrosters 1%nat _ eq_refl) as (r2 & Hr2 & _ & Ho2).
    assert (length (rosters sd) = 2%nat) as Hlen
      by (rewrite <- (length_map Roster.roster_id), Hids; reflexivity).
    destruct (rosters sd) as [|x1 [|x2 [|x3 rest]]]; try discriminate Hlen.
    injection Hr1 as ->. injection Hr2 as ->. cbn [map].
    by rewrite Ho1, Ho2.
Defined.

(** C3, as stated, fails: two teams of the manager ["G"] give two User
    entries with the user id ["G"], one per team, each with the display
    name and team name of its own team. *)
Lemma extract_season_data_duplicate_users :
  users <$> extract_season_data example_builtins
              (example_api (JDict []) shared_manager_standings failing_scoreboard)
              example_league
  = Some [{| User.user_id := JStr "G"; User.display_name := JStr "Ann";
             User.avatar := JNull; User.team_name := JStr "Team A" |};
          {| User.user_id := JStr "G"; User.display_name := JStr "Bob";
             User.avatar := JNull; User.team_name := JStr "Team B" |}].
Proof. by vm_compute. Qed.

Lemma extract_season_data_users_witness :
  ∃ sd : season_data,
    extract_season_data example_builtins
      (example_api (JDict []) shared_manager_standings failing_scoreboard) example_league
    = Some sd
    ∧ length (users sd) = length (rosters sd)
    ∧ map User.user_id (users sd) = map Roster.owner_id (rosters sd).
Proof.
  destruct (extract_season_data example_builtins
              (example_api (JDict []) shared_manager_standings failing_scoreboard)
              example_league) as [sd|] eqn:Hsd;
    [|vm_compute in Hsd; discriminate Hsd].
  exists sd. split; [reflexivity|].
  destruct (extract_season_data_users example_builtins _ _ _ Hsd)
    as (standings_data & parsed & teams_sorted & _ & _ & _ & _ & Hlen & Hids
        & _).
  by split.
Defined.

(** C5, as stated, fails: the parse of this week raises at its second
    matchup, and the week is the list of the two entries of the first
    matchup, not the empty list. *)
Lemma week_of_failing_parse :
  let team_key_to_roster_id := [(JStr "A", 1); (JStr "B", 2)] in
  (∃ matchup_data : json,
     locate_matchups failing_scoreboard = Some (Some matchup_data)
     ∧ scoreboard_matchup example_builtins team_key_to_roster_id matchup_data
         ([entry 1 1 80; entry 2 1 60], 2) 1
       = None)
  ∧ _parse_scoreboard example_builtins failing_scoreboard
      team_key_to_roster_id
    = [entry 1 1 80; entry 2 1 60]
  ∧ matchups <$> extract_season_data example_builtins
                   (example_api (JDict []) two_team_standings failing_scoreboard)
                   example_league
    = Some ([entry 1 1 80; entry 2 1 60] :: replicate 12 []).
Proof.
  intros tk. split; [|split].
  - eexists. split; by vm_compute.
  - by vm_compute.
  - by vm_compute.
Qed.

Lemma extract_season_data_weeks_witness :
  ∃ sd : season_data,
    extract_season_data example_builtins
      (example_api (JDict []) two_team_standings failing_scoreboard) example_league
    = Some sd
    ∧ length (matchups sd) = Z.to_nat (playoff_week_start (league sd) - 1).
Proof.
  destruct (extract_season_data example_builtins
              (example_api (JDict []) two_team_standings failing_scoreboard)
              example_league) as [sd|] eqn:Hsd;
    [|vm_compute in Hsd; discriminate Hsd].
  exists sd. split; [reflexivity|].
  exact (proj1 (extract_season_data_weeks example_builtins _ _ _ Hsd)).
Defined.

(** C6, as stated, fails: the parse of this settings response does not
    raise and keeps the text ["abc"] as play-off start, the conversion in
    [extract_season_data] raises and no season is produced, although the
    same standings give a season with an empty settings response; a
    settings request that raises gives no season either. *)
Lemma settings_failure_aborts_season :
  parse_league_settings_try example_builtins unconvertible_settings
  = Some [("playoff_start_week", JStr "abc")]
  ∧ effective_settings example_builtins
      (_parse_league_settings example_builtins unconvertible_settings)
    = None
  ∧ extract_season_data example_builtins
      (example_api unconvertible_settings two_team_standings
         failing_scoreboard)
      example_league
    = None
  ∧ is_Some (extract_season_data example_builtins
               (example_api (JDict []) two_team_standings failing_scoreboard)
               example_league)
  ∧ extract_season_data example_builtins raising_settings_api example_league
    = None.
Proof.
  split; [by vm_compute|]. split; [by vm_compute|]. split; [by vm_compute|].
  split; [|by vm_compute].
  destruct (extract_season_data example_builtins
              (example_api (JDict []) two_team_standings failing_scoreboard)
              example_league) as [sd|] eqn:Hsd;
    [by eexists | vm_compute in Hsd; discriminate Hsd].
Qed.

Lemma league_settings_defaults_witness :
  effective_settings example_builtins
    (_parse_league_settings example_builtins
       (JDict [("fantasy_content", JDict [("league", JList [JDict []])])]))
  = Some (10, 14, 16)
  ∧ _parse_league_settings example_builtins (JInt 5) = default_settings
  ∧ (∃ sd : season_data,
       extract_season_data example_builtins
         (example_api (JInt 5) two_team_standings failing_scoreboard)
         example_league
       = Some sd
       ∧ length (matchups sd) = 13%nat)
  ∧ extract_season_data example_builtins
      (example_api unconvertible_settings two_team_standings
         failing_scoreboard)
      example_league
    = None
  ∧ extract_season_data example_builtins raising_settings_api example_league
    = None.
Proof.
  destruct (league_settings_defaults example_builtins)
    as (Hkeys & Hraise & Hextract & Hweeks & Hdefault & Hrequest & Hconvert
        & Hint).
  split; [apply Hkeys; reflexivity|].
  split; [apply (Hraise (JInt 5)); reflexivity|].
  split; [|split].
  - destruct (assemble_season example_builtins
                (example_api (JInt 5) two_team_standings failing_scoreboard)
                example_league 10 14 16) as [sd|] eqn:Hsd;
      [|vm_compute in Hsd; discriminate Hsd].
    exists sd. split.
    + rewrite (Hdefault _ _ (JInt 5)); [exact Hsd | reflexivity |].
      right. reflexivity.
    + apply (Hweeks _ _ _ Hsd).
  - apply (Hconvert _ _ unconvertible_settings); [reflexivity|].
    apply (Hint _ "playoff_start_week" (JStr "abc"));
      [right; left | reflexivity | reflexivity].
  - apply Hrequest. reflexivity.
Defined.


Lemma determine_placements_by_matchup_id_witness :
  let final := [entry 5 2 10; entry 6 2 20; entry 7 1 30; entry 8 1 5] in
  let ids := sorted_ids (map fst (group_by_matchup final)) in
  _determine_placements [(16, final)] 14 16 []
  = placement_of 1 1 (entries_with_id final <$> ids !! 0%nat)
    ++ placement_of 2 3 (entries_with_id final <$> ids !! 1%nat).
Proof.
  intros final ids.
  refine (proj2 (proj2
            (proj1 determine_placements_by_matchup_id
               [(16, final)] 14 16 [] final None ∅ _ _ _))).
  - reflexivity.
  - discriminate.
  - reflexivity.
Defined.

Lemma determine_placements_tie_witness :
  placement_of 1 1 (Some [entry 1 1 70; entry 3 1 70])
  = [{| Placement.r := 2; Placement.m := 1;
        Placement.t1 := 1; Placement.t2 := 1;
        Placement.w := 1; Placement.l := 1; Placement.p := 1 |}].
Proof.
  apply (proj1 determine_placements_tie 1 1 (entry 1 1 70) (entry 3 1 70)).
  reflexivity.
Defined.


(** Two teams whose manager info has no guid share the owner id [""]. *)
Lemma no_guid_teams_share_owner :
  (λ sd, (map User.user_id (users sd), map Roster.owner_id (rosters sd)))
    <$> extract_season_data example_builtins
          (example_api (JDict []) no_guid_standings failing_scoreboard) example_league
  = Some ([JStr ""; JStr ""], [JStr ""; JStr ""]).
Proof. by vm_compute. Qed.

Lemma extract_season_data_bracket_witness :
  ∃ sd : season_data,
    extract_season_data example_builtins
      (example_api (JDict []) two_team_standings failing_scoreboard)
      example_league
    = Some sd
    ∧ winnersBracket sd = bracket_of_count (length (rosters sd)).
Proof.
  destruct (extract_season_data example_builtins
              (example_api (JDict []) two_team_standings failing_scoreboard)
              example_league) as [sd|] eqn:Hsd;
    [|vm_compute in Hsd; discriminate Hsd].
  exists sd. split; [reflexivity|].
  exact (proj1 (extract_season_data_bracket example_builtins _ _ _ Hsd)).
Defined.

Lemma extract_season_data_roster_to_owner_witness :
  ∃ sd : season_data,
    extract_season_data example_builtins
      (example_api (JDict []) two_team_standings failing_scoreboard)
      example_league
    = Some sd
    ∧ ∀ ro : Roster.t,
        ro ∈ rosters sd →
        rosterToOwner sd !! str_of_Z (Roster.roster_id ro)
        = Some (Roster.owner_id ro).
Proof.
  destruct (extract_season_data example_builtins
              (example_api (JDict []) two_team_standings failing_scoreboard)
              example_league) as [sd|] eqn:Hsd;
    [|vm_compute in Hsd; discriminate Hsd].
  exists sd. split; [reflexivity|].
  exact (proj1 (extract_season_data_roster_to_owner example_builtins _ _ _
                  Hsd)).
Defined.

Lemma extract_season_data_scoreboard_independent_witness :
  extract_season_data example_builtins
    (example_api (JDict []) two_team_standings failing_scoreboard)
    example_league = None
  ↔ extract_season_data example_builtins
      (example_api (JDict []) two_team_standings three_team_scoreboard)
      example_league = None.
Proof.
  apply (extract_season_data_scoreboard_independent example_builtins).
  split; intros league_key; reflexivity.
Defined.

Lemma parse_team_entry_record_witness :
  ∃ team : pydict,
    _parse_team_entry example_builtins
      (JList [JList [JDict [("team_key", JStr "A")];
                     JDict [("name", JStr "Team A")]];
              JDict [("team_standings", JDict [("rank", JStr "1")])]])
    = Some team
    ∧ NoDup (map fst team).
Proof.
  destruct (_parse_team_entry example_builtins
              (JList [JList [JDict [("team_key", JStr "A")];
                             JDict [("name", JStr "Team A")]];
                      JDict [("team_standings",
                              JDict [("rank", JStr "1")])]]))
    as [team|] eqn:Hteam; [|vm_compute in Hteam; discriminate Hteam].
  exists team. split; [reflexivity|].
  exact (proj1 (proj2 (parse_team_entry_record example_builtins _ _ Hteam))).
Defined.

Lemma extract_season_data_produced_witness :
  ∃ (settings_data standings_data : json) (parsed : standings),
    get_league_settings
      (example_api (JDict []) two_team_standings failing_scoreboard)
      (lg_league_key example_league)
    = Some settings_data
    ∧ is_Some (effective_settings example_builtins
                 (_parse_league_settings example_builtins settings_data))
    ∧ get_league_standings
        (example_api (JDict []) two_team_standings failing_scoreboard)
        (lg_league_key example_league)
      = Some standings_data
    ∧ _parse_standings example_builtins standings_data = Some parsed
    ∧ Forall (λ team, is_Some (rank_key example_builtins team))
        (teams parsed)
    ∧ Forall (λ team,
                hashable (dict_get_or "team_key" (JStr "") team) = true)
        (teams parsed).
Proof.
  apply (extract_season_data_produced example_builtins).
  destruct (extract_season_data example_builtins
              (example_api (JDict []) two_team_standings failing_scoreboard)
              example_league) as [sd|] eqn:Hsd;
    [by eexists | vm_compute in Hsd; discriminate Hsd].
Defined.

Lemma parse_league_settings_first_element_witness :
  let data :=
    JDict [("fantasy_content",
            JDict [("league",
                    JList [JDict [("num_teams", JStr "12")];
                           JDict [("settings",
                                   JList [JDict [("num_teams", JInt 8)]])]])])]
  in
  ∃ z : Z,
    z = 12
    ∧ dict_get "num_teams" (_parse_league_settings example_builtins data)
      = Some (JInt z).
Proof.
  intros data.
  destruct (parse_league_settings_try example_builtins data)
    as [settings|] eqn:Htry; [|vm_compute in Htry; discriminate Htry].
  destruct (parse_league_settings_first_element example_builtins data
              (JList [JDict [("num_teams", JStr "12")];
                      JDict [("settings",
                              JList [JDict [("num_teams", JInt 8)]])]])
              [("num_teams", JStr "12")] settings "num_teams" (JStr "12")
              Htry eq_refl eq_refl)
    as (Hparse & z & Hint & Hget).
  - by left.
  - reflexivity.
  - exists z. split; [|by rewrite Hparse].
    vm_compute in Hint. by injection Hint as <-.
Defined.

Lemma team_key_to_roster_id_lookup_witness :
  keydict_get (JStr "B") 9 [(JStr "A", 1); (JStr "B", 2)] = Some 2.
Proof.
  apply (proj1 (team_key_to_roster_id_lookup
                  [[("team_key", JStr "A")]; [("team_key", JStr "B")]]
                  [(JStr "A", 1); (JStr "B", 2)] eq_refl)
           1%nat [("team_key", JStr "B")] (JStr "B") 9).
  - reflexivity.
  - reflexivity.
  - intros [|[|j]] team' Hij Hj; [lia | lia | discriminate Hj].
Defined.


Lemma group_by_matchup_partition_witness :
  let week := [entry 5 2 10; entry 7 1 30; entry 6 2 20; entry 8 1 5] in
  Permutation (concat (map snd (group_by_matchup week))) week.
Proof.
  intros week.
  exact (proj2 (proj2 (proj2 (group_by_matchup_partition week)))).
Defined.

Lemma parse_scoreboard_listed_witness :
  _parse_scoreboard example_builtins
    (scoreboard_of
       [scoreboard_pair_of
          ((JStr "A", JFloat 80), (JStr "Z", JFloat 60))])
    [(JStr "A", 7)]
  = [entry 7 1 80; entry 2 1 60].
Proof.
  apply (parse_scoreboard_listed example_builtins [(JStr "A", 7)]
           [((JStr "A", JFloat 80), (JStr "Z", JFloat 60))]).
  repeat constructor; by eexists.
Defined.

Lemma discover_leagues_by_year_witness :
  discover_year example_api_get [] 2014 = [].
Proof.
  apply (proj1 (proj2 (discover_leagues_by_year example_api_get))
           2014 331); reflexivity.
Defined.

Lemma league_loop_keeps_found_witness :
  let leagues_data :=
    indexed [league_entry [("name", JStr "First")]; JNull;
             league_entry [("name", JStr "Third")]] in
  ∃ found : list League.t,
    for_each_commit (add_league leagues_data 2015 348) [0; 1; 2]%nat []
    = (found, false)
    ∧ (length found <= 1)%nat.
Proof.
  intros leagues_data.
  destruct (for_each_commit (add_league leagues_data 2015 348)
              [0; 1; 2]%nat []) as [found ok] eqn:Hloop.
  assert (ok = false) as -> by (vm_compute in Hloop; congruence).
  exists found. split; [reflexivity|].
  exact (proj2 (proj2 (league_loop_keeps_found leagues_data 2015 348
                         [0; 1; 2]%nat [] found false Hloop))
           1%nat 1%nat eq_refl eq_refl).
Defined.

Lemma discover_year_listed_witness :
  discover_year example_api_get [] 2015
  = [league_of_info 2015 348
       [("name", JStr "Football 101"); ("league_key", JStr "348.l.1");
        ("league_id", JStr "1"); ("season", JStr "2015")];
     league_of_info 2015 348
       [("name", JStr "Other"); ("league_key", JStr "348.l.2")]].
Proof.
  apply (discover_year_listed example_api_get 2015 348
           [[("name", JStr "Football 101"); ("league_key", JStr "348.l.1");
             ("league_id", JStr "1"); ("season", JStr "2015")];
            [("name", JStr "Other"); ("league_key", JStr "348.l.2")]]);
    reflexivity.
Defined.

Lemma filter_leagues_kept_witness :
  ∃ filtered : list League.t,
    filter_leagues example_text_builtins (discover_leagues example_api_get)
    = Some filtered
    ∧ filter_leagues example_text_builtins filtered = Some filtered.
Proof.
  destruct (filter_leagues example_text_builtins
              (discover_leagues example_api_get)) as [filtered|] eqn:Hf;
    [|vm_compute in Hf; discriminate Hf].
  exists filtered. split; [reflexivity|].
  exact (proj2 (proj2 (proj2
           (proj2 (filter_leagues_kept example_text_builtins
                     (discover_leagues example_api_get)) filtered Hf)))).
Defined.

Lemma collect_managers_first_seen_witness :
  ∃ (sd : season_data) (all_managers : managers),
    extract_season_data example_builtins
      (example_api (JDict []) shared_manager_standings failing_scoreboard)
      example_league
    = Some sd
    ∧ collect_managers [sd] = Some all_managers
    ∧ managers_find (JStr "G") all_managers
      = User.display_name <$> first_user (JStr "G") (users sd ++ []).
Proof.
  destruct (extract_season_data example_builtins
              (example_api (JDict []) shared_manager_standings
                 failing_scoreboard)
              example_league) as [sd|] eqn:Hsd;
    [|vm_compute in Hsd; discriminate Hsd].
  destruct (collect_managers [sd]) as [all_managers|] eqn:Hm.
  - exists sd, all_managers. split; [reflexivity|]. split; [exact Hm|].
    exact (proj1 (proj2 (collect_managers_first_seen [sd]) all_managers Hm)
             (JStr "G")).
  - exfalso. vm_compute in Hsd. injection Hsd as <-.
    vm_compute in Hm. discriminate Hm.
Defined.

Lemma extract_season_data_requests_witness :
  extract_season_data example_builtins (api_of playoff_week_api_get)
    example_league
  = extract_season_data example_builtins (api_of example_season_api_get)
      example_league
  ∧ is_Some (extract_season_data example_builtins
               (api_of example_season_api_get) example_league)
  ∧ playoff_week_api_get (scoreboard_path "L" 14)
    ≠ example_season_api_get (scoreboard_path "L" 14).
Proof.
  split; [|split].
  - apply (extract_season_data_requests example_builtins
             example_season_api_get playoff_week_api_get example_league).
    + reflexivity.
    + reflexivity.
    + intros settings_data num_teams playoff_start end_week week Hget Heff
        Hweek.
      vm_compute in Hget. injection Hget as <-.
      vm_compute in Heff. injection Heff as <- <- <-.
      assert (week = 1 ∨ week = 2 ∨ week = 3 ∨ week = 4 ∨ week = 5
              ∨ week = 6 ∨ week = 7 ∨ week = 8 ∨ week = 9 ∨ week = 10
              ∨ week = 11 ∨ week = 12 ∨ week = 13) as Hcases by lia.
      repeat (destruct Hcases as [->|Hcases]; [reflexivity|]).
      subst week. reflexivity.
  - destruct (extract_season_data example_builtins
                (api_of example_season_api_get) example_league)
      as [sd|] eqn:Hsd; [by eexists | vm_compute in Hsd; discriminate Hsd].
  - discriminate.
Defined.

Lemma extract_season_data_league_witness :
  ∃ sd : season_data,
    extract_season_data example_builtins
      (example_api (JDict []) two_team_standings failing_scoreboard)
      example_league
    = Some sd
    ∧ total_rosters (league sd) = length (rosters sd).
Proof.
  destruct (extract_season_data example_builtins
              (example_api (JDict []) two_team_standings failing_scoreboard)
              example_league) as [sd|] eqn:Hsd;
    [|vm_compute in Hsd; discriminate Hsd].
  exists sd. split; [reflexivity|].
  exact (proj1 (proj2 (proj2 (proj2
           (extract_season_data_league example_builtins _ _ _ Hsd))))).
Defined.
